(** * PublicBookingCalendar: availability and slot-conflict engine

    A shallow embedding of the booking back end
    (backend/src/modules/availability, .../public, .../bookings,
    .../services, the pagination helpers of backend/src/utils/response
    and the table definitions of backend/src/database/migrations)
    together with the properties its specification states about it and
    further properties of the same routes.

    Conventions of the embedding.
    - A JavaScript [Date] built by [parse(t, 'HH:mm', dateObj)] is the
      number of minutes elapsed since the midnight of [dateObj]; it may
      leave the day after [addMinutes].  Daylight-saving shifts are not
      modelled.  An Invalid Date is [None].
    - Wall-clock times enter as the text ["HH:mm"], as the route schemas
      and [types/index.ts] declare them, and a row keeps the text of its
      TIME columns as it was inserted.  A route that reads such a column
      receives the text ["HH:MM:SS"]: the pool of config/database.ts sets
      no type parser, and node-postgres hands a TIME value over as
      PostgreSQL prints it.  JavaScript compares text with [<] code unit
      by code unit, SQL compares the TIME it denotes.  The rows answered
      by [INSERT] and [UPDATE ... RETURNING] are given as they are stored.
    - Each [await db.query(...)] is one atomic statement against the
      store; a statement the tables reject raises, the store unchanged.
      No route of this development opens a transaction: the source calls
      [db.query] and [db.queryOne], never [db.transaction], in them.
    - A handler receives what the middlewares left: the tenant of the
      request and, where the route authenticates, the user.  The [uuid()]
      values are arguments.  The syntax of uuids and of e-mail addresses,
      the timestamp columns, the socket events and the scheduling of
      notifications (the rows that [scheduleBookingNotifications] adds to
      the notifications table after a public reservation) are not
      modelled.  Dates are read in the shape [YYYY-MM-DD] only. *)

From Stdlib Require Import ZArith List Bool String Ascii Lia.
Import ListNotations.

Local Open Scope Z_scope.

(** ** Wall-clock text *)

Module TimeText.

(** Value of a decimal digit character, [None] for any other character. *)
Definition digit_val (c : ascii) : option Z :=
  let n := Z.of_nat (nat_of_ascii c) in
  if (48 <=? n) && (n <=? 57) then Some (n - 48) else None.

Definition digit_char (n : Z) : ascii := ascii_of_nat (Z.to_nat (48 + n)).

(** Two decimal digits, zero padded: the [HH] and [mm] tokens of
    date-fns [format]. *)
Definition pad2 (n : Z) : string :=
  String (digit_char (n / 10)) (String (digit_char (n mod 10)) EmptyString).

(** The four digits of a text of the shape [dd:dd]. *)
Definition digits_of (s : string) : option (Z * Z * Z * Z) :=
  match s with
  | String a (String b (String c (String d (String e EmptyString)))) =>
      match digit_val a, digit_val b, digit_val d, digit_val e with
      | Some h1, Some h0, Some m1, Some m0 =>
          if Ascii.eqb c ":"%char then Some (h1, h0, m1, m0) else None
      | _, _, _, _ => None
      end
  | _ => None
  end.

(** The pattern [/^([01]\d|2[0-3]):([0-5]\d)$/] of the route schemas. *)
Definition timePattern (s : string) : bool :=
  match digits_of s with
  | Some (h1, h0, m1, _) =>
      ((h1 <=? 1) || ((h1 =? 2) && (h0 <=? 3))) && (m1 <=? 5)
  | None => false
  end.

(** Minutes since midnight denoted by a text [HH:mm] (0 off the shape). *)
Definition minutesOf (s : string) : Z :=
  match digits_of s with
  | Some (h1, h0, m1, m0) => (10 * h1 + h0) * 60 + (10 * m1 + m0)
  | None => 0
  end.

(** [parse(s, 'HH:mm', dateObj)]: the instant of that day, or Invalid
    Date.  Only texts that passed [timePattern] are stored by the routes;
    for any other text the model answers Invalid Date. *)
Definition parse_HHmm (s : string) : option Z :=
  if timePattern s then Some (minutesOf s) else None.

(** [format(t, 'HH:mm')]: the time of day of an instant. *)
Definition format_HHmm (t : Z) : string :=
  let m := t mod 1440 in
  (pad2 (m / 60) ++ ":" ++ pad2 (m mod 60))%string.

(** JavaScript [a < b] and [a === b] on strings. *)
Definition js_lt (a b : string) : bool := String.ltb a b.
Definition js_eq (a b : string) : bool := String.eqb a b.

(** SQL [a < b] on TIME values given by their text. *)
Definition sql_time_lt (a b : string) : bool := minutesOf a <? minutesOf b.

(** The text in which a route receives a TIME column: the time of day
    with its seconds, [HH:MM:SS].  The routes store whole minutes. *)
Definition time_text (t : string) : string :=
  (format_HHmm (minutesOf t) ++ ":00")%string.

End TimeText.

(** ** Calendar dates *)

Module Calendar.

Import TimeText.

Definition all_digits (s : string) : bool :=
  forallb (fun c => match digit_val c with Some _ => true | None => false end)
          (list_ascii_of_string s).

Fixpoint number_of (acc : Z) (s : string) : Z :=
  match s with
  | EmptyString => acc
  | String c r =>
      number_of (10 * acc + match digit_val c with Some v => v | None => 0 end) r
  end.

(** The pattern [/^\d{4}-\d{2}-\d{2}$/] of the route schemas. *)
Definition datePattern (s : string) : bool :=
  (String.length s =? 10)%nat
  && all_digits (substring 0 4 s) && String.eqb (substring 4 1 s) "-"
  && all_digits (substring 5 2 s) && String.eqb (substring 7 1 s) "-"
  && all_digits (substring 8 2 s).

Definition is_leap (y : Z) : bool :=
  ((y mod 4 =? 0) && negb (y mod 100 =? 0)) || (y mod 400 =? 0).

Definition days_in_month (y m : Z) : Z :=
  if m =? 2 then (if is_leap y then 29 else 28)
  else if (m =? 4) || (m =? 6) || (m =? 9) || (m =? 11) then 30 else 31.

(** [parse(date, 'yyyy-MM-dd', new Date())]: year, month and day, or
    Invalid Date when the text is no calendar date; there is no year 0.
    Only texts of the shape [YYYY-MM-DD] are read: the spellings with
    fewer digits that date-fns and PostgreSQL also accept are left out. *)
Definition parse_date (s : string) : option (Z * Z * Z) :=
  if datePattern s then
    let y := number_of 0 (substring 0 4 s) in
    let m := number_of 0 (substring 5 2 s) in
    let d := number_of 0 (substring 8 2 s) in
    if (1 <=? y) && (1 <=? m) && (m <=? 12) && (1 <=? d) && (d <=? days_in_month y m)
    then Some (y, m, d) else None
  else None.

(** Days since 1970-01-01 of a proleptic Gregorian date. *)
Definition days_from_civil (y m d : Z) : Z :=
  let y' := if m <=? 2 then y - 1 else y in
  let era := y' / 400 in
  let yoe := y' - era * 400 in
  let doy := (153 * (if 2 <? m then m - 3 else m + 9) + 2) / 5 + d - 1 in
  let doe := yoe * 365 + yoe / 4 - yoe / 100 + doy in
  era * 146097 + doe - 719468.

(** [dateObj.getDay()]: 0 is Sunday, 6 is Saturday. *)
Definition getDay (date : string) : option Z :=
  match parse_date date with
  | Some (y, m, d) => Some ((days_from_civil y m d + 4) mod 7)
  | None => None
  end.

End Calendar.

(** ** Tables (backend/src/database/migrations) *)

Module Tables.

Import TimeText.

Definition uuid := string.

Inductive BookingStatus := pending | confirmed | completed | cancelled | no_show.
Inductive PaymentStatus := pay_pending | pay_completed | pay_failed | pay_refunded.
Inductive VisitType := in_person | virtual.
Inductive UserRole := super_admin | tenant_admin | staff | client.

Definition status_eqb (a b : BookingStatus) : bool :=
  match a, b with
  | pending, pending | confirmed, confirmed | completed, completed
  | cancelled, cancelled | no_show, no_show => true
  | _, _ => false
  end.

(** Amounts of money (DECIMAL(10,2)) are counted in hundredths; the
    timestamp columns are left out. *)
Record User := {
  u_id : uuid;
  u_tenant_id : option uuid;
  u_email : string;
  u_password_hash : string;
  u_role : UserRole;
  u_first_name : string;
  u_last_name : string;
  u_phone : option string;
  u_is_active : bool;
  u_email_verified : bool }.

Record Service := {
  sv_id : uuid;
  sv_tenant_id : uuid;
  sv_name : string;
  sv_duration_minutes : Z;
  sv_price : Z;
  sv_currency : string;
  sv_is_active : bool }.

Record Professional := {
  p_id : uuid;
  p_tenant_id : uuid;
  p_user_id : uuid;
  p_is_active : bool }.

Record AvailabilityRule := {
  r_id : uuid;
  r_tenant_id : uuid;
  r_professional_id : uuid;
  r_day_of_week : Z;
  r_start_time : string;
  r_end_time : string;
  r_is_active : bool }.

Record AvailabilityException := {
  x_id : uuid;
  x_professional_id : uuid;
  x_date : string;
  x_is_available : bool;
  x_start_time : option string;
  x_end_time : option string;
  x_reason : option string }.

Record Booking := {
  b_id : uuid;
  b_tenant_id : uuid;
  b_client_id : option uuid;
  b_professional_id : uuid;
  b_service_id : uuid;
  b_date : string;
  b_start_time : string;
  b_end_time : string;
  b_status : BookingStatus;
  b_visit_type : VisitType;
  b_notes : option string;
  b_payment_status : PaymentStatus;
  b_total_amount : Z;
  b_currency : string;
  b_cancelled_by : option uuid;
  b_cancellation_reason : option string }.

(** The relational store.  A table is the list of its rows in insertion
    order; a SELECT without ORDER BY answers in that order. *)
Record Store := {
  users : list User;
  services : list Service;
  professionals : list Professional;
  availability_rules : list AvailabilityRule;
  availability_exceptions : list AvailabilityException;
  bookings : list Booking }.

Definition with_users (st : Store) (us : list User) : Store :=
  {| users := us; services := services st; professionals := professionals st;
     availability_rules := availability_rules st;
     availability_exceptions := availability_exceptions st;
     bookings := bookings st |}.

Definition with_bookings (st : Store) (bs : list Booking) : Store :=
  {| users := users st; services := services st;
     professionals := professionals st;
     availability_rules := availability_rules st;
     availability_exceptions := availability_exceptions st;
     bookings := bs |}.

(** Outcome of one statement: the new store and the rows answered, or the
    statement is rejected and raises, the store unchanged. *)
Inductive DbResult (X : Type) : Type :=
| DbOk (st : Store) (x : X)
| DbRaise.
Arguments DbOk {X} st x.
Arguments DbRaise {X}.

Definition opt_eqb (a : option string) (b : string) : bool :=
  match a with Some x => String.eqb x b | None => false end.

Definition user_exists (st : Store) (id : uuid) : bool :=
  existsb (fun u => String.eqb (u_id u) id) (users st).

Definition fk_user (st : Store) (id : option uuid) : bool :=
  match id with Some i => user_exists st i | None => true end.

Definition within (n : nat) (s : string) : bool := (String.length s <=? n)%nat.

(** INSERT INTO users: primary key, [unique_email_per_tenant] and the
    VARCHAR bounds of 002_create_users.sql. *)
Definition users_accept (st : Store) (u : User) : bool :=
  negb (user_exists st (u_id u))
  && negb (existsb (fun v => match u_tenant_id v, u_tenant_id u with
                             | Some a, Some b =>
                                 String.eqb a b && String.eqb (u_email v) (u_email u)
                             | _, _ => false
                             end) (users st))
  && within 255 (u_email u) && within 255 (u_password_hash u)
  && within 50 (u_first_name u) && within 50 (u_last_name u)
  && match u_phone u with Some ph => within 20 ph | None => true end.

Definition insert_user (u : User) (st : Store) : DbResult unit :=
  if users_accept st u then DbOk (with_users st (users st ++ [u])) tt
  else DbRaise.

(** The constraints of the bookings table: primary key, the foreign keys
    to professionals, services and users, and
    [valid_booking_time CHECK (start_time < end_time)].  The tenant of a
    request was resolved from the tenants table by the tenant middleware,
    so its foreign key is taken to hold; the currency is copied from a
    row of services, which bounds it as bookings does. *)
Definition bookings_accept (st : Store) (b : Booking) : bool :=
  negb (existsb (fun c => String.eqb (b_id c) (b_id b)) (bookings st))
  && existsb (fun p => String.eqb (p_id p) (b_professional_id b)) (professionals st)
  && existsb (fun s => String.eqb (sv_id s) (b_service_id b)) (services st)
  && fk_user st (b_client_id b)
  && fk_user st (b_cancelled_by b)
  && sql_time_lt (b_start_time b) (b_end_time b).

(** INSERT INTO bookings ... RETURNING * *)
Definition insert_booking (b : Booking) (st : Store) : DbResult Booking :=
  if bookings_accept st b then DbOk (with_bookings st (bookings st ++ [b])) b
  else DbRaise.

(** A DATE parameter that is no calendar date is rejected by the store. *)
Definition date_param (date : string) : bool :=
  match Calendar.parse_date date with Some _ => true | None => false end.

(** SELECT id FROM bookings WHERE professional_id = $1 AND date = $2
    AND status NOT IN ('cancelled')
    AND (start_time < $4 AND end_time > $3) *)
Definition conflicts (professional_id date start_time end_time : string)
    (b : Booking) : bool :=
  String.eqb (b_professional_id b) professional_id
  && String.eqb (b_date b) date
  && negb (status_eqb (b_status b) cancelled)
  && (sql_time_lt (b_start_time b) end_time
      && sql_time_lt start_time (b_end_time b)).

Definition select_conflict (professional_id date start_time end_time : string)
    (st : Store) : DbResult (option Booking) :=
  if date_param date then
    DbOk st (find (conflicts professional_id date start_time end_time) (bookings st))
  else DbRaise.

(** The same query with [AND id != $5] (reschedule). *)
Definition select_conflict_except
    (professional_id date start_time end_time id : string)
    (st : Store) : DbResult (option Booking) :=
  if date_param date then
    DbOk st (find (fun b => conflicts professional_id date start_time end_time b
                            && negb (String.eqb (b_id b) id)) (bookings st))
  else DbRaise.

(** SELECT id FROM users WHERE email = $1 AND tenant_id = $2 *)
Definition select_user_by_email (email tenantId : string) (st : Store)
    : DbResult (option User) :=
  DbOk st (find (fun u => String.eqb (u_email u) email
                          && opt_eqb (u_tenant_id u) tenantId) (users st)).

(** SELECT ... FROM services WHERE id = $1 AND tenant_id = $2
    [AND is_active = true] *)
Definition select_service (only_active : bool) (id tenantId : string)
    (st : Store) : DbResult (option Service) :=
  DbOk st (find (fun s => String.eqb (sv_id s) id
                          && String.eqb (sv_tenant_id s) tenantId
                          && (negb only_active || sv_is_active s)) (services st)).

(** SELECT * FROM bookings WHERE id = $1 AND tenant_id = $2 *)
Definition select_booking (id tenantId : string) (st : Store)
    : DbResult (option Booking) :=
  DbOk st (find (fun b => String.eqb (b_id b) id
                          && String.eqb (b_tenant_id b) tenantId) (bookings st)).

(** UPDATE bookings SET ... WHERE [sel] RETURNING *: every selected row is
    rewritten by [set]; a rewritten row must still satisfy the CHECK and
    the foreign key of [cancelled_by].  The answer is the first rewritten
    row ([rows[0] || null]). *)
Definition update_bookings (sel : Booking -> bool) (set : Booking -> Booking)
    (st : Store) : DbResult (option Booking) :=
  let touched := map set (filter sel (bookings st)) in
  if forallb (fun b => sql_time_lt (b_start_time b) (b_end_time b)
                       && fk_user st (b_cancelled_by b)) touched
  then DbOk (with_bookings st (map (fun b => if sel b then set b else b) (bookings st)))
            (hd_error touched)
  else DbRaise.

(** SELECT * FROM availability_exceptions
    WHERE professional_id = $1 AND date = $2 *)
Definition select_exception (professionalId date : string) (st : Store)
    : DbResult (option AvailabilityException) :=
  if date_param date then
    DbOk st (find (fun x => String.eqb (x_professional_id x) professionalId
                            && String.eqb (x_date x) date)
                  (availability_exceptions st))
  else DbRaise.

(** ORDER BY start_time: an insertion sort on the TIME value; rows with
    the same start keep the order of the table (SQL leaves it open). *)
Fixpoint insert_rule (r : AvailabilityRule) (l : list AvailabilityRule)
    : list AvailabilityRule :=
  match l with
  | [] => [r]
  | x :: rest =>
      if sql_time_lt (r_start_time x) (r_start_time r) then x :: insert_rule r rest
      else r :: l
  end.

Definition order_by_start_time (l : list AvailabilityRule) : list AvailabilityRule :=
  fold_right insert_rule [] l.

(** A row of availability_rules as a route receives it. *)
Definition deliver_rule (r : AvailabilityRule) : AvailabilityRule :=
  {| r_id := r_id r; r_tenant_id := r_tenant_id r;
     r_professional_id := r_professional_id r;
     r_day_of_week := r_day_of_week r;
     r_start_time := time_text (r_start_time r);
     r_end_time := time_text (r_end_time r);
     r_is_active := r_is_active r |}.

(** SELECT * FROM availability_rules WHERE professional_id = $1
    AND tenant_id = $2 AND day_of_week = $3 AND is_active = true
    ORDER BY start_time.  [rules_of_day] is the rows the statement
    selects, in its order, as they are stored; [select_rules] hands them
    to the route.  [dayOfWeek] is [None] when [getDay()] is NaN, which
    the integer column rejects. *)
Definition rules_of_day (professionalId tenantId : string) (dow : Z)
    (st : Store) : list AvailabilityRule :=
  order_by_start_time
    (filter (fun r => String.eqb (r_professional_id r) professionalId
                      && String.eqb (r_tenant_id r) tenantId
                      && (r_day_of_week r =? dow)
                      && r_is_active r)
            (availability_rules st)).

Definition select_rules (professionalId tenantId : string) (dayOfWeek : option Z)
    (st : Store) : DbResult (list AvailabilityRule) :=
  match dayOfWeek with
  | Some dow =>
      DbOk st (map deliver_rule (rules_of_day professionalId tenantId dow st))
  | None => DbRaise
  end.

(** SELECT start_time, end_time FROM bookings WHERE professional_id = $1
    AND date = $2 AND status NOT IN ('cancelled'); the two columns arrive
    as [time_text]. *)
Definition booked (professionalId date : string) (b : Booking) : bool :=
  String.eqb (b_professional_id b) professionalId
  && String.eqb (b_date b) date
  && negb (status_eqb (b_status b) cancelled).

Definition booked_intervals (professionalId date : string) (st : Store)
    : list (string * string) :=
  map (fun b => (time_text (b_start_time b), time_text (b_end_time b)))
      (filter (booked professionalId date) (bookings st)).

Definition select_existing_bookings (professionalId date : string) (st : Store)
    : DbResult (list (string * string)) :=
  if date_param date then DbOk st (booked_intervals professionalId date st)
  else DbRaise.

(** The store with the hours of every exception erased. *)
Definition forget_hours (x : AvailabilityException) : AvailabilityException :=
  {| x_id := x_id x; x_professional_id := x_professional_id x;
     x_date := x_date x; x_is_available := x_is_available x;
     x_start_time := None; x_end_time := None; x_reason := x_reason x |}.

Definition without_hours (st : Store) : Store :=
  {| users := users st; services := services st;
     professionals := professionals st;
     availability_rules := availability_rules st;
     availability_exceptions := map forget_hours (availability_exceptions st);
     bookings := bookings st |}.

End Tables.

(** ** Asynchronous handlers *)

Module Async.

Import Tables.

(** A route handler is a tree of statements: [Await q k] sends the
    statement [q] to the store and continues with [k] on its answer;
    [Throw] is a JavaScript exception, [Spin] a loop that is still running
    when the fuel of the model is spent. *)
Inductive Async (A : Type) : Type :=
| Return (a : A)
| Throw
| Spin
| Await (X : Type) (q : Store -> DbResult X) (k : X -> Async A).
Arguments Return {A} a.
Arguments Throw {A}.
Arguments Spin {A}.
Arguments Await {A X} q k.

Fixpoint bind {A B : Type} (p : Async A) (f : A -> Async B) : Async B :=
  match p with
  | Return a => f a
  | Throw => Throw
  | Spin => Spin
  | Await q k => Await q (fun x => bind (k x) f)
  end.

(** What the caller of a route observes: a response, an exception handed
    to the error middleware by [asyncHandler], or no answer yet. *)
Inductive Reply (A : Type) : Type :=
| Sent (a : A)
| Raised
| Pending.
Arguments Sent {A} a.
Arguments Raised {A}.
Arguments Pending {A}.

(** One request running alone, from its first statement to its answer. *)
Fixpoint exec {A : Type} (p : Async A) (st : Store) : Store * Reply A :=
  match p with
  | Return a => (st, Sent a)
  | Throw => (st, Raised)
  | Spin => (st, Pending)
  | Await q k =>
      match q st with
      | DbOk st' x => exec (k x) st'
      | DbRaise => (st, Raised)
      end
  end.

(** Requests in flight together: the event loop resumes one of them at a
    time, and a resumed request runs up to its next [await]. *)
Inductive Thread (A : Type) : Type :=
| Running (p : Async A)
| Done (r : Reply A).
Arguments Running {A} p.
Arguments Done {A} r.

Definition resume {A : Type} (t : Thread A) (st : Store) : Store * Thread A :=
  match t with
  | Done r => (st, Done r)
  | Running (Return a) => (st, Done (Sent a))
  | Running Throw => (st, Done Raised)
  | Running Spin => (st, Done Pending)
  | Running (Await q k) =>
      match q st with
      | DbOk st' x => (st', Running (k x))
      | DbRaise => (st, Done Raised)
      end
  end.

(** [interleave sched t1 t2 st]: [true] resumes the first request,
    [false] the second. *)
Fixpoint interleave {A : Type} (sched : list bool) (t1 t2 : Thread A)
    (st : Store) : Store * Thread A * Thread A :=
  match sched with
  | [] => (st, t1, t2)
  | true :: rest =>
      let (st', t1') := resume t1 st in interleave rest t1' t2 st'
  | false :: rest =>
      let (st', t2') := resume t2 st in interleave rest t1 t2' st'
  end.

(** The responses of the routes ([sendSuccess], [sendCreated] and the
    literal [res.status(...)] answers); [ValidationFailed] is the
    ValidationError of the [validate] middleware. *)
Inductive Response (A : Type) : Type :=
| Success (data : A)
| Created (data : A)
| NoChanges
| BadRequest
| NotFound
| Conflict
| ValidationFailed.
Arguments Success {A} data.
Arguments Created {A} data.
Arguments NoChanges {A}.
Arguments BadRequest {A}.
Arguments NotFound {A}.
Arguments Conflict {A}.
Arguments ValidationFailed {A}.

End Async.

Declare Scope async_scope.
Delimit Scope async_scope with async.
Notation "x <- 'await' q ;; k" := (Async.Await q (fun x => k))
  (at level 61, q at next level, right associativity) : async_scope.
Notation "x <- p ;; k" := (Async.bind p (fun x => k))
  (at level 61, p at next level, right associativity) : async_scope.

(** ** Slot generation (availability.routes.ts and public.routes.ts) *)

Module Slots.

Import TimeText Tables Async.
Local Open Scope async_scope.

Record Slot := {
  start_time : string;
  end_time : string;
  available : bool }.

(** date-fns on a [Date] that may be Invalid.  [addMinutes] counts
    minutes of the day of [dateObj]; a daylight-saving change of the
    server's time zone on that day is not modelled. *)
Definition isBefore (a b : option Z) : bool :=
  match a, b with Some x, Some y => x <? y | _, _ => false end.

Definition isAfter (a b : option Z) : bool :=
  match a, b with Some x, Some y => y <? x | _, _ => false end.

Definition addMinutes (t : Z) (n : Z) : Z := t + n.

(** [existingBookings.some(b => slotStart < b.end_time && slotEnd > b.start_time)] *)
Definition isBooked (existingBookings : list (string * string))
    (slotStart slotEnd : string) : bool :=
  existsb (fun booking => js_lt slotStart (snd booking)
                          && js_lt (fst booking) slotEnd) existingBookings.

Inductive LoopResult : Type :=
| Finished (slots : list Slot)
| RangeError
| NoFuel.

(** The [while] loop of one rule, [fuel] bounding its iterations;
    [slots] is the array the loop pushes to. *)
Fixpoint slotLoop (fuel : nat) (existingBookings : list (string * string))
    (durationMinutes : Z) (rule_end_time : string) (endTime : option Z)
    (currentTime : Z) (slots : list Slot) : LoopResult :=
  match fuel with
  | O => NoFuel
  | S fuel' =>
      if isBefore (Some (addMinutes currentTime durationMinutes)) endTime
         || js_eq (format_HHmm (addMinutes currentTime durationMinutes)) rule_end_time
      then
        let slotStart := format_HHmm currentTime in
        let slotEnd := format_HHmm (addMinutes currentTime durationMinutes) in
        let slots' := slots ++ [{| start_time := slotStart;
                                   end_time := slotEnd;
                                   available := negb (isBooked existingBookings slotStart slotEnd) |}] in
        let currentTime' := addMinutes currentTime durationMinutes in
        if isAfter (Some currentTime') endTime
           || js_eq (format_HHmm currentTime') rule_end_time
        then Finished slots'
        else slotLoop fuel' existingBookings durationMinutes rule_end_time
                      endTime currentTime' slots'
      else Finished slots
  end.

(** One turn of [for (const rule of rules)].  When [rule.start_time] does
    not parse, [currentTime] is an Invalid Date: [isBefore] is false and
    [format] raises a RangeError. *)
Definition slotsForRule (fuel : nat) (existingBookings : list (string * string))
    (durationMinutes : Z) (rule : AvailabilityRule) (slots : list Slot)
    : LoopResult :=
  match parse_HHmm (r_start_time rule) with
  | None => RangeError
  | Some currentTime =>
      slotLoop fuel existingBookings durationMinutes (r_end_time rule)
               (parse_HHmm (r_end_time rule)) currentTime slots
  end.

Fixpoint generateSlots (fuel : nat) (existingBookings : list (string * string))
    (durationMinutes : Z) (rules : list AvailabilityRule) (slots : list Slot)
    : LoopResult :=
  match rules with
  | [] => Finished slots
  | rule :: rest =>
      match slotsForRule fuel existingBookings durationMinutes rule slots with
      | Finished slots' =>
          generateSlots fuel existingBookings durationMinutes rest slots'
      | other => other
      end
  end.

(** What both routes do after the service lookup: exception, rules,
    bookings, then the loops. *)
Definition slotsOfDay (fuel : nat) (tenantId professionalId date : string)
    (durationMinutes : Z) (finish : list Slot -> list Slot)
    : Async (Response (list Slot)) :=
  let dayOfWeek := Calendar.getDay date in
  exception <- await (select_exception professionalId date) ;;
  if match exception with Some x => negb (x_is_available x) | None => false end
  then Return (Success [])
  else
    rules <- await (select_rules professionalId tenantId dayOfWeek) ;;
    if (List.length rules =? 0)%nat then Return (Success [])
    else
      existingBookings <- await (select_existing_bookings professionalId date) ;;
      match generateSlots fuel existingBookings durationMinutes rules [] with
      | Finished slots => Return (Success (finish slots))
      | RangeError => Throw
      | NoFuel => Spin
      end.

(** GET /api/availability/slots/:professionalId (staff and clients):
    every slot of the grid, with its flag. *)
Definition getSlots (fuel : nat) (tenantId professionalId date : string)
    (service_id : option string) : Async (Response (list Slot)) :=
  if negb (Calendar.datePattern date) then Return ValidationFailed
  else
    durationMinutes <-
      match service_id with
      | Some sid =>
          service <- await (select_service false sid tenantId) ;;
          Return (match service with
                  | Some s => sv_duration_minutes s
                  | None => 30
                  end)
      | None => Return 30
      end ;;
    slotsOfDay fuel tenantId professionalId date durationMinutes (fun slots => slots).

Definition falsy (s : option string) : bool :=
  match s with Some x => String.eqb x "" | None => true end.

Definition text (s : option string) : string :=
  match s with Some x => x | None => ""%string end.

(** GET /api/public/slots: [slots.filter(s => s.available)]. *)
Definition getPublicSlots (fuel : nat) (tenantId : string)
    (professional_id service_id date : option string)
    : Async (Response (list Slot)) :=
  if falsy professional_id || falsy service_id || falsy date
  then Return BadRequest
  else
    service <- await (select_service true (text service_id) tenantId) ;;
    match service with
    | None => Return NotFound
    | Some s =>
        slotsOfDay fuel tenantId (text professional_id) (text date)
                   (sv_duration_minutes s) (filter available)
    end.


(** A rule whose times have the shape [HH:mm] and satisfy
    [valid_time_range CHECK (start_time < end_time)]. *)
Definition window (rule : AvailabilityRule) : Prop :=
  timePattern (r_start_time rule) = true
  /\ timePattern (r_end_time rule) = true
  /\ minutesOf (r_start_time rule) < minutesOf (r_end_time rule).

(** [createServiceSchema.duration_minutes]: [z.number().min(5).max(480)],
    the same bound as the CHECK of the services table. *)
Definition duration_schema (d : Z) : bool := (5 <=? d) && (d <=? 480).

End Slots.

(** ** Booking routes (booking.routes.ts and public.routes.ts) *)

Module Bookings.

Import TimeText Tables Async.
Local Open Scope async_scope.

(** [s.toLowerCase()] on the ASCII letters. *)
Definition lower_char (c : ascii) : ascii :=
  let n := nat_of_ascii c in
  if ((65 <=? n) && (n <=? 90))%nat then ascii_of_nat (n + 32) else c.

Fixpoint toLowerCase (s : string) : string :=
  match s with
  | EmptyString => EmptyString
  | String c r => String (lower_char c) (toLowerCase r)
  end.

(** [name.split(' ')[0]] and [name.split(' ').slice(1).join(' ')]. *)
Fixpoint first_part (s : string) : string :=
  match s with
  | EmptyString => EmptyString
  | String c r => if Ascii.eqb c " "%char then EmptyString else String c (first_part r)
  end.

Fixpoint other_parts (s : string) : string :=
  match s with
  | EmptyString => EmptyString
  | String c r => if Ascii.eqb c " "%char then r else other_parts r
  end.

(** [x || null] on an optional text. *)
Definition or_null (s : option string) : option string :=
  match s with
  | Some x => if String.eqb x "" then None else Some x
  | None => None
  end.

(** The body of POST /api/bookings and of POST /api/public/bookings. *)
Record BookingBody := {
  professional_id : uuid;
  service_id : uuid;
  date : string;
  start_time : string;
  end_time : string;
  visit_type : VisitType;
  notes : option string;
  client_email : option string;
  client_name : option string;
  client_phone : option string }.

Definition max_length (n : nat) (s : option string) : bool :=
  match s with Some x => (String.length x <=? n)%nat | None => true end.

Definition min_length (n : nat) (s : option string) : bool :=
  match s with Some x => (n <=? String.length x)%nat | None => true end.

Definition text_of (s : option string) : string :=
  match s with Some x => x | None => EmptyString end.

(** [createBookingSchema]; the syntax of uuids and of e-mail addresses is
    not modelled. *)
Definition createBookingSchema (body : BookingBody) : bool :=
  Calendar.datePattern (date body)
  && timePattern (start_time body) && timePattern (end_time body)
  && max_length 1000 (notes body)
  && min_length 1 (client_name body).

(** [createPublicBookingSchema]: the client's e-mail address and name are
    required, the name has at most 100 characters. *)
Definition createPublicBookingSchema (body : BookingBody) : bool :=
  Calendar.datePattern (date body)
  && timePattern (start_time body) && timePattern (end_time body)
  && max_length 1000 (notes body)
  && match client_email body with Some _ => true | None => false end
  && match client_name body with
     | Some n => (1 <=? String.length n)%nat && (String.length n <=? 100)%nat
     | None => false
     end.

(** The row of a guest client. *)
Definition guest_user (clientId tenantId email name : string)
    (phone : option string) : User :=
  {| u_id := clientId; u_tenant_id := Some tenantId;
     u_email := toLowerCase email; u_password_hash := "";
     u_role := client;
     u_first_name := first_part name; u_last_name := other_parts name;
     u_phone := or_null phone;
     u_is_active := true; u_email_verified := false |}.

(** The row both routes insert. *)
Definition new_booking (bookingId tenantId : uuid) (clientId : option uuid)
    (body : BookingBody) (service : Service) : Booking :=
  {| b_id := bookingId; b_tenant_id := tenantId; b_client_id := clientId;
     b_professional_id := professional_id body;
     b_service_id := service_id body;
     b_date := date body;
     b_start_time := start_time body; b_end_time := end_time body;
     b_status := pending; b_visit_type := visit_type body;
     b_notes := or_null (notes body);
     b_payment_status := pay_pending;
     b_total_amount := sv_price service; b_currency := sv_currency service;
     b_cancelled_by := None; b_cancellation_reason := None |}.

(** Find or create the client of a guest booking. *)
Definition find_or_create_client (newClientId tenantId email name : string)
    (phone : option string) : Async (option uuid) :=
  existingClient <- await (select_user_by_email (toLowerCase email) tenantId) ;;
  match existingClient with
  | Some u => Return (Some (u_id u))
  | None =>
      _ <- await (insert_user (guest_user newClientId tenantId email name phone)) ;;
      Return (Some newClientId)
  end.

(** POST /api/bookings.  [user] is [req.user?.id] as [optionalAuth] left
    it; [newClientId] and [bookingId] are the values of the two [uuid()]
    calls. *)
Definition createBooking (user : option uuid) (tenantId : uuid)
    (body : BookingBody) (newClientId bookingId : uuid)
    : Async (Response Booking) :=
  if negb (createBookingSchema body) then Return ValidationFailed
  else
    service <- await (select_service false (service_id body) tenantId) ;;
    match service with
    | None => Return NotFound
    | Some svc =>
        conflict <- await (select_conflict (professional_id body) (date body)
                                           (start_time body) (end_time body)) ;;
        match conflict with
        | Some _ => Return Conflict
        | None =>
            clientId <-
              match user, or_null (client_email body) with
              | Some uid, _ => Return (Some uid)
              | None, Some email =>
                  find_or_create_client newClientId tenantId email
                    (match or_null (client_name body) with
                     | Some n => n
                     | None => "Guest"%string
                     end)
                    (client_phone body)
              | None, None => Return None
              end ;;
            booking <- await (insert_booking
                                (new_booking bookingId tenantId clientId body svc)) ;;
            Return (Created booking)
        end
    end.

(** POST /api/public/bookings, up to the INSERT of the booking.  The
    route then awaits [scheduleBookingNotifications] inside a [try] whose
    [catch] only logs: it adds rows to the notifications table, which is
    not part of the store of this model, and does not change the answer. *)
Definition createPublicBooking (tenantId : uuid) (body : BookingBody)
    (newClientId bookingId : uuid) : Async (Response Booking) :=
  if negb (createPublicBookingSchema body) then Return ValidationFailed
  else
    service <- await (select_service true (service_id body) tenantId) ;;
    match service with
    | None => Return NotFound
    | Some svc =>
        conflict <- await (select_conflict (professional_id body) (date body)
                                           (start_time body) (end_time body)) ;;
        match conflict with
        | Some _ => Return Conflict
        | None =>
            clientId <- find_or_create_client newClientId tenantId
                          (text_of (client_email body))
                          (text_of (client_name body))
                          (client_phone body) ;;
            booking <- await (insert_booking
                                (new_booking bookingId tenantId clientId body svc)) ;;
            Return (Created booking)
        end
    end.

(** *** Lifecycle routes *)

Definition set_status (b : Booking) (s : BookingStatus) : Booking :=
  {| b_id := b_id b; b_tenant_id := b_tenant_id b; b_client_id := b_client_id b;
     b_professional_id := b_professional_id b; b_service_id := b_service_id b;
     b_date := b_date b; b_start_time := b_start_time b;
     b_end_time := b_end_time b; b_status := s;
     b_visit_type := b_visit_type b; b_notes := b_notes b;
     b_payment_status := b_payment_status b;
     b_total_amount := b_total_amount b; b_currency := b_currency b;
     b_cancelled_by := b_cancelled_by b;
     b_cancellation_reason := b_cancellation_reason b |}.

Definition set_notes (b : Booking) (n : option string) : Booking :=
  {| b_id := b_id b; b_tenant_id := b_tenant_id b; b_client_id := b_client_id b;
     b_professional_id := b_professional_id b; b_service_id := b_service_id b;
     b_date := b_date b; b_start_time := b_start_time b;
     b_end_time := b_end_time b; b_status := b_status b;
     b_visit_type := b_visit_type b; b_notes := n;
     b_payment_status := b_payment_status b;
     b_total_amount := b_total_amount b; b_currency := b_currency b;
     b_cancelled_by := b_cancelled_by b;
     b_cancellation_reason := b_cancellation_reason b |}.

Definition set_cancelled_by (b : Booking) (u : option uuid) : Booking :=
  {| b_id := b_id b; b_tenant_id := b_tenant_id b; b_client_id := b_client_id b;
     b_professional_id := b_professional_id b; b_service_id := b_service_id b;
     b_date := b_date b; b_start_time := b_start_time b;
     b_end_time := b_end_time b; b_status := b_status b;
     b_visit_type := b_visit_type b; b_notes := b_notes b;
     b_payment_status := b_payment_status b;
     b_total_amount := b_total_amount b; b_currency := b_currency b;
     b_cancelled_by := u;
     b_cancellation_reason := b_cancellation_reason b |}.

Definition set_cancellation_reason (b : Booking) (r : option string) : Booking :=
  {| b_id := b_id b; b_tenant_id := b_tenant_id b; b_client_id := b_client_id b;
     b_professional_id := b_professional_id b; b_service_id := b_service_id b;
     b_date := b_date b; b_start_time := b_start_time b;
     b_end_time := b_end_time b; b_status := b_status b;
     b_visit_type := b_visit_type b; b_notes := b_notes b;
     b_payment_status := b_payment_status b;
     b_total_amount := b_total_amount b; b_currency := b_currency b;
     b_cancelled_by := b_cancelled_by b;
     b_cancellation_reason := r |}.

Definition set_schedule (b : Booking) (d s e : string) : Booking :=
  {| b_id := b_id b; b_tenant_id := b_tenant_id b; b_client_id := b_client_id b;
     b_professional_id := b_professional_id b; b_service_id := b_service_id b;
     b_date := d; b_start_time := s; b_end_time := e; b_status := b_status b;
     b_visit_type := b_visit_type b; b_notes := b_notes b;
     b_payment_status := b_payment_status b;
     b_total_amount := b_total_amount b; b_currency := b_currency b;
     b_cancelled_by := b_cancelled_by b;
     b_cancellation_reason := b_cancellation_reason b |}.

(** WHERE id = $n AND tenant_id = $m *)
Definition by_id (id tenantId : string) (b : Booking) : bool :=
  String.eqb (b_id b) id && String.eqb (b_tenant_id b) tenantId.

(** The body of PATCH /api/bookings/:id. *)
Record UpdateBody := {
  upd_status : option BookingStatus;
  upd_notes : option string;
  upd_cancellation_reason : option string }.

Definition updateBookingSchema (body : UpdateBody) : bool :=
  max_length 1000 (upd_notes body)
  && max_length 500 (upd_cancellation_reason body).

(** The SET list that PATCH assembles in [updates]. *)
Definition patch_row (user : uuid) (body : UpdateBody) (b : Booking) : Booking :=
  let b1 := match upd_status body with
            | Some s =>
                let b' := set_status b s in
                if status_eqb s cancelled then set_cancelled_by b' (Some user)
                else b'
            | None => b
            end in
  let b2 := match upd_notes body with
            | Some n => set_notes b1 (Some n)
            | None => b1
            end in
  match upd_cancellation_reason body with
  | Some r => set_cancellation_reason b2 (Some r)
  | None => b2
  end.

(** PATCH /api/bookings/:id (staff). *)
Definition updateBooking (user tenantId id : uuid) (body : UpdateBody)
    : Async (Response Booking) :=
  if negb (updateBookingSchema body) then Return ValidationFailed
  else
    match upd_status body, upd_notes body, upd_cancellation_reason body with
    | None, None, None => Return NoChanges
    | _, _, _ =>
        booking <- await (update_bookings (by_id id tenantId) (patch_row user body)) ;;
        match booking with
        | None => Return NotFound
        | Some b => Return (Success b)
        end
    end.

(** POST /api/bookings/:id/confirm (staff):
    [... WHERE id = $1 AND tenant_id = $2 AND status = 'pending']. *)
Definition confirmBooking (tenantId id : uuid) : Async (Response Booking) :=
  booking <- await (update_bookings
                      (fun b => by_id id tenantId b && status_eqb (b_status b) pending)
                      (fun b => set_status b confirmed)) ;;
  match booking with
  | None => Return NotFound
  | Some b => Return (Success b)
  end.

(** POST /api/bookings/:id/cancel:
    [... AND status NOT IN ('cancelled', 'completed')]. *)
Definition cancelBooking (user tenantId id : uuid) (reason : option string)
    : Async (Response Booking) :=
  booking <- await (update_bookings
                      (fun b => by_id id tenantId b
                                && negb (status_eqb (b_status b) cancelled
                                         || status_eqb (b_status b) completed))
                      (fun b => set_cancellation_reason
                                  (set_cancelled_by (set_status b cancelled) (Some user))
                                  (or_null reason))) ;;
  match booking with
  | None => Return NotFound
  | Some b => Return (Success b)
  end.

(** The body of POST /api/bookings/:id/reschedule. *)
Record RescheduleBody := {
  new_date : string;
  new_start_time : string;
  new_end_time : string }.

Definition rescheduleSchema (body : RescheduleBody) : bool :=
  Calendar.datePattern (new_date body)
  && timePattern (new_start_time body) && timePattern (new_end_time body).

(** POST /api/bookings/:id/reschedule.  [booking!.id] raises a TypeError
    when the UPDATE answers no row. *)
Definition rescheduleBooking (tenantId id : uuid) (body : RescheduleBody)
    : Async (Response Booking) :=
  if negb (rescheduleSchema body) then Return ValidationFailed
  else
    original <- await (select_booking id tenantId) ;;
    match original with
    | None => Return NotFound
    | Some orig =>
        conflict <- await (select_conflict_except (b_professional_id orig)
                             (new_date body) (new_start_time body)
                             (new_end_time body) id) ;;
        match conflict with
        | Some _ => Return Conflict
        | None =>
            booking <- await (update_bookings (by_id id tenantId)
                                (fun b => set_status
                                            (set_schedule b (new_date body)
                                               (new_start_time body)
                                               (new_end_time body))
                                            pending)) ;;
            match booking with
            | None => Throw
            | Some b => Return (Success b)
            end
        end
    end.

(** The states the specification calls terminal. *)
Definition is_terminal (s : BookingStatus) : bool :=
  match s with
  | completed | cancelled | no_show => true
  | pending | confirmed => false
  end.

(** *** The reservation routes, side by side *)

Inductive Route : Type :=
| StaffRoute (user : option uuid)
| PublicRoute.

Definition reserve (r : Route) (tenantId : uuid) (body : BookingBody)
    (newClientId bookingId : uuid) : Async (Response Booking) :=
  match r with
  | StaffRoute user => createBooking user tenantId body newClientId bookingId
  | PublicRoute => createPublicBooking tenantId body newClientId bookingId
  end.

Definition route_schema (r : Route) (body : BookingBody) : bool :=
  match r with
  | StaffRoute _ => createBookingSchema body
  | PublicRoute => createPublicBookingSchema body
  end.

Definition route_service (r : Route) (body : BookingBody) (tenantId : uuid)
    (st : Store) : option Service :=
  find (fun s => String.eqb (sv_id s) (service_id body)
                 && String.eqb (sv_tenant_id s) tenantId
                 && (negb (match r with PublicRoute => true | StaffRoute _ => false end)
                     || sv_is_active s))
       (services st).

(** A stored booking of the professional and date of [body], not
    cancelled, that overlaps its half-open interval. *)
Definition overlapping (body : BookingBody) (b : Booking) : Prop :=
  b_professional_id b = professional_id body
  /\ b_date b = date body
  /\ b_status b <> cancelled
  /\ minutesOf (b_start_time b) < minutesOf (end_time body)
  /\ minutesOf (start_time body) < minutesOf (b_end_time b).

(** The client of the request can be told: a known user, nobody, a client
    already registered with the e-mail address, or a guest whose row the
    users table accepts. *)
Definition guest_ready (tenantId newClientId email name : string)
    (phone : option string) (st : Store) : Prop :=
  match find (fun u => String.eqb (u_email u) (toLowerCase email)
                       && opt_eqb (u_tenant_id u) tenantId) (users st) with
  | Some _ => True
  | None => users_accept st (guest_user newClientId tenantId email name phone) = true
  end.

Definition client_ready (r : Route) (tenantId newClientId : string)
    (body : BookingBody) (st : Store) : Prop :=
  match r with
  | StaffRoute (Some uid) => user_exists st uid = true
  | StaffRoute None =>
      match or_null (client_email body) with
      | Some email =>
          guest_ready tenantId newClientId email
            (match or_null (client_name body) with
             | Some n => n
             | None => "Guest"%string
             end) (client_phone body) st
      | None => True
      end
  | PublicRoute =>
      guest_ready tenantId newClientId (text_of (client_email body))
        (text_of (client_name body)) (client_phone body) st
  end.

End Bookings.

(** ** The scenario of the specification

    A clinic with one professional whose only weekly rule is Monday
    09:00-12:00, and one service of 30 minutes; 2024-01-01 is a Monday. *)

Module Scenario.

Import Tables.
Local Open Scope string_scope.

Definition doctor_user : User :=
  {| u_id := "u1"; u_tenant_id := Some "t1"; u_email := "doc@clinic.test";
     u_password_hash := "hash"; u_role := staff;
     u_first_name := "Ana"; u_last_name := "Ruiz"; u_phone := None;
     u_is_active := true; u_email_verified := true |}.

Definition consultation : Service :=
  {| sv_id := "svc1"; sv_tenant_id := "t1"; sv_name := "General Consultation";
     sv_duration_minutes := 30; sv_price := 15000; sv_currency := "USD";
     sv_is_active := true |}.

Definition doctor : Professional :=
  {| p_id := "p1"; p_tenant_id := "t1"; p_user_id := "u1"; p_is_active := true |}.

Definition monday_morning : AvailabilityRule :=
  {| r_id := "r1"; r_tenant_id := "t1"; r_professional_id := "p1";
     r_day_of_week := 1; r_start_time := "09:00"; r_end_time := "12:00";
     r_is_active := true |}.

Definition clinic : Store :=
  {| users := [doctor_user]; services := [consultation];
     professionals := [doctor]; availability_rules := [monday_morning];
     availability_exceptions := []; bookings := [] |}.

Definition ten_oclock : Booking :=
  {| b_id := "b1"; b_tenant_id := "t1"; b_client_id := None;
     b_professional_id := "p1"; b_service_id := "svc1";
     b_date := "2024-01-01"; b_start_time := "10:00"; b_end_time := "10:30";
     b_status := confirmed; b_visit_type := in_person; b_notes := None;
     b_payment_status := pay_pending; b_total_amount := 15000;
     b_currency := "USD"; b_cancelled_by := None;
     b_cancellation_reason := None |}.

Definition clinic_booked : Store := with_bookings clinic [ten_oclock].

(** An exception that announces special hours, 14:00-16:00, that Monday. *)
Definition special_hours : AvailabilityException :=
  {| x_id := "x1"; x_professional_id := "p1"; x_date := "2024-01-01";
     x_is_available := true; x_start_time := Some "14:00";
     x_end_time := Some "16:00"; x_reason := Some "special hours" |}.

Definition clinic_special_hours : Store :=
  {| users := users clinic; services := services clinic;
     professionals := professionals clinic;
     availability_rules := availability_rules clinic;
     availability_exceptions := [special_hours];
     bookings := [] |}.


(** Two requests for the same half-hour, and one whose end precedes its
    start. *)
Definition ten_to_half_past : Bookings.BookingBody :=
  {| Bookings.professional_id := "p1"; Bookings.service_id := "svc1";
     Bookings.date := "2024-01-01";
     Bookings.start_time := "10:00"; Bookings.end_time := "10:30";
     Bookings.visit_type := in_person; Bookings.notes := None;
     Bookings.client_email := None; Bookings.client_name := None;
     Bookings.client_phone := None |}.

Definition quarter_past_ten : Bookings.BookingBody :=
  {| Bookings.professional_id := "p1"; Bookings.service_id := "svc1";
     Bookings.date := "2024-01-01";
     Bookings.start_time := "10:15"; Bookings.end_time := "10:45";
     Bookings.visit_type := virtual; Bookings.notes := None;
     Bookings.client_email := None; Bookings.client_name := None;
     Bookings.client_phone := None |}.

Definition guest_backwards : Bookings.BookingBody :=
  {| Bookings.professional_id := "p1"; Bookings.service_id := "svc1";
     Bookings.date := "2024-01-01";
     Bookings.start_time := "10:00"; Bookings.end_time := "09:00";
     Bookings.visit_type := in_person; Bookings.notes := None;
     Bookings.client_email := Some "Eva@Mail.test";
     Bookings.client_name := Some "Eva Luna";
     Bookings.client_phone := None |}.

Definition guest_unknown_professional : Bookings.BookingBody :=
  {| Bookings.professional_id := "p9"; Bookings.service_id := "svc1";
     Bookings.date := "2024-01-01";
     Bookings.start_time := "10:00"; Bookings.end_time := "10:30";
     Bookings.visit_type := in_person; Bookings.notes := None;
     Bookings.client_email := Some "Eva@Mail.test";
     Bookings.client_name := Some "Eva Luna";
     Bookings.client_phone := None |}.

Definition eva : User :=
  {| u_id := "c1"; u_tenant_id := Some "t1"; u_email := "eva@mail.test";
     u_password_hash := ""; u_role := client;
     u_first_name := "Eva"; u_last_name := "Luna"; u_phone := None;
     u_is_active := true; u_email_verified := false |}.

Definition with_status (s : BookingStatus) : Store :=
  with_bookings clinic [Bookings.set_status ten_oclock s].

Definition backwards : Bookings.BookingBody :=
  {| Bookings.professional_id := "p1"; Bookings.service_id := "svc1";
     Bookings.date := "2024-01-01";
     Bookings.start_time := "10:00"; Bookings.end_time := "09:00";
     Bookings.visit_type := in_person; Bookings.notes := None;
     Bookings.client_email := None; Bookings.client_name := None;
     Bookings.client_phone := None |}.

Definition back_to_pending : Bookings.UpdateBody :=
  {| Bookings.upd_status := Some pending; Bookings.upd_notes := None;
     Bookings.upd_cancellation_reason := None |}.

Definition next_monday : Bookings.RescheduleBody :=
  {| Bookings.new_date := "2024-01-08"; Bookings.new_start_time := "09:00";
     Bookings.new_end_time := "09:30" |}.

(** The event loop lets both requests check for a conflict before either
    inserts. *)
Definition check_check_insert_insert : list bool :=
  [true; true; false; false; true; false; true; false].

End Scenario.

(** ** Invariants of the bookings table *)

Module Invariants.

Import TimeText Tables.

(** A booking that occupies its interval. *)
Definition active (b : Booking) : Prop := b_status b <> cancelled.

(** Two bookings of one professional and date whose half-open intervals
    meet. *)
Definition overlap (b c : Booking) : Prop :=
  b_professional_id b = b_professional_id c
  /\ b_date b = b_date c
  /\ minutesOf (b_start_time b) < minutesOf (b_end_time c)
  /\ minutesOf (b_start_time c) < minutesOf (b_end_time b).

Definition compatible (b c : Booking) : Prop :=
  active b -> active c -> ~ overlap b c.

(** No two bookings that are not cancelled overlap. *)
Definition no_double_booking (l : list Booking) : Prop :=
  ForallOrdPairs compatible l.

(** Times of the shape [HH:mm] with start before end. *)
Definition proper (b : Booking) : Prop :=
  timePattern (b_start_time b) = true
  /\ timePattern (b_end_time b) = true
  /\ minutesOf (b_start_time b) < minutesOf (b_end_time b).

(** Two rows at the same place in the calendar. *)
Definition same_place (x y : Booking) : Prop :=
  b_professional_id y = b_professional_id x
  /\ b_date y = b_date x
  /\ b_start_time y = b_start_time x
  /\ b_end_time y = b_end_time x.

Definition bookings_ok (st : Store) : Prop :=
  Forall proper (bookings st)
  /\ NoDup (map b_id (bookings st))
  /\ no_double_booking (bookings st).

End Invariants.

(** ** Availability routes (availability.routes.ts) *)

Module Availability.

Import TimeText Tables Async.
Local Open Scope async_scope.

Definition with_rules (st : Store) (rs : list AvailabilityRule) : Store :=
  {| users := users st; services := services st;
     professionals := professionals st;
     availability_rules := rs;
     availability_exceptions := availability_exceptions st;
     bookings := bookings st |}.

Definition with_exceptions (st : Store) (xs : list AvailabilityException) : Store :=
  {| users := users st; services := services st;
     professionals := professionals st;
     availability_rules := availability_rules st;
     availability_exceptions := xs;
     bookings := bookings st |}.

(** The body of POST /api/availability/rules.  [day_of_week] is an
    integer: a fraction passes [z.number()] and is refused by the INTEGER
    column. *)
Record RuleBody := {
  professional_id : uuid;
  day_of_week : Z;
  start_time : string;
  end_time : string }.

Definition createRuleSchema (body : RuleBody) : bool :=
  (0 <=? day_of_week body) && (day_of_week body <=? 6)
  && timePattern (start_time body) && timePattern (end_time body).

(** The two CHECKs of availability_rules. *)
Definition rule_checks (r : AvailabilityRule) : bool :=
  (0 <=? r_day_of_week r) && (r_day_of_week r <=? 6)
  && sql_time_lt (r_start_time r) (r_end_time r).

(** INSERT INTO availability_rules: primary key, the foreign key to
    professionals and the CHECKs. *)
Definition rules_accept (st : Store) (r : AvailabilityRule) : bool :=
  negb (existsb (fun x => String.eqb (r_id x) (r_id r)) (availability_rules st))
  && existsb (fun p => String.eqb (p_id p) (r_professional_id r)) (professionals st)
  && rule_checks r.

Definition insert_availability_rule (r : AvailabilityRule) (st : Store)
    : DbResult AvailabilityRule :=
  if rules_accept st r
  then DbOk (with_rules st (availability_rules st ++ [r])) r
  else DbRaise.

Definition new_rule (id tenantId : uuid) (body : RuleBody) : AvailabilityRule :=
  {| r_id := id; r_tenant_id := tenantId;
     r_professional_id := professional_id body;
     r_day_of_week := day_of_week body;
     r_start_time := start_time body; r_end_time := end_time body;
     r_is_active := true |}.

(** POST /api/availability/rules (staff); [id] is the value of [uuid()]. *)
Definition createRule (tenantId : uuid) (body : RuleBody) (id : uuid)
    : Async (Response AvailabilityRule) :=
  if negb (createRuleSchema body) then Return ValidationFailed
  else
    rule <- await (insert_availability_rule (new_rule id tenantId body)) ;;
    Return (Created rule).

(** The body of PATCH /api/availability/rules/:id: every field of
    [updateRuleSchema] is optional. *)
Record RulePatch := {
  patch_day_of_week : option Z;
  patch_start_time : option string;
  patch_end_time : option string;
  patch_is_active : option bool }.

Definition optional {X : Type} (ok : X -> bool) (x : option X) : bool :=
  match x with Some v => ok v | None => true end.

Definition updateRuleSchema (body : RulePatch) : bool :=
  optional (fun d => (0 <=? d) && (d <=? 6)) (patch_day_of_week body)
  && optional timePattern (patch_start_time body)
  && optional timePattern (patch_end_time body).

Definition or_old {X : Type} (x : option X) (old : X) : X :=
  match x with Some v => v | None => old end.

(** The SET list that PATCH assembles in [updates]. *)
Definition patch_rule (body : RulePatch) (r : AvailabilityRule) : AvailabilityRule :=
  {| r_id := r_id r; r_tenant_id := r_tenant_id r;
     r_professional_id := r_professional_id r;
     r_day_of_week := or_old (patch_day_of_week body) (r_day_of_week r);
     r_start_time := or_old (patch_start_time body) (r_start_time r);
     r_end_time := or_old (patch_end_time body) (r_end_time r);
     r_is_active := or_old (patch_is_active body) (r_is_active r) |}.

(** WHERE id = $n AND tenant_id = $m *)
Definition rule_by_id (id tenantId : string) (r : AvailabilityRule) : bool :=
  String.eqb (r_id r) id && String.eqb (r_tenant_id r) tenantId.

(** UPDATE availability_rules SET ... WHERE [sel] RETURNING *: a rewritten
    row must still satisfy the CHECKs; the answer is [rows[0] || null]. *)
Definition update_rules (sel : AvailabilityRule -> bool)
    (set : AvailabilityRule -> AvailabilityRule) (st : Store)
    : DbResult (option AvailabilityRule) :=
  let touched := map set (filter sel (availability_rules st)) in
  if forallb rule_checks touched
  then DbOk (with_rules st (map (fun r => if sel r then set r else r)
                                (availability_rules st)))
            (hd_error touched)
  else DbRaise.

(** PATCH /api/availability/rules/:id (staff).  The answer of the UPDATE
    is sent as it is, also when it is [null]. *)
Definition updateRule (tenantId id : uuid) (body : RulePatch)
    : Async (Response (option AvailabilityRule)) :=
  if negb (updateRuleSchema body) then Return ValidationFailed
  else
    match patch_day_of_week body, patch_start_time body,
          patch_end_time body, patch_is_active body with
    | None, None, None, None => Return NoChanges
    | _, _, _, _ =>
        rule <- await (update_rules (rule_by_id id tenantId) (patch_rule body)) ;;
        Return (Success rule)
    end.

(** DELETE FROM availability_rules WHERE id = $1 AND tenant_id = $2 *)
Definition delete_rules (sel : AvailabilityRule -> bool) (st : Store)
    : DbResult unit :=
  DbOk (with_rules st (filter (fun r => negb (sel r)) (availability_rules st))) tt.

(** DELETE /api/availability/rules/:id (staff): [res.status(204).send()]. *)
Definition deleteRule (tenantId id : uuid) : Async unit :=
  _ <- await (delete_rules (rule_by_id id tenantId)) ;;
  Return tt.

(** ORDER BY day_of_week, start_time: an insertion sort, rows with the
    same key in the order of the table. *)
Definition rule_before (x r : AvailabilityRule) : bool :=
  (r_day_of_week x <? r_day_of_week r)
  || ((r_day_of_week x =? r_day_of_week r)
      && sql_time_lt (r_start_time x) (r_start_time r)).

Fixpoint insert_by_day (r : AvailabilityRule) (l : list AvailabilityRule)
    : list AvailabilityRule :=
  match l with
  | [] => [r]
  | x :: rest =>
      if rule_before x r then x :: insert_by_day r rest else r :: l
  end.

Definition order_by_day_and_start (l : list AvailabilityRule)
    : list AvailabilityRule :=
  fold_right insert_by_day [] l.

(** SELECT * FROM availability_rules WHERE professional_id = $1
    AND tenant_id = $2 AND is_active = true
    ORDER BY day_of_week, start_time *)
Definition active_rules (professionalId tenantId : string) (st : Store)
    : list AvailabilityRule :=
  order_by_day_and_start
    (filter (fun r => String.eqb (r_professional_id r) professionalId
                      && String.eqb (r_tenant_id r) tenantId
                      && r_is_active r)
            (availability_rules st)).

(** GET /api/availability/rules/:professionalId *)
Definition getRules (tenantId professionalId : uuid)
    : Async (Response (list AvailabilityRule)) :=
  rules <- await (fun st => DbOk st (active_rules professionalId tenantId st)) ;;
  Return (Success rules).

(** The body of POST /api/availability/exceptions. *)
Record ExceptionBody := {
  exc_professional_id : uuid;
  exc_date : string;
  exc_is_available : bool;
  exc_start_time : option string;
  exc_end_time : option string;
  exc_reason : option string }.

Definition createExceptionSchema (body : ExceptionBody) : bool :=
  Calendar.datePattern (exc_date body)
  && optional timePattern (exc_start_time body)
  && optional timePattern (exc_end_time body)
  && optional (within 200) (exc_reason body).

(** WHERE professional_id = $1 AND date = $2 *)
Definition of_day (professionalId date : string) (x : AvailabilityException) : bool :=
  String.eqb (x_professional_id x) professionalId && String.eqb (x_date x) date.

(** INSERT INTO availability_exceptions: primary key, the foreign key to
    professionals, a DATE that is a calendar date, VARCHAR(200) and
    [unique_exception_per_date UNIQUE (professional_id, date)]. *)
Definition exceptions_accept (st : Store) (x : AvailabilityException) : bool :=
  negb (existsb (fun y => String.eqb (x_id y) (x_id x)) (availability_exceptions st))
  && existsb (fun p => String.eqb (p_id p) (x_professional_id x)) (professionals st)
  && date_param (x_date x)
  && optional (within 200) (x_reason x)
  && negb (existsb (of_day (x_professional_id x) (x_date x))
                   (availability_exceptions st)).

Definition insert_exception (x : AvailabilityException) (st : Store)
    : DbResult AvailabilityException :=
  if exceptions_accept st x
  then DbOk (with_exceptions st (availability_exceptions st ++ [x])) x
  else DbRaise.

Definition new_exception (id : uuid) (body : ExceptionBody) : AvailabilityException :=
  {| x_id := id; x_professional_id := exc_professional_id body;
     x_date := exc_date body; x_is_available := exc_is_available body;
     x_start_time := Bookings.or_null (exc_start_time body);
     x_end_time := Bookings.or_null (exc_end_time body);
     x_reason := Bookings.or_null (exc_reason body) |}.

(** POST /api/availability/exceptions (staff). *)
Definition createException (body : ExceptionBody) (id : uuid)
    : Async (Response AvailabilityException) :=
  if negb (createExceptionSchema body) then Return ValidationFailed
  else
    exception <- await (insert_exception (new_exception id body)) ;;
    Return (Created exception).

(** What the rule routes maintain: every stored rule is a window of a
    weekday, and ids are keys. *)
Definition weekly (r : AvailabilityRule) : Prop :=
  Slots.window r /\ 0 <= r_day_of_week r <= 6.

Definition rules_ok (st : Store) : Prop :=
  Forall weekly (availability_rules st)
  /\ NoDup (map r_id (availability_rules st)).

(** At most one exception for a professional and a date. *)
Definition exceptions_ok (st : Store) : Prop :=
  NoDup (map (fun x => (x_professional_id x, x_date x))
             (availability_exceptions st)).

End Availability.

(** ** Service routes (service.routes.ts) *)

Module Services.

Import Tables Async.
Local Open Scope async_scope.

Definition with_services (st : Store) (l : list Service) : Store :=
  {| users := users st; services := l;
     professionals := professionals st;
     availability_rules := availability_rules st;
     availability_exceptions := availability_exceptions st;
     bookings := bookings st |}.

(** The body of POST /api/services after [createServiceSchema]: numbers
    are integers, the price in hundredths; [currency] is [None] when the
    request leaves it out.  The description is validated and not kept in
    the model of a row. *)
Record ServiceBody := {
  name : string;
  description : option string;
  duration_minutes : Z;
  price : Z;
  currency : option string }.

Definition createServiceSchema (body : ServiceBody) : bool :=
  (1 <=? String.length (name body))%nat
  && within 100 (name body)
  && Availability.optional (within 500) (description body)
  && Slots.duration_schema (duration_minutes body)
  && (0 <=? price body)
  && Availability.optional (fun c => (String.length c =? 3)%nat) (currency body).

(** The CHECKs and bounds of the services table (003_create_services.sql);
    DECIMAL(10,2) holds less than 10^8 units. *)
Definition service_checks (s : Service) : bool :=
  (5 <=? sv_duration_minutes s) && (sv_duration_minutes s <=? 480)
  && (0 <=? sv_price s) && (sv_price s <? 10000000000)
  && within 100 (sv_name s) && within 3 (sv_currency s).

Definition services_accept (st : Store) (s : Service) : bool :=
  negb (existsb (fun x => String.eqb (sv_id x) (sv_id s)) (services st))
  && service_checks s.

Definition insert_service (s : Service) (st : Store) : DbResult Service :=
  if services_accept st s then DbOk (with_services st (services st ++ [s])) s
  else DbRaise.

Definition new_service (id tenantId : uuid) (body : ServiceBody) : Service :=
  {| sv_id := id; sv_tenant_id := tenantId; sv_name := name body;
     sv_duration_minutes := duration_minutes body;
     sv_price := price body;
     sv_currency := Availability.or_old (currency body) "USD"%string;
     sv_is_active := true |}.

(** POST /api/services (tenant admin). *)
Definition createService (tenantId : uuid) (body : ServiceBody) (id : uuid)
    : Async (Response Service) :=
  if negb (createServiceSchema body) then Return ValidationFailed
  else
    service <- await (insert_service (new_service id tenantId body)) ;;
    Return (Created service).

(** The body of PATCH /api/services/:id: [createServiceSchema.partial()]
    with [is_active]; a field left out stays undefined. *)
Record ServicePatch := {
  patch_name : option string;
  patch_description : option string;
  patch_duration_minutes : option Z;
  patch_price : option Z;
  patch_currency : option string;
  patch_is_active : option bool }.

Definition updateServiceSchema (body : ServicePatch) : bool :=
  Availability.optional (fun n => (1 <=? String.length n)%nat && within 100 n)
                        (patch_name body)
  && Availability.optional (within 500) (patch_description body)
  && Availability.optional Slots.duration_schema (patch_duration_minutes body)
  && Availability.optional (fun p => 0 <=? p) (patch_price body)
  && Availability.optional (fun c => (String.length c =? 3)%nat) (patch_currency body).

Definition patch_service (body : ServicePatch) (s : Service) : Service :=
  {| sv_id := sv_id s; sv_tenant_id := sv_tenant_id s;
     sv_name := Availability.or_old (patch_name body) (sv_name s);
     sv_duration_minutes :=
       Availability.or_old (patch_duration_minutes body) (sv_duration_minutes s);
     sv_price := Availability.or_old (patch_price body) (sv_price s);
     sv_currency := Availability.or_old (patch_currency body) (sv_currency s);
     sv_is_active := Availability.or_old (patch_is_active body) (sv_is_active s) |}.

Definition deactivate (s : Service) : Service :=
  {| sv_id := sv_id s; sv_tenant_id := sv_tenant_id s; sv_name := sv_name s;
     sv_duration_minutes := sv_duration_minutes s; sv_price := sv_price s;
     sv_currency := sv_currency s; sv_is_active := false |}.

(** WHERE id = $n AND tenant_id = $m *)
Definition service_by_id (id tenantId : string) (s : Service) : bool :=
  String.eqb (sv_id s) id && String.eqb (sv_tenant_id s) tenantId.

(** UPDATE services SET ... WHERE [sel] RETURNING * *)
Definition update_services (sel : Service -> bool) (set : Service -> Service)
    (st : Store) : DbResult (option Service) :=
  let touched := map set (filter sel (services st)) in
  if forallb service_checks touched
  then DbOk (with_services st (map (fun s => if sel s then set s else s)
                                   (services st)))
            (hd_error touched)
  else DbRaise.

(** PATCH /api/services/:id (tenant admin). *)
Definition updateService (tenantId id : uuid) (body : ServicePatch)
    : Async (Response Service) :=
  if negb (updateServiceSchema body) then Return ValidationFailed
  else
    match patch_name body, patch_description body, patch_duration_minutes body,
          patch_price body, patch_currency body, patch_is_active body with
    | None, None, None, None, None, None => Return NoChanges
    | _, _, _, _, _, _ =>
        service <- await (update_services (service_by_id id tenantId)
                                          (patch_service body)) ;;
        match service with
        | None => Return NotFound
        | Some s => Return (Success s)
        end
    end.

(** DELETE /api/services/:id (tenant admin): the row is kept and marked
    inactive; [res.status(204).send()]. *)
Definition deleteService (tenantId id : uuid) : Async unit :=
  _ <- await (update_services (service_by_id id tenantId) deactivate) ;;
  Return tt.

(** GET /api/services/:id *)
Definition getService (tenantId id : uuid) : Async (Response Service) :=
  service <- await (select_service false id tenantId) ;;
  match service with
  | None => Return NotFound
  | Some s => Return (Success s)
  end.

(** What the service routes maintain: every stored service satisfies the
    CHECKs of its table, so its duration lies between 5 and 480 minutes. *)
Definition services_ok (st : Store) : Prop :=
  Forall (fun s => service_checks s = true) (services st).

End Services.

(** ** Pagination (utils/response.ts) *)

(** The numbers of the source are doubles.  They are whole numbers here,
    computed exactly; the two agree as long as every number that occurs
    is at most 2^53 in size. *)

Module Pagination.

Local Open Scope string_scope.

Record PaginationParams := {
  page : Z;
  limit : Z;
  sortBy : string;
  sortOrder : string }.

(** [parseInt(x) || d]: [None] is NaN; NaN and 0 are falsy. *)
Definition or_default (n : option Z) (d : Z) : Z :=
  match n with
  | Some 0 => d
  | Some v => v
  | None => d
  end.

(** [getPaginationParams(query)]; the first two arguments are
    [parseInt(query.page)] and [parseInt(query.limit)]. *)
Definition getPaginationParams (query_page query_limit : option Z)
    (query_sortBy query_sortOrder : option string) : PaginationParams :=
  {| page := Z.max 1 (or_default query_page 1);
     limit := Z.min 100 (Z.max 1 (or_default query_limit 20));
     sortBy := match query_sortBy with
               | Some s => if String.eqb s "" then "created_at" else s
               | None => "created_at"
               end;
     sortOrder := match query_sortOrder with
                  | Some s => if String.eqb s "asc" then "asc" else "desc"
                  | None => "desc"
                  end |}.

Definition getOffset (params : PaginationParams) : Z :=
  (page params - 1) * limit params.

(** [Math.ceil(total / params.limit)] of [sendPaginated]. *)
Definition totalPages (total : Z) (params : PaginationParams) : Z :=
  - ((- total) / limit params).

(** [LIMIT $n OFFSET $m] on the rows a query selects. *)
Definition page_of {X : Type} (rows : list X) (params : PaginationParams) : list X :=
  firstn (Z.to_nat (limit params)) (skipn (Z.to_nat (getOffset params)) rows).

End Pagination.

(** ** Reading one booking (GET /api/bookings/:id) *)

Module BookingAccess.

Import Tables Async.
Local Open Scope async_scope.

Inductive Shown : Type :=
| Visible (b : Booking)
| Missing
| Forbidden.

Definition is_client (role : UserRole) : bool :=
  match role with client => true | _ => false end.

(** [user] and [role] are [req.user.id] and [req.user.role] as
    [authMiddleware] left them; a [client_id] that is null differs from
    every id. *)
Definition getBooking (user : uuid) (role : UserRole) (tenantId id : uuid)
    : Async Shown :=
  booking <- await (select_booking id tenantId) ;;
  match booking with
  | None => Return Missing
  | Some b =>
      if is_client role && negb (opt_eqb (b_client_id b) user)
      then Return Forbidden
      else Return (Visible b)
  end.

End BookingAccess.

(** ** More of the scenario *)

Module Cases.

Import Tables.
Local Open Scope string_scope.

Definition monday_afternoon : Availability.RuleBody :=
  {| Availability.professional_id := "p1"; Availability.day_of_week := 1;
     Availability.start_time := "14:00"; Availability.end_time := "18:00" |}.

Definition shorter_morning : Availability.RulePatch :=
  {| Availability.patch_day_of_week := None;
     Availability.patch_start_time := None;
     Availability.patch_end_time := Some "11:00";
     Availability.patch_is_active := None |}.

Definition holiday : Availability.ExceptionBody :=
  {| Availability.exc_professional_id := "p1";
     Availability.exc_date := "2024-01-01";
     Availability.exc_is_available := false;
     Availability.exc_start_time := None; Availability.exc_end_time := None;
     Availability.exc_reason := Some "New Year" |}.

Definition follow_up : Services.ServiceBody :=
  {| Services.name := "Follow-up"; Services.description := None;
     Services.duration_minutes := 15; Services.price := 5000;
     Services.currency := None |}.

Definition longer : Services.ServicePatch :=
  {| Services.patch_name := None; Services.patch_description := None;
     Services.patch_duration_minutes := Some 45;
     Services.patch_price := None; Services.patch_currency := None;
     Services.patch_is_active := None |}.

Definition eva_books_ten : Booking :=
  {| b_id := "b2"; b_tenant_id := "t1"; b_client_id := Some "c1";
     b_professional_id := "p1"; b_service_id := "svc1";
     b_date := "2024-01-08"; b_start_time := "10:00"; b_end_time := "10:30";
     b_status := pending; b_visit_type := virtual; b_notes := None;
     b_payment_status := pay_pending; b_total_amount := 15000;
     b_currency := "USD"; b_cancelled_by := None;
     b_cancellation_reason := None |}.

(** Special hours, 14:00-16:00, announced for a Tuesday, a day of the
    week for which the clinic has no rule. *)
Definition special_tuesday : AvailabilityException :=
  {| x_id := "x2"; x_professional_id := "p1"; x_date := "2024-01-02";
     x_is_available := true; x_start_time := Some "14:00";
     x_end_time := Some "16:00"; x_reason := Some "special hours" |}.

Definition clinic_special_tuesday : Store :=
  Availability.with_exceptions Scenario.clinic [special_tuesday].



Definition clinic_with_eva : Store :=
  {| users := [Scenario.doctor_user; Scenario.eva];
     services := services Scenario.clinic;
     professionals := professionals Scenario.clinic;
     availability_rules := availability_rules Scenario.clinic;
     availability_exceptions := [];
     bookings := [Scenario.ten_oclock; eva_books_ten] |}.

End Cases.

(** * Properties *)

(** ** Wall-clock text: [format], [parse] and the two orders *)

Section TimeTextFacts.

Import TimeText.

Lemma digit_val_char (n : Z) :
  0 <= n <= 9 -> digit_val (digit_char n) = Some n.
Proof.
  intros H. rewrite <- (Z2Nat.id n) by lia.
  assert (Z.to_nat n < 10)%nat as B by lia.
  destruct (Z.to_nat n) as [ | [ | [ | [ | [ | [ | [ | [ | [ | [ | k]]]]]]]]]];
    first [reflexivity | lia].
Qed.

Lemma digit_val_inv (c : ascii) (v : Z) :
  digit_val c = Some v ->
  0 <= v <= 9 /\ digit_char v = c /\ Z.of_N (N_of_ascii c) = v + 48.
Proof.
  unfold digit_val, digit_char.
  destruct ((48 <=? Z.of_nat (nat_of_ascii c))
            && (Z.of_nat (nat_of_ascii c) <=? 57)) eqn:E; [ | discriminate].
  intros [= <-].
  apply andb_true_iff in E as [E1 E2].
  apply Z.leb_le in E1, E2.
  split; [lia | split].
  - replace (48 + (Z.of_nat (nat_of_ascii c) - 48)) with (Z.of_nat (nat_of_ascii c)) by lia.
    rewrite Nat2Z.id. apply ascii_nat_embedding.
  - unfold nat_of_ascii. rewrite N_nat_Z. lia.
Qed.


Lemma digits_of_format (t : Z) :
  let m := t mod 1440 in
  digits_of (format_HHmm t)
  = Some (m / 60 / 10, (m / 60) mod 10, (m mod 60) / 10, (m mod 60) mod 10).
Proof.
  intros m. unfold format_HHmm, pad2. fold m. cbn [append digits_of].
  assert (0 <= m < 1440) as Hm by (apply Z.mod_pos_bound; lia).
  rewrite !digit_val_char by (Z.div_mod_to_equations; lia).
  reflexivity.
Qed.

Lemma minutesOf_format (t : Z) : minutesOf (format_HHmm t) = t mod 1440.
Proof.
  unfold minutesOf. rewrite digits_of_format.
  assert (0 <= t mod 1440 < 1440) by (apply Z.mod_pos_bound; lia).
  Z.div_mod_to_equations; lia.
Qed.

Lemma timePattern_format (t : Z) : timePattern (format_HHmm t) = true.
Proof.
  unfold timePattern. rewrite digits_of_format.
  assert (0 <= t mod 1440 < 1440) as Hm by (apply Z.mod_pos_bound; lia).
  apply andb_true_iff; split.
  - apply orb_true_iff.
    destruct (Z.leb_spec (t mod 1440 / 60 / 10) 1) as [L | L]; [now left | right].
    apply andb_true_iff; split; [apply Z.eqb_eq | apply Z.leb_le];
      Z.div_mod_to_equations; lia.
  - apply Z.leb_le. Z.div_mod_to_equations; lia.
Qed.

Lemma parse_format (t : Z) : parse_HHmm (format_HHmm t) = Some (t mod 1440).
Proof.
  unfold parse_HHmm. now rewrite timePattern_format, minutesOf_format.
Qed.

(** The shape of a text accepted by [timePattern]. *)
Lemma timePattern_inv (s : string) :
  timePattern s = true ->
  exists a b d e h1 h0 m1 m0,
    s = String a (String b (String ":" (String d (String e EmptyString))))
    /\ digit_val a = Some h1 /\ digit_val b = Some h0
    /\ digit_val d = Some m1 /\ digit_val e = Some m0
    /\ digits_of s = Some (h1, h0, m1, m0)
    /\ 0 <= 10 * h1 + h0 <= 23 /\ 0 <= h0 <= 9 /\ 0 <= h1
    /\ 0 <= m1 <= 5 /\ 0 <= m0 <= 9.
Proof.
  unfold timePattern.
  destruct s as [ | a [ | b [ | c [ | d [ | e [ | ? ?]]]]]]; cbn [digits_of];
    try discriminate.
  destruct (digit_val a) as [h1 | ] eqn:Ha; [ | discriminate].
  destruct (digit_val b) as [h0 | ] eqn:Hb; [ | discriminate].
  destruct (digit_val d) as [m1 | ] eqn:Hd; [ | discriminate].
  destruct (digit_val e) as [m0 | ] eqn:He; [ | discriminate].
  destruct (Ascii.eqb c ":") eqn:Hc; [ | discriminate].
  apply Ascii.eqb_eq in Hc. subst c.
  intros H. apply andb_true_iff in H as [H1 H2]. apply Z.leb_le in H2.
  pose proof (digit_val_inv _ _ Ha) as (? & _ & _).
  pose proof (digit_val_inv _ _ Hb) as (? & _ & _).
  pose proof (digit_val_inv _ _ Hd) as (? & _ & _).
  pose proof (digit_val_inv _ _ He) as (? & _ & _).
  exists a, b, d, e, h1, h0, m1, m0.
  repeat split; try assumption; try reflexivity; lia.
Qed.


Lemma format_minutesOf (s : string) :
  timePattern s = true -> format_HHmm (minutesOf s) = s.
Proof.
  intros H. apply timePattern_inv in H
    as (a & b & d & e & h1 & h0 & m1 & m0 & -> & Ha & Hb & Hd & He & D & ?).
  unfold minutesOf. rewrite D.
  apply digit_val_inv in Ha as (? & <- & _), Hb as (? & <- & _),
    Hd as (? & <- & _), He as (? & <- & _).
  unfold format_HHmm, pad2. cbn [append].
  set (x := (10 * h1 + h0) * 60 + (10 * m1 + m0)).
  assert (x mod 1440 = x) as -> by (apply Z.mod_small; lia).
  assert (x / 60 = 10 * h1 + h0) as -> by (Z.div_mod_to_equations; lia).
  assert (x mod 60 = 10 * m1 + m0) as -> by (Z.div_mod_to_equations; lia).
  assert ((10 * h1 + h0) / 10 = h1) as -> by (Z.div_mod_to_equations; lia).
  assert ((10 * h1 + h0) mod 10 = h0) as -> by (Z.div_mod_to_equations; lia).
  assert ((10 * m1 + m0) / 10 = m1) as -> by (Z.div_mod_to_equations; lia).
  assert ((10 * m1 + m0) mod 10 = m0) as -> by (Z.div_mod_to_equations; lia).
  reflexivity.
Qed.


End TimeTextFacts.

Example format_and_parse :
  TimeText.format_HHmm 570 = "09:30"%string
  /\ TimeText.format_HHmm (Slots.addMinutes 1410 60) = "00:30"%string
  /\ TimeText.parse_HHmm "09:30" = Some 570
  /\ TimeText.parse_HHmm "24:00" = None
  /\ TimeText.parse_HHmm "9:30" = None
  /\ TimeText.time_text "09:30" = "09:30:00"%string
  /\ TimeText.parse_HHmm "09:30:00" = None.
Proof. repeat split; reflexivity. Qed.

Example getDay_of_a_monday :
  Calendar.getDay "2024-01-01" = Some 1
  /\ Calendar.getDay "2024-02-29" = Some 4
  /\ Calendar.getDay "2023-02-29" = None
  /\ Calendar.getDay "1970-01-01" = Some 4
  /\ Calendar.getDay "0000-01-01" = None.
Proof. repeat split; reflexivity. Qed.


(** ** The slot loop *)

Section SlotLoop.

Import TimeText Tables Slots.

Variable bk : list (string * string).
Variable d : Z.

(** The loop of a rule whose end has the shape [HH:mm] and denotes the
    minute [e]. *)
Variable et : string.
Variable e : Z.
Hypothesis et_shape : timePattern et = true.
Hypothesis et_minutes : minutesOf et = e.




End SlotLoop.

(** ** Times as the routes receive them *)

Section Delivery.

Import TimeText Tables Slots.

(** A TIME column never arrives as a text that [parse(..., 'HH:mm', ...)]
    reads: the seconds are left over. *)
Lemma parse_time_text (t : string) : parse_HHmm (time_text t) = None.
Proof. reflexivity. Qed.

Lemma time_text_shaped (t : string) :
  timePattern t = true -> time_text t = (t ++ ":00")%string.
Proof. intros H. unfold time_text. now rewrite format_minutesOf. Qed.

(** So the loop of a rule that was read from the table raises at its
    first test, whatever the fuel. *)
Lemma slotsForRule_delivered fuel bk d (r : AvailabilityRule) slots :
  slotsForRule fuel bk d (deliver_rule r) slots = RangeError.
Proof.
  unfold slotsForRule. cbn [deliver_rule r_start_time].
  now rewrite parse_time_text.
Qed.




Lemma insert_rule_In (r x : AvailabilityRule) (l : list AvailabilityRule) :
  In x (insert_rule r l) <-> x = r \/ In x l.
Proof.
  induction l as [ | y l IH]; cbn [insert_rule].
  - cbn. intuition congruence.
  - destruct (sql_time_lt (r_start_time y) (r_start_time r)); cbn [In];
      [rewrite IH | ]; intuition congruence.
Qed.

Lemma order_by_start_time_In (x : AvailabilityRule) (l : list AvailabilityRule) :
  In x (order_by_start_time l) <-> In x l.
Proof.
  induction l as [ | y l IH]; cbn [order_by_start_time fold_right In]; [tauto | ].
  fold (order_by_start_time l). rewrite insert_rule_In, IH.
  intuition congruence.
Qed.

(** A rule of the table that the statement of the slot routes selects. *)
Lemma rules_of_day_In (rule : AvailabilityRule) p tenantId dow st :
  In rule (rules_of_day p tenantId dow st)
  <-> In rule (availability_rules st)
      /\ r_professional_id rule = p /\ r_tenant_id rule = tenantId
      /\ r_day_of_week rule = dow /\ r_is_active rule = true.
Proof.
  unfold rules_of_day. rewrite order_by_start_time_In, filter_In.
  rewrite !andb_true_iff, !String.eqb_eq, Z.eqb_eq. tauto.
Qed.

End Delivery.

(** ** The two slot routes *)

Section SlotRoutes.

Import TimeText Tables Async Slots.

Lemma date_param_pattern (date : string) :
  date_param date = true -> Calendar.datePattern date = true.
Proof.
  unfold date_param, Calendar.parse_date.
  now destruct (Calendar.datePattern date).
Qed.

Lemma date_param_getDay (date : string) :
  date_param date
  = match Calendar.getDay date with Some _ => true | None => false end.
Proof.
  unfold date_param, Calendar.getDay.
  destruct (Calendar.parse_date date) as [[[y m] dd] | ]; reflexivity.
Qed.

(** What the part that both routes share answers: nothing is left of the
    loop but its first test, which raises when a rule was read. *)
Lemma slotsOfDay_exec fuel tenantId p date d finish st :
  exec (slotsOfDay fuel tenantId p date d finish) st
  = (st,
     match Calendar.getDay date with
     | None => Raised
     | Some dow =>
         if match find (Availability.of_day p date) (availability_exceptions st) with
            | Some x => negb (x_is_available x)
            | None => false
            end
         then Sent (Success [])
         else match rules_of_day p tenantId dow st with
              | [] => Sent (Success [])
              | _ :: _ => Raised
              end
     end).
Proof.
  unfold slotsOfDay. cbn [exec]. unfold select_exception, select_existing_bookings.
  rewrite date_param_getDay.
  destruct (Calendar.getDay date) as [dow | ]; [ | reflexivity].
  change (fun x => String.eqb (x_professional_id x) p && String.eqb (x_date x) date)
    with (Availability.of_day p date).
  destruct (match find (Availability.of_day p date) (availability_exceptions st) with
            | Some x => negb (x_is_available x)
            | None => false
            end); [reflexivity | ].
  cbn [exec select_rules].
  destruct (rules_of_day p tenantId dow st) as [ | r rules]; [reflexivity | ].
  cbn [map List.length Nat.eqb exec generateSlots].
  now rewrite slotsForRule_delivered.
Qed.

(** The staff route, once the date has passed its schema. *)
Lemma getSlots_day fuel tenantId p date service_id st :
  Calendar.datePattern date = true ->
  exists d,
    exec (getSlots fuel tenantId p date service_id) st
    = exec (slotsOfDay fuel tenantId p date d (fun slots => slots)) st.
Proof.
  intros H. unfold getSlots. rewrite H. cbn [negb].
  destruct service_id as [sid | ]; cbn [bind exec select_service];
    eexists; reflexivity.
Qed.

(** The public route, once its parameters are there and its service is
    found. *)
Lemma getPublicSlots_day fuel tenantId p sid date st svc :
  p <> ""%string -> sid <> ""%string -> date <> ""%string ->
  select_service true sid tenantId st = DbOk st (Some svc) ->
  exec (getPublicSlots fuel tenantId (Some p) (Some sid) (Some date)) st
  = exec (slotsOfDay fuel tenantId p date (sv_duration_minutes svc)
            (filter available)) st.
Proof.
  intros Hp Hs Hd Hsvc. unfold getPublicSlots. cbn [falsy text].
  destruct (String.eqb_spec p ""%string) as [E | _]; [contradiction | ].
  destruct (String.eqb_spec sid ""%string) as [E | _]; [contradiction | ].
  destruct (String.eqb_spec date ""%string) as [E | _]; [contradiction | ].
  cbn [orb exec]. rewrite Hsvc. reflexivity.
Qed.



End SlotRoutes.

(** ** Claims on slot generation *)

Section SlotClaims.

Import TimeText Tables Async Slots.
Local Open Scope string_scope.

Lemma filter_all {A : Type} (f : A -> bool) (l : list A) :
  Forall (fun x => f x = true) l -> filter f l = l.
Proof.
  induction 1 as [ | x l Hx _ IH]; [reflexivity | ].
  cbn [filter]. now rewrite Hx, IH.
Qed.



Lemma find_through_map {X Y : Type} (f : Y -> bool) (g : X -> Y) (l : list X) :
  find f (map g l) = option_map g (find (fun x => f (g x)) l).
Proof.
  induction l as [ | x l IH]; cbn [map find]; [reflexivity | ].
  destruct (f (g x)); [reflexivity | exact IH].
Qed.

(** The shared part on two stores that agree on the rules and on whether
    an exception blocks the date. *)
Lemma slotsOfDay_same fuel tenantId p date d finish st st1 :
  availability_rules st1 = availability_rules st ->
  bookings st1 = bookings st ->
  match find (Availability.of_day p date) (availability_exceptions st1) with
  | Some x => negb (x_is_available x)
  | None => false
  end
  = match find (Availability.of_day p date) (availability_exceptions st) with
    | Some x => negb (x_is_available x)
    | None => false
    end ->
  snd (exec (slotsOfDay fuel tenantId p date d finish) st1)
  = snd (exec (slotsOfDay fuel tenantId p date d finish) st).
Proof.
  intros Hr _ Hx. rewrite !slotsOfDay_exec. cbn [snd].
  unfold rules_of_day. rewrite Hr, Hx. reflexivity.
Qed.

Lemma slotsOfDay_never_reads_hours fuel tenantId p date d finish st :
  snd (exec (slotsOfDay fuel tenantId p date d finish) (without_hours st))
  = snd (exec (slotsOfDay fuel tenantId p date d finish) st).
Proof.
  apply slotsOfDay_same; [reflexivity | reflexivity | ].
  cbn [availability_exceptions without_hours]. rewrite find_through_map.
  unfold Availability.of_day at 1. cbn [forget_hours x_professional_id x_date].
  change (fun x => String.eqb (x_professional_id x) p && String.eqb (x_date x) date)
    with (Availability.of_day p date).
  destruct (find (Availability.of_day p date) (availability_exceptions st));
    reflexivity.
Qed.

(** The shared part does not look at the bookings. *)
Lemma slotsOfDay_without_bookings fuel tenantId p date d finish st :
  snd (exec (slotsOfDay fuel tenantId p date d finish) st)
  = snd (exec (slotsOfDay fuel tenantId p date d finish) (with_bookings st [])).
Proof. rewrite !slotsOfDay_exec. reflexivity. Qed.

(** C5.  On a date whose day of the week has an active rule of the
    professional in the tenant, and that no exception blocks, both slot
    routes end in an exception, whatever the hours of the rule, the
    duration of the service and the bookings: the rule arrives with its
    times as [HH:MM:SS], [parse] with ['HH:mm'] answers an Invalid Date,
    and the first test of the loop formats it.  The rule is found by the
    statement of the route in the table; nothing is assumed of what it
    answers. *)
Theorem day_with_a_rule_raises
    fuel tenantId p D service_id st dow (rule : AvailabilityRule) :
  Calendar.getDay D = Some dow ->
  match find (Availability.of_day p D) (availability_exceptions st) with
  | Some x => negb (x_is_available x)
  | None => false
  end = false ->
  In rule (availability_rules st) ->
  r_professional_id rule = p -> r_tenant_id rule = tenantId ->
  r_day_of_week rule = dow -> r_is_active rule = true ->
  exec (getSlots fuel tenantId p D service_id) st = (st, Raised)
  /\ (forall sid svc,
        p <> ""%string -> sid <> ""%string ->
        In svc (services st) ->
        sv_id svc = sid -> sv_tenant_id svc = tenantId -> sv_is_active svc = true ->
        exec (getPublicSlots fuel tenantId (Some p) (Some sid) (Some D)) st
        = (st, Raised)).
Proof.
  intros Hday Hx Hin Hp Ht Hdow Hact.
  assert (date_param D = true) as Hdate by (rewrite date_param_getDay, Hday; reflexivity).
  assert (forall d finish,
            exec (slotsOfDay fuel tenantId p D d finish) st = (st, Raised)) as K.
  { intros d finish. rewrite slotsOfDay_exec, Hday, Hx.
    destruct (rules_of_day p tenantId dow st) as [ | r rules] eqn:R; [ | reflexivity].
    exfalso. assert (In rule (rules_of_day p tenantId dow st)) as Hr
      by (apply rules_of_day_In; auto).
    rewrite R in Hr. exact Hr. }
  split.
  - destruct (getSlots_day fuel tenantId p D service_id st
                (date_param_pattern D Hdate)) as [d ->].
    apply K.
  - intros sid svc Hpn Hsn Hs Hid Hten Hon.
    assert (exists svc', select_service true sid tenantId st = DbOk st (Some svc'))
      as [svc' Hsvc].
    { unfold select_service.
      destruct (find _ (services st)) as [svc' | ] eqn:F; [now exists svc' | ].
      apply (find_none _ _ F) in Hs. cbn [negb orb] in Hs.
      rewrite Hid, Hten, Hon, !String.eqb_refl in Hs. discriminate Hs. }
    rewrite (getPublicSlots_day fuel tenantId p sid D st svc'); auto.
    intros ->. discriminate Hdate.
Qed.

(** C4.  The answer of either slot route does not depend on the bookings
    table: it is the same with the bookings of the store and with none.
    On the day of the scenario, with the confirmed booking 10:00-10:30 in
    the store, both routes end in the exception of C5, so no list is
    answered and no entry is shown as occupied. *)
Theorem occupied_slot_is_never_listed fuel tenantId p date service_id st :
  snd (exec (getSlots fuel tenantId p date service_id) st)
  = snd (exec (getSlots fuel tenantId p date service_id) (with_bookings st []))
  /\ snd (exec (getPublicSlots fuel tenantId (Some p) service_id (Some date)) st)
     = snd (exec (getPublicSlots fuel tenantId (Some p) service_id (Some date))
                 (with_bookings st []))
  /\ exec (getSlots 1440 "t1" "p1" "2024-01-01" (Some "svc1")) Scenario.clinic_booked
     = (Scenario.clinic_booked, Raised)
  /\ exec (getPublicSlots 1440 "t1" (Some "p1") (Some "svc1") (Some "2024-01-01"))
          Scenario.clinic_booked
     = (Scenario.clinic_booked, Raised).
Proof.
  split; [ | split; [ | split; reflexivity]].
  - unfold getSlots. destruct (negb (Calendar.datePattern date)); [reflexivity | ].
    destruct service_id as [sid | ]; cbn [bind exec select_service];
      cbn [services with_bookings]; apply slotsOfDay_without_bookings.
  - unfold getPublicSlots.
    destruct (falsy (Some p) || falsy service_id || falsy (Some date));
      [reflexivity | ].
    cbn [exec select_service]. cbn [services with_bookings].
    destruct (find _ (services st)); [ | reflexivity].
    apply slotsOfDay_without_bookings.
Qed.




End SlotClaims.

(** ** The scenario of the specification, as the routes answer it *)

Section SlotScenarios.

Import TimeText Tables Async Slots Scenario.
Local Open Scope string_scope.

(** C3.  The answer of either slot route is the same whether or not the
    exceptions of the store carry hours: the routes never read them.  An
    exception that announces special hours, 14:00-16:00, for a Tuesday
    opens nothing on a calendar whose only rule is for Mondays: both
    routes answer the empty list.  Announced for the Monday, it changes
    nothing either: both routes end in the exception of C5, as they do
    without it. *)
Theorem special_hours_exception_ignored :
  (forall fuel tenantId p date service_id st,
     snd (exec (getSlots fuel tenantId p date service_id) (without_hours st))
     = snd (exec (getSlots fuel tenantId p date service_id) st)
     /\ snd (exec (getPublicSlots fuel tenantId (Some p) service_id (Some date))
                  (without_hours st))
        = snd (exec (getPublicSlots fuel tenantId (Some p) service_id (Some date)) st))
  /\ find (fun x => String.eqb (x_professional_id x) "p1" && String.eqb (x_date x) "2024-01-02")
          (availability_exceptions Cases.clinic_special_tuesday)
     = Some Cases.special_tuesday
  /\ x_is_available Cases.special_tuesday = true
  /\ x_start_time Cases.special_tuesday = Some "14:00"
  /\ x_end_time Cases.special_tuesday = Some "16:00"
  /\ exec (getSlots 1440 "t1" "p1" "2024-01-02" (Some "svc1"))
          Cases.clinic_special_tuesday
     = (Cases.clinic_special_tuesday, Sent (Success []))
  /\ exec (getPublicSlots 1440 "t1" (Some "p1") (Some "svc1") (Some "2024-01-02"))
          Cases.clinic_special_tuesday
     = (Cases.clinic_special_tuesday, Sent (Success []))
  /\ exec (getSlots 1440 "t1" "p1" "2024-01-01" (Some "svc1")) clinic_special_hours
     = (clinic_special_hours, Raised)
  /\ exec (getPublicSlots 1440 "t1" (Some "p1") (Some "svc1") (Some "2024-01-01"))
          clinic_special_hours
     = (clinic_special_hours, Raised).
Proof.
  split; [ | repeat split; vm_compute; reflexivity].
  intros fuel tenantId p date service_id st. split.
  - unfold getSlots. destruct (negb (Calendar.datePattern date)); [reflexivity | ].
    destruct service_id as [sid | ]; cbn [bind exec select_service];
      cbn [services without_hours]; apply slotsOfDay_never_reads_hours.
  - unfold getPublicSlots.
    destruct (falsy (Some p) || falsy service_id || falsy (Some date));
      [reflexivity | ].
    cbn [exec select_service]. cbn [services without_hours].
    destruct (find _ (services st)); [ | reflexivity].
    apply slotsOfDay_never_reads_hours.
Qed.

Lemma day_with_a_rule_raises_witness :
  exec (getSlots 1440 "t1" "p1" "2024-01-01" (Some "svc1")) clinic = (clinic, Raised)
  /\ exec (getPublicSlots 1440 "t1" (Some "p1") (Some "svc1") (Some "2024-01-01")) clinic
     = (clinic, Raised).
Proof.
  destruct (day_with_a_rule_raises 1440 "t1" "p1" "2024-01-01" (Some "svc1") clinic 1
              monday_morning) as [H1 H2].
  - reflexivity.
  - reflexivity.
  - simpl. tauto.
  - reflexivity.
  - reflexivity.
  - reflexivity.
  - reflexivity.
  - split; [exact H1 | ].
    apply (H2 "svc1" consultation);
      [discriminate | discriminate | simpl; tauto | reflexivity | reflexivity
      | reflexivity].
Defined.



End SlotScenarios.

(** ** The reservation routes *)

Section Reservation.

Import TimeText Tables Async Bookings.

Lemma status_eqb_eq (a b : BookingStatus) : status_eqb a b = true <-> a = b.
Proof. destruct a, b; cbn; split; congruence. Qed.

Lemma conflicts_spec (p d s e : string) (b : Booking) :
  conflicts p d s e b = true <->
  b_professional_id b = p /\ b_date b = d /\ b_status b <> cancelled
  /\ minutesOf (b_start_time b) < minutesOf e
  /\ minutesOf s < minutesOf (b_end_time b).
Proof.
  unfold conflicts, sql_time_lt.
  rewrite !andb_true_iff, !String.eqb_eq, !Z.ltb_lt, negb_true_iff.
  rewrite <- not_true_iff_false, status_eqb_eq. tauto.
Qed.

Lemma find_conflict_overlapping (body : BookingBody) (st : Store) :
  (exists b, In b (bookings st) /\ overlapping body b) <->
  find (conflicts (professional_id body) (date body) (start_time body)
                  (end_time body)) (bookings st) <> None.
Proof.
  split.
  - intros (b & Hb & Ho) F.
    apply (find_none _ _ F) in Hb.
    apply (proj2 (conflicts_spec _ _ _ _ b)) in Ho. congruence.
  - destruct (find _ (bookings st)) as [b | ] eqn:F; [ | congruence].
    intros _. apply find_some in F as (Hb & Hc).
    exists b. split; [assumption | ]. now apply conflicts_spec.
Qed.

Lemma existsb_In_map {A : Type} (key : A -> string) (k : string) (l : list A) :
  existsb (fun x => String.eqb (key x) k) l = true <-> In k (map key l).
Proof.
  rewrite existsb_exists, in_map_iff.
  split; intros (x & H1 & H2); exists x.
  - apply String.eqb_eq in H2. auto.
  - split; [assumption | now apply String.eqb_eq].
Qed.

Lemma route_service_listed r body tenantId st svc :
  route_service r body tenantId st = Some svc ->
  existsb (fun s => String.eqb (sv_id s) (service_id body)) (services st) = true.
Proof.
  intros F. apply find_some in F as (Hin & Hp).
  apply existsb_exists. exists svc. split; [assumption | ].
  now apply andb_true_iff in Hp as (Hp%andb_true_iff & _).
Qed.

(** The bookings table accepts the row of a request whose interval is
    proper, whose professional exists and whose identifier is new. *)
Lemma bookings_accept_new r st st1 tenantId clientId body bookingId svc :
  bookings st1 = bookings st -> professionals st1 = professionals st ->
  services st1 = services st ->
  route_service r body tenantId st = Some svc ->
  ~ In bookingId (map b_id (bookings st)) ->
  In (professional_id body) (map p_id (professionals st)) ->
  minutesOf (start_time body) < minutesOf (end_time body) ->
  fk_user st1 clientId = true ->
  bookings_accept st1 (new_booking bookingId tenantId clientId body svc) = true.
Proof.
  intros Eb Ep Es Hs Hid Hp Hlt Hc. unfold bookings_accept.
  cbn [new_booking b_id b_professional_id b_service_id b_client_id
         b_cancelled_by b_start_time b_end_time fk_user].
  rewrite Eb, Ep, Es, Hc, (route_service_listed _ _ _ _ _ Hs).
  rewrite (proj2 (existsb_In_map p_id _ _) Hp).
  destruct (existsb _ (bookings st)) eqn:X.
  - apply existsb_In_map in X. contradiction.
  - cbn [negb andb]. unfold sql_time_lt. now apply Z.ltb_lt.
Qed.

Lemma user_exists_appended st u :
  user_exists (with_users st (users st ++ [u])) (u_id u) = true.
Proof.
  unfold user_exists. cbn [users with_users]. rewrite existsb_app.
  cbn [existsb]. rewrite String.eqb_refl. now rewrite orb_true_r.
Qed.

(** Finding or creating the client leaves the bookings alone and answers
    a user of the store. *)
Lemma find_or_create_client_ready tenantId newClientId email name phone st
    (A : Type) (k : option uuid -> Async A) :
  guest_ready tenantId newClientId email name phone st ->
  exists st1 cid,
    exec (bind (find_or_create_client newClientId tenantId email name phone) k) st
    = exec (k (Some cid)) st1
    /\ bookings st1 = bookings st /\ professionals st1 = professionals st
    /\ services st1 = services st /\ user_exists st1 cid = true.
Proof.
  unfold guest_ready, find_or_create_client. cbn [bind exec select_user_by_email].
  destruct (find _ (users st)) as [u | ] eqn:F.
  - intros _. exists st, (u_id u). cbn [bind exec]. repeat split.
    apply find_some in F as (Hin & _).
    apply existsb_exists. exists u. split; [assumption | apply String.eqb_refl].
  - intros Hacc. cbn [bind exec]. unfold insert_user. rewrite Hacc.
    cbn [bind exec]. eexists _, newClientId. repeat split.
    apply (user_exists_appended st (guest_user newClientId tenantId email name phone)).
Qed.

Lemma reserve_exec r tenantId body newClientId bookingId st :
  exec (reserve r tenantId body newClientId bookingId) st
  = if negb (route_schema r body) then (st, Sent ValidationFailed)
    else
      match route_service r body tenantId st with
      | None => (st, Sent NotFound)
      | Some svc =>
          if date_param (date body) then
            match find (conflicts (professional_id body) (date body)
                                  (start_time body) (end_time body))
                       (bookings st) with
            | Some _ => (st, Sent Conflict)
            | None =>
                exec (clientId <-
                        match r with
                        | StaffRoute (Some uid) => Return (Some uid)
                        | StaffRoute None =>
                            match or_null (client_email body) with
                            | Some email =>
                                find_or_create_client newClientId tenantId email
                                  (match or_null (client_name body) with
                                   | Some n => n
                                   | None => "Guest"%string
                                   end) (client_phone body)
                            | None => Return None
                            end
                        | PublicRoute =>
                            find_or_create_client newClientId tenantId
                              (text_of (client_email body))
                              (text_of (client_name body)) (client_phone body)
                        end ;;
                      booking <- await (insert_booking
                                          (new_booking bookingId tenantId clientId
                                                       body svc)) ;;
                      Return (Created booking))%async st
            end
          else (st, Raised)
      end.
Proof.
  unfold route_service.
  destruct r as [user | ]; cbn [reserve route_schema negb orb].
  - unfold createBooking. destruct (createBookingSchema body); [ | reflexivity].
    cbn [negb orb exec select_service].
    destruct (find _ (services st)) as [svc | ]; [ | reflexivity].
    cbn [exec]. unfold select_conflict.
    destruct (date_param (date body)); [ | reflexivity].
    destruct (find _ (bookings st)); [reflexivity | ].
    destruct user; reflexivity.
  - unfold createPublicBooking.
    destruct (createPublicBookingSchema body); [ | reflexivity].
    cbn [negb orb exec select_service].
    destruct (find _ (services st)) as [svc | ]; [ | reflexivity].
    cbn [exec]. unfold select_conflict.
    destruct (date_param (date body)); [ | reflexivity].
    destruct (find _ (bookings st)); reflexivity.
Qed.

(** C2 (as amended).  A request that passes the schema of its route, for
    a calendar date, whose service the route finds: when a stored booking
    overlaps, the answer is 409 and the store is unchanged; when none
    does, the interval is proper, the professional exists, the identifier
    is new and the client can be told, the answer is 201 with the new
    row, pending, and exactly that row is appended to the bookings. *)
Theorem reserve_conflict_or_insert r tenantId body newClientId bookingId st svc :
  route_schema r body = true ->
  route_service r body tenantId st = Some svc ->
  date_param (date body) = true ->
  ((exists b, In b (bookings st) /\ overlapping body b) ->
   exec (reserve r tenantId body newClientId bookingId) st = (st, Sent Conflict))
  /\ (~ (exists b, In b (bookings st) /\ overlapping body b) ->
      minutesOf (start_time body) < minutesOf (end_time body) ->
      In (professional_id body) (map p_id (professionals st)) ->
      ~ In bookingId (map b_id (bookings st)) ->
      client_ready r tenantId newClientId body st ->
      exists st' row,
        exec (reserve r tenantId body newClientId bookingId) st
        = (st', Sent (Created row))
        /\ bookings st' = bookings st ++ [row]
        /\ b_id row = bookingId
        /\ b_professional_id row = professional_id body
        /\ b_date row = date body
        /\ b_start_time row = start_time body
        /\ b_end_time row = end_time body
        /\ b_status row = pending).
Proof.
  intros Hv Hs Hd. rewrite reserve_exec, Hv, Hs, Hd. cbn [negb].
  rewrite find_conflict_overlapping. split.
  - destruct (find _ (bookings st)); [reflexivity | congruence].
  - intros Hno Hlt Hp Hid Hc.
    destruct (find _ (bookings st)); [exfalso; apply Hno; congruence | ].
    assert (forall st1 cid,
      bookings st1 = bookings st -> professionals st1 = professionals st ->
      services st1 = services st -> fk_user st1 cid = true ->
      exists st' row,
        exec (booking <- await (insert_booking
                                  (new_booking bookingId tenantId cid body svc)) ;;
              Return (Created booking))%async st1
        = (st', Sent (Created row))
        /\ bookings st' = bookings st ++ [row]
        /\ b_id row = bookingId
        /\ b_professional_id row = professional_id body
        /\ b_date row = date body
        /\ b_start_time row = start_time body
        /\ b_end_time row = end_time body
        /\ b_status row = pending) as K.
    { intros st1 cid Eb Ep Es Hfk. cbn [exec]. unfold insert_booking.
      rewrite (bookings_accept_new r st st1 tenantId cid body bookingId svc)
        by assumption.
      cbn [exec]. eexists _, _. split; [reflexivity | ].
      cbn [bookings with_bookings]. rewrite Eb. repeat split. }
    destruct r as [[uid | ] | ]; cbn [client_ready] in Hc.
    + cbn [bind]. now apply K.
    + destruct (or_null (client_email body)) as [email | ].
      * destruct (find_or_create_client_ready _ _ _ _ _ _ _
                    (fun clientId =>
                       (booking <- await (insert_booking
                                  (new_booking bookingId tenantId clientId body svc)) ;;
                        Return (Created booking))%async) Hc)
          as (st1 & cid & -> & Eb & Ep & Es & Hu).
        now apply K.
      * cbn [bind]. now apply K.
    + destruct (find_or_create_client_ready _ _ _ _ _ _ _
                  (fun clientId =>
                     (booking <- await (insert_booking
                                (new_booking bookingId tenantId clientId body svc)) ;;
                      Return (Created booking))%async) Hc)
        as (st1 & cid & -> & Eb & Ep & Es & Hu).
      now apply K.
Qed.

End Reservation.

Section ReservationScenarios.

Import TimeText Tables Async Bookings Scenario.
Local Open Scope string_scope.

Lemma reserve_conflict_or_insert_witness :
  exec (reserve (StaffRoute (Some "u1")) "t1" quarter_past_ten "c1" "b9") clinic_booked
  = (clinic_booked, Sent Conflict)
  /\ exists st' row,
       exec (reserve (StaffRoute (Some "u1")) "t1" ten_to_half_past "c1" "b9") clinic
       = (st', Sent (Created row))
       /\ bookings st' = (bookings clinic ++ [row])%list
       /\ b_id row = "b9"
       /\ b_professional_id row = "p1"
       /\ b_date row = "2024-01-01"
       /\ b_start_time row = "10:00"
       /\ b_end_time row = "10:30"
       /\ b_status row = pending.
Proof.
  split.
  - apply (proj1 (reserve_conflict_or_insert (StaffRoute (Some "u1")) "t1"
                    quarter_past_ten "c1" "b9" clinic_booked consultation
                    eq_refl eq_refl eq_refl)).
    exists ten_oclock. split; [now left | ].
    repeat split; try reflexivity; discriminate.
  - destruct (proj2 (reserve_conflict_or_insert (StaffRoute (Some "u1")) "t1"
                       ten_to_half_past "c1" "b9" clinic consultation
                       eq_refl eq_refl eq_refl)) as (st' & row & H).
    + intros (b & [] & _).
    + reflexivity.
    + now left.
    + intros [].
    + reflexivity.
    + exists st', row. exact H.
Defined.

(** C2, as stated, fails for an interval whose end is not after its
    start: the schema lets it pass, no stored booking overlaps it, and
    the bookings table rejects the row, so the request answers neither
    409 nor 201 and inserts nothing. *)
Lemma reserve_backwards_interval_raises :
  route_schema (StaffRoute (Some "u1")) backwards = true
  /\ route_service (StaffRoute (Some "u1")) backwards "t1" clinic = Some consultation
  /\ ~ (exists b, In b (bookings clinic) /\ overlapping backwards b)
  /\ exec (reserve (StaffRoute (Some "u1")) "t1" backwards "c1" "b9") clinic
     = (clinic, Raised).
Proof.
  repeat split; try (vm_compute; reflexivity).
  intros (b & [] & _).
Qed.

(** C9.  A guest asks for an interval that ends before it starts, or for
    a professional that does not exist: the guest's row is inserted, the
    booking is rejected, the request fails, and the guest's row stays. *)
Theorem failed_reservation_leaves_guest_user :
  exec (reserve PublicRoute "t1" guest_backwards "c1" "b9") clinic
  = (with_users clinic [doctor_user; eva], Raised)
  /\ exec (reserve (StaffRoute None) "t1" guest_backwards "c1" "b9") clinic
     = (with_users clinic [doctor_user; eva], Raised)
  /\ exec (reserve PublicRoute "t1" guest_unknown_professional "c1" "b9") clinic
     = (with_users clinic [doctor_user; eva], Raised)
  /\ users clinic = [doctor_user].
Proof. repeat split; vm_compute; reflexivity. Qed.

(** C1, as stated, fails: when the event loop resumes both requests up to
    their conflict check before either inserts, both answer 201 and the
    store holds two pending bookings of the same professional and date,
    10:00-10:30 and 10:15-10:45. *)
Lemma interleaved_reservations_double_book :
  exists st' row1 row2,
    interleave check_check_insert_insert
      (Running (reserve (StaffRoute (Some "u1")) "t1" ten_to_half_past "c1" "b8"))
      (Running (reserve (StaffRoute (Some "u1")) "t1" quarter_past_ten "c2" "b9"))
      clinic
    = (st', Done (Sent (Created row1)), Done (Sent (Created row2)))
    /\ bookings st' = [row1; row2]
    /\ b_status row1 = pending /\ b_status row2 = pending
    /\ overlapping ten_to_half_past row2
    /\ overlapping quarter_past_ten row1.
Proof.
  eexists _, _, _. split; [vm_compute; reflexivity | ].
  repeat split; try reflexivity; discriminate.
Qed.

(** C8, as stated, fails: PATCH moves a completed booking back to
    pending, cancel moves a no_show booking to cancelled, and reschedule
    moves a cancelled booking to pending. *)
Lemma terminal_states_are_left :
  map b_status (bookings (with_status completed)) = [completed]
  /\ map b_status
       (bookings (fst (exec (updateBooking "u1" "t1" "b1" back_to_pending)
                            (with_status completed)))) = [pending]
  /\ map b_status
       (bookings (fst (exec (cancelBooking "u1" "t1" "b1" None)
                            (with_status no_show)))) = [cancelled]
  /\ map b_status
       (bookings (fst (exec (rescheduleBooking "t1" "b1" next_monday)
                            (with_status cancelled)))) = [pending].
Proof. repeat split; vm_compute; reflexivity. Qed.

End ReservationScenarios.

(** ** Requests in flight together *)

Section Interleaving.

Import TimeText Tables Async Bookings.

Context {A : Type}.

Lemma interleave_app (s1 s2 : list bool) :
  forall (t1 t2 : Thread A) st,
    interleave (s1 ++ s2) t1 t2 st
    = let '(st', t1', t2') := interleave s1 t1 t2 st in interleave s2 t1' t2' st'.
Proof.
  induction s1 as [ | [ | ] s1 IH]; intros t1 t2 st; cbn [app interleave].
  - reflexivity.
  - destruct (resume t1 st). apply IH.
  - destruct (resume t2 st). apply IH.
Qed.

Lemma interleave_first_done (m : nat) (r : Reply A) (t2 : Thread A) st :
  interleave (repeat true m) (Done r) t2 st = (st, Done r, t2).
Proof. induction m as [ | m IH]; [reflexivity | exact IH]. Qed.

Lemma interleave_second_done (m : nat) (t1 : Thread A) (r : Reply A) st :
  interleave (repeat false m) t1 (Done r) st = (st, t1, Done r).
Proof. induction m as [ | m IH]; [reflexivity | exact IH]. Qed.

(** Resumed alone and often enough, a request does what [exec] says. *)
Lemma interleave_first_alone (p : Async A) :
  forall st, exists n, forall m, (n <= m)%nat -> forall t2,
    interleave (repeat true m) (Running p) t2 st
    = (fst (exec p st), Done (snd (exec p st)), t2).
Proof.
  induction p as [a | | | X q k IH]; intros st.
  1-3: exists 1%nat; intros [ | m] Hm t2; [lia | ];
       cbn [repeat interleave resume exec fst snd];
       apply interleave_first_done.
  cbn [exec]. destruct (q st) as [st' x | ] eqn:Q.
  - destruct (IH x st') as (n & Hn). exists (S n). intros [ | m] Hm t2; [lia | ].
    cbn [repeat interleave resume]. rewrite Q. apply Hn. lia.
  - exists 1%nat. intros [ | m] Hm t2; [lia | ].
    cbn [repeat interleave resume fst snd]. rewrite Q.
    apply interleave_first_done.
Qed.

Lemma interleave_second_alone (p : Async A) :
  forall st, exists n, forall m, (n <= m)%nat -> forall t1,
    interleave (repeat false m) t1 (Running p) st
    = (fst (exec p st), t1, Done (snd (exec p st))).
Proof.
  induction p as [a | | | X q k IH]; intros st.
  1-3: exists 1%nat; intros [ | m] Hm t1; [lia | ];
       cbn [repeat interleave resume exec fst snd];
       apply interleave_second_done.
  cbn [exec]. destruct (q st) as [st' x | ] eqn:Q.
  - destruct (IH x st') as (n & Hn). exists (S n). intros [ | m] Hm t1; [lia | ].
    cbn [repeat interleave resume]. rewrite Q. apply Hn. lia.
  - exists 1%nat. intros [ | m] Hm t1; [lia | ].
    cbn [repeat interleave resume fst snd]. rewrite Q.
    apply interleave_second_done.
Qed.

(** A schedule that lets the first request answer before it resumes the
    second runs them one after the other. *)
Lemma serial_schedule (p1 p2 : Async A) (st : Tables.Store) :
  exists n, forall m1 m2, (n <= m1)%nat -> (n <= m2)%nat ->
    interleave (repeat true m1 ++ repeat false m2) (Running p1) (Running p2) st
    = (fst (exec p2 (fst (exec p1 st))),
       Done (snd (exec p1 st)),
       Done (snd (exec p2 (fst (exec p1 st))))).
Proof.
  destruct (interleave_first_alone p1 st) as (n1 & H1).
  destruct (interleave_second_alone p2 (fst (exec p1 st))) as (n2 & H2).
  exists (Nat.max n1 n2). intros m1 m2 L1 L2.
  rewrite interleave_app, H1 by lia. now rewrite H2 by lia.
Qed.

End Interleaving.

Section SerialReservations.

Import TimeText Tables Async Bookings.

Lemma find_or_create_client_cases tenantId newClientId email name phone
    (B : Type) (k : option uuid -> Async B) st st' (a : Reply B) :
  exec (bind (find_or_create_client newClientId tenantId email name phone) k) st
  = (st', a) ->
  a = Raised
  \/ exists st1 cid, exec (k (Some cid)) st1 = (st', a)
                     /\ bookings st1 = bookings st /\ services st1 = services st.
Proof.
  unfold find_or_create_client. cbn [bind exec select_user_by_email].
  destruct (find _ (users st)) as [u | ].
  - cbn [bind]. intros H. right. eauto.
  - cbn [bind exec]. unfold insert_user.
    destruct (users_accept st _).
    + cbn [bind]. intros H. right. eexists _, _. split; [exact H | split; reflexivity].
    + intros [= _ <-]. now left.
Qed.

(** A request that answered 201 passed its schema, named a calendar date
    and left its row, pending, in the store. *)
Lemma reserve_Created_inv r tenantId body newClientId bookingId st st1 row :
  exec (reserve r tenantId body newClientId bookingId) st = (st1, Sent (Created row)) ->
  date_param (date body) = true
  /\ services st1 = services st
  /\ In row (bookings st1)
  /\ b_professional_id row = professional_id body
  /\ b_date row = date body
  /\ b_start_time row = start_time body
  /\ b_end_time row = end_time body
  /\ b_status row = pending.
Proof.
  rewrite reserve_exec.
  destruct (negb (route_schema r body)); [discriminate | ].
  destruct (route_service r body tenantId st) as [svc | ]; [ | discriminate].
  destruct (date_param (date body)); [ | discriminate].
  destruct (find _ (bookings st)); [discriminate | ].
  assert (forall st0 cid,
    bookings st0 = bookings st -> services st0 = services st ->
    exec (booking <- await (insert_booking
                              (new_booking bookingId tenantId cid body svc)) ;;
          Return (Created booking))%async st0 = (st1, Sent (Created row)) ->
    true = true
    /\ services st1 = services st
    /\ In row (bookings st1)
    /\ b_professional_id row = professional_id body
    /\ b_date row = date body
    /\ b_start_time row = start_time body
    /\ b_end_time row = end_time body
    /\ b_status row = pending) as K.
  { intros st0 cid Eb Es. cbn [exec]. unfold insert_booking.
    destruct (bookings_accept st0 _); [ | discriminate].
    cbn [exec]. intros [= <- <-]. cbn [bookings services with_bookings].
    repeat split; auto. apply in_or_app. right. now left. }
  destruct r as [[uid | ] | ].
  - cbn [bind]. now apply K.
  - destruct (or_null (client_email body)).
    + intros H. apply find_or_create_client_cases in H
        as [H | (st0 & cid & H & Eb & Es)]; [discriminate H | ].
      now apply K in H.
    + cbn [bind]. now apply K.
  - intros H. apply find_or_create_client_cases in H
      as [H | (st0 & cid & H & Eb & Es)]; [discriminate H | ].
    now apply K in H.
Qed.

(** C1 (as amended).  Two requests for the same professional and date
    whose intervals overlap, the second resumed only after the first has
    answered: both answer, and when the first answers 201 the second does
    not; it answers 409, store unchanged, whenever it passes its schema
    and its service is found. *)
Theorem serial_reservations_exclude
    r1 r2 tenant1 tenant2 body1 body2 c1 b1 c2 b2 st :
  professional_id body2 = professional_id body1 ->
  date body2 = date body1 ->
  minutesOf (start_time body1) < minutesOf (end_time body2) ->
  minutesOf (start_time body2) < minutesOf (end_time body1) ->
  exists n, forall m1 m2, (n <= m1)%nat -> (n <= m2)%nat ->
    exists st1 st2 a1 a2,
      exec (reserve r1 tenant1 body1 c1 b1) st = (st1, a1)
      /\ interleave (repeat true m1 ++ repeat false m2)
           (Running (reserve r1 tenant1 body1 c1 b1))
           (Running (reserve r2 tenant2 body2 c2 b2)) st
         = (st2, Done a1, Done a2)
      /\ forall row1, a1 = Sent (Created row1) ->
           st2 = st1
           /\ (forall row2, a2 <> Sent (Created row2))
           /\ (route_schema r2 body2 = true ->
               route_service r2 body2 tenant2 st <> None ->
               a2 = Sent Conflict).
Proof.
  intros Hp Hd H12 H21.
  destruct (serial_schedule (reserve r1 tenant1 body1 c1 b1)
              (reserve r2 tenant2 body2 c2 b2) st) as (n & Hn).
  exists n. intros m1 m2 L1 L2. rewrite (Hn m1 m2 L1 L2).
  destruct (exec (reserve r1 tenant1 body1 c1 b1) st) as (st1, a1) eqn:E1.
  cbn [fst snd].
  exists st1, (fst (exec (reserve r2 tenant2 body2 c2 b2) st1)), a1,
    (snd (exec (reserve r2 tenant2 body2 c2 b2) st1)).
  split; [reflexivity | split; [reflexivity | ] ].
  intros row1 ->.
  apply reserve_Created_inv in E1 as (Dt & Es & Hin & Rp & Rd & Rs & Re & Rst).
  assert (find (conflicts (professional_id body2) (date body2) (start_time body2)
                          (end_time body2)) (bookings st1) <> None) as F.
  { apply find_conflict_overlapping. exists row1. split; [assumption | ].
    unfold overlapping. rewrite Rp, Rd, Rs, Re, Rst, Hp, Hd.
    repeat split; auto. discriminate. }
  rewrite reserve_exec. unfold route_service. rewrite Es.
  fold (route_service r2 body2 tenant2 st).
  rewrite <- Hd in Dt. rewrite Dt.
  destruct (route_schema r2 body2); cbn [negb fst snd].
  - destruct (route_service r2 body2 tenant2 st) as [svc | ]; cbn [fst snd].
    + destruct (find _ (bookings st1)); [ | congruence]. cbn [fst snd].
      repeat split; discriminate.
    + repeat split; first [discriminate | congruence].
  - repeat split; first [discriminate | congruence].
Qed.

End SerialReservations.

(** ** Lifecycle routes *)

Section Lifecycle.

Import TimeText Tables Async Bookings.

Lemma update_bookings_rows sel set st st' r :
  update_bookings sel set st = DbOk st' r ->
  bookings st' = map (fun b => if sel b then set b else b) (bookings st)
  /\ (forall b', r = Some b' -> exists b, sel b = true /\ b' = set b).
Proof.
  unfold update_bookings. destruct (forallb _ _); [ | discriminate].
  intros [= <- <-]. split; [reflexivity | ].
  intros b' H. destruct (filter sel (bookings st)) as [ | b l] eqn:F;
    [discriminate | ].
  cbn [map hd_error] in H. injection H as <-. exists b. split; [ | reflexivity].
  assert (In b (filter sel (bookings st))) as Hin by (rewrite F; now left).
  now apply filter_In in Hin.
Qed.

(** An UPDATE leaves alone, at its place, every row it does not select. *)
Lemma update_bookings_keeps sel set st i b (B : Type)
    (k : option Booking -> Async B) :
  (forall x, exists a, k x = Return a) ->
  nth_error (bookings st) i = Some b -> sel b = false ->
  nth_error (bookings (fst (exec (Await (update_bookings sel set) k) st))) i
  = Some b.
Proof.
  intros Hk Hi Hs. cbn [exec].
  destruct (update_bookings sel set st) as [st' r | ] eqn:U; [ | exact Hi].
  destruct (Hk r) as (a & ->). cbn [exec fst].
  apply update_bookings_rows in U as (-> & _).
  rewrite nth_error_map, Hi. cbn [option_map]. now rewrite Hs.
Qed.

Lemma patch_row_status user body b s :
  upd_status body = Some s -> b_status (patch_row user body b) = s.
Proof.
  intros H. unfold patch_row. rewrite H.
  destruct (status_eqb s cancelled), (upd_notes body),
    (upd_cancellation_reason body); reflexivity.
Qed.

(** C8 (as amended).  Confirm rewrites pending bookings only, and cancel
    only bookings that are neither cancelled nor completed: a booking in
    a terminal state is left as it is by confirm, and a completed or
    cancelled one by cancel.  The status update and reschedule are not
    guarded by the current status: an accepted update carries the status
    that was asked for, an accepted reschedule the status pending. *)
Theorem terminal_guards user tenantId id reason st i b :
  nth_error (bookings st) i = Some b ->
  (is_terminal (b_status b) = true ->
   nth_error (bookings (fst (exec (confirmBooking tenantId id) st))) i = Some b)
  /\ (b_status b = completed \/ b_status b = cancelled ->
      nth_error (bookings (fst (exec (cancelBooking user tenantId id reason) st))) i
      = Some b)
  /\ (forall body st' b' s,
        exec (updateBooking user tenantId id body) st = (st', Sent (Success b')) ->
        upd_status body = Some s -> b_status b' = s)
  /\ (forall body st' b',
        exec (rescheduleBooking tenantId id body) st = (st', Sent (Success b')) ->
        b_status b' = pending).
Proof.
  intros Hi. repeat split.
  - intros Ht. unfold confirmBooking.
    apply update_bookings_keeps; [intros [b0 | ]; eauto | exact Hi | ].
    destruct (b_status b); try discriminate Ht; apply andb_false_r.
  - intros Hc. unfold cancelBooking.
    apply update_bookings_keeps; [intros [b0 | ]; eauto | exact Hi | ].
    destruct Hc as [-> | ->]; apply andb_false_r.
  - intros body st' b' s. unfold updateBooking.
    destruct (negb (updateBookingSchema body)); [discriminate | ].
    intros H Hs. rewrite Hs in H. cbn [exec] in H.
    destruct (update_bookings _ _ st) as [st1 [b1 | ] | ] eqn:U;
      cbn [exec] in H; try discriminate H.
    injection H as <- <-.
    apply update_bookings_rows in U as (_ & U).
    destruct (U b1 eq_refl) as (b0 & _ & ->). now apply patch_row_status.
  - intros body st' b'. unfold rescheduleBooking.
    destruct (negb (rescheduleSchema body)); [discriminate | ].
    cbn [exec select_booking].
    destruct (find _ (bookings st)) as [orig | ]; [ | discriminate].
    cbn [exec]. unfold select_conflict_except.
    destruct (date_param (new_date body)); [ | discriminate].
    destruct (find _ (bookings st)); [discriminate | ]. cbn [exec].
    destruct (update_bookings _ _ st) as [st1 [b1 | ] | ] eqn:U;
      cbn [exec]; try discriminate.
    intros [= <- <-].
    apply update_bookings_rows in U as (_ & U).
    destruct (U b1 eq_refl) as (b0 & _ & ->). reflexivity.
Qed.

End Lifecycle.

Section LifecycleScenarios.

Import TimeText Tables Async Bookings Scenario.
Local Open Scope string_scope.

Lemma terminal_guards_witness :
  nth_error (bookings (fst (exec (confirmBooking "t1" "b1") (with_status no_show)))) 0
  = Some (set_status ten_oclock no_show)
  /\ nth_error
       (bookings (fst (exec (cancelBooking "u1" "t1" "b1" None) (with_status completed)))) 0
     = Some (set_status ten_oclock completed).
Proof.
  split.
  - apply (proj1 (terminal_guards "u1" "t1" "b1" None (with_status no_show) 0
                    (set_status ten_oclock no_show) eq_refl)).
    reflexivity.
  - apply (proj1 (proj2 (terminal_guards "u1" "t1" "b1" None (with_status completed) 0
                           (set_status ten_oclock completed) eq_refl))).
    left. reflexivity.
Defined.

Lemma serial_reservations_exclude_witness :
  exists n, forall m1 m2, (n <= m1)%nat -> (n <= m2)%nat ->
    exists st1 st2 a1 a2,
      exec (reserve (StaffRoute (Some "u1")) "t1" ten_to_half_past "c1" "b8") clinic
      = (st1, a1)
      /\ interleave (repeat true m1 ++ repeat false m2)
           (Running (reserve (StaffRoute (Some "u1")) "t1" ten_to_half_past "c1" "b8"))
           (Running (reserve (StaffRoute (Some "u1")) "t1" quarter_past_ten "c2" "b9"))
           clinic
         = (st2, Done a1, Done a2)
      /\ forall row1, a1 = Sent (Created row1) ->
           st2 = st1
           /\ (forall row2, a2 <> Sent (Created row2))
           /\ (route_schema (StaffRoute (Some "u1")) quarter_past_ten = true ->
               route_service (StaffRoute (Some "u1")) quarter_past_ten "t1" clinic <> None ->
               a2 = Sent Conflict).
Proof.
  apply (serial_reservations_exclude (StaffRoute (Some "u1")) (StaffRoute (Some "u1"))
           "t1" "t1" ten_to_half_past quarter_past_ten "c1" "b8" "c2" "b9" clinic);
    reflexivity.
Defined.

Example serial_reservations_second_conflicts :
  interleave (repeat true 4 ++ repeat false 4)
    (Running (reserve (StaffRoute (Some "u1")) "t1" ten_to_half_past "c1" "b8"))
    (Running (reserve (StaffRoute (Some "u1")) "t1" quarter_past_ten "c2" "b9"))
    clinic
  = (with_bookings clinic
       [new_booking "b8" "t1" (Some "u1") ten_to_half_past consultation],
     Done (Sent (Created (new_booking "b8" "t1" (Some "u1") ten_to_half_past consultation))),
     Done (Sent Conflict)).
Proof. vm_compute. reflexivity. Qed.

End LifecycleScenarios.

(** * Further properties of the routes *)

(** ** The bookings table stays free of double bookings *)

Section BookingInvariant.

Import TimeText Tables Async Bookings Invariants.

Lemma ForallOrdPairs_snoc {X : Type} (R : X -> X -> Prop) (l : list X) (x : X) :
  ForallOrdPairs R l -> Forall (fun y => R y x) l -> ForallOrdPairs R (l ++ [x]).
Proof.
  induction 1 as [ | a l Ha Hl IH]; intros F; cbn [app].
  - constructor; constructor.
  - inversion F as [ | ? ? Hax Fl]; subst. constructor.
    + apply Forall_app. split; [assumption | now constructor].
    + now apply IH.
Qed.

(** Rewriting rows in place keeps a relation between rows of different
    identifiers as soon as each pair keeps it. *)
Lemma ForallOrdPairs_rewritten (R : Booking -> Booking -> Prop)
    (f : Booking -> Booking) (l : list Booking) :
  NoDup (map b_id l) -> ForallOrdPairs R l ->
  (forall b c, In b l -> In c l -> b_id b <> b_id c -> R b c -> R (f b) (f c)) ->
  ForallOrdPairs R (map f l).
Proof.
  intros N P. induction P as [ | a l Ha Hl IH]; intros K; cbn [map].
  - constructor.
  - cbn [map] in N. inversion N as [ | ? ? Hnot N']; subst. constructor.
    + rewrite Forall_forall in Ha |- *. intros y Hy.
      apply in_map_iff in Hy as (c & <- & Hc).
      apply K; [now left | now right | | now apply Ha].
      intros E. apply Hnot. rewrite E. now apply in_map.
    + apply IH; [assumption | ].
      intros b c Hb Hc. apply K; now right.
Qed.

(** What a reservation does to the bookings: nothing, or one row more,
    the row of the request, which no stored booking was in conflict
    with. *)
Lemma reserve_rows r tenantId body newClientId bookingId st :
  let st' := fst (exec (reserve r tenantId body newClientId bookingId) st) in
  bookings st' = bookings st
  \/ exists row,
       bookings st' = bookings st ++ [row]
       /\ route_schema r body = true
       /\ find (conflicts (professional_id body) (date body) (start_time body)
                          (end_time body)) (bookings st) = None
       /\ ~ In (b_id row) (map b_id (bookings st))
       /\ sql_time_lt (b_start_time row) (b_end_time row) = true
       /\ b_professional_id row = professional_id body
       /\ b_date row = date body
       /\ b_start_time row = start_time body
       /\ b_end_time row = end_time body
       /\ b_status row = pending.
Proof.
  cbn zeta. rewrite reserve_exec.
  destruct (route_schema r body) eqn:Hv; cbn [negb]; [ | now left].
  destruct (route_service r body tenantId st) as [svc | ]; [ | now left].
  destruct (date_param (date body)); [ | now left].
  destruct (find _ (bookings st)) eqn:F; [now left | ].
  assert (forall st0 cid,
    bookings st0 = bookings st ->
    let st' := fst (exec (booking <- await (insert_booking
                              (new_booking bookingId tenantId cid body svc)) ;;
                          Return (Created booking))%async st0) in
    bookings st' = bookings st
    \/ exists row,
         bookings st' = bookings st ++ [row]
         /\ true = true
         /\ @None Booking = None
         /\ ~ In (b_id row) (map b_id (bookings st))
         /\ sql_time_lt (b_start_time row) (b_end_time row) = true
         /\ b_professional_id row = professional_id body
         /\ b_date row = date body
         /\ b_start_time row = start_time body
         /\ b_end_time row = end_time body
         /\ b_status row = pending) as K.
  { intros st0 cid Eb. cbn [exec]. unfold insert_booking.
    destruct (bookings_accept st0 _) eqn:Acc; cbn [exec fst]; [ | now left].
    right. eexists. cbn [bookings with_bookings]. rewrite Eb.
    split; [reflexivity | ].
    unfold bookings_accept in Acc. rewrite Eb in Acc.
    repeat (apply andb_true_iff in Acc as (Acc & ?)).
    repeat split; auto.
    intros Hin. apply negb_true_iff in Acc.
    apply (proj2 (existsb_In_map b_id _ _)) in Hin. congruence. }
  assert (forall email name phone,
    let st' := fst (exec (clientId <- find_or_create_client newClientId tenantId
                                        email name phone ;;
                          booking <- await (insert_booking
                              (new_booking bookingId tenantId clientId body svc)) ;;
                          Return (Created booking))%async st) in
    bookings st' = bookings st
    \/ exists row,
         bookings st' = bookings st ++ [row]
         /\ true = true
         /\ @None Booking = None
         /\ ~ In (b_id row) (map b_id (bookings st))
         /\ sql_time_lt (b_start_time row) (b_end_time row) = true
         /\ b_professional_id row = professional_id body
         /\ b_date row = date body
         /\ b_start_time row = start_time body
         /\ b_end_time row = end_time body
         /\ b_status row = pending) as G.
  { intros email name phone.
    unfold find_or_create_client. cbn [bind exec select_user_by_email].
    destruct (find _ (users st)) as [u | ].
    - cbn [bind]. now apply K.
    - cbn [bind exec]. unfold insert_user. destruct (users_accept st _).
      + cbn [bind]. now apply K.
      + cbn [fst]. now left. }
  destruct r as [[uid | ] | ].
  - cbn [bind]. now apply K.
  - destruct (or_null (client_email body)); [apply G | cbn [bind]; now apply K].
  - apply G.
Qed.

(** X1.  Sequential reservations keep the bookings proper, their identifiers
    distinct and the table free of double bookings. *)
Theorem reserve_keeps_bookings_ok r tenantId body newClientId bookingId st :
  bookings_ok st ->
  bookings_ok (fst (exec (reserve r tenantId body newClientId bookingId) st)).
Proof.
  intros (P & N & D). unfold bookings_ok.
  destruct (reserve_rows r tenantId body newClientId bookingId st)
    as [-> | (row & -> & Hv & F & Hid & Hlt & Rp & Rd & Rs & Re & Rst)];
    [auto | ].
  assert (timePattern (start_time body) = true
          /\ timePattern (end_time body) = true) as (Ts & Te).
  { destruct r; cbn [route_schema] in Hv;
      [unfold createBookingSchema in Hv | unfold createPublicBookingSchema in Hv];
      repeat (apply andb_true_iff in Hv as (Hv & ?)); auto. }
  split; [ | split].
  - apply Forall_app. split; [assumption | ].
    constructor; [ | constructor]. unfold proper. rewrite Rs, Re.
    repeat split; auto. rewrite <- Rs, <- Re. now apply Z.ltb_lt.
  - rewrite map_app. cbn [map].
    apply NoDup_app; [assumption | repeat constructor; intros [] | ].
    intros x Hx [<- | []]. contradiction.
  - apply ForallOrdPairs_snoc; [assumption | ].
    apply Forall_forall. intros y Hy Ay _ (O1 & O2 & O3 & O4).
    pose proof (find_none _ _ F y Hy) as C.
    assert (conflicts (professional_id body) (date body) (start_time body)
                      (end_time body) y = true) as C'.
    { apply conflicts_spec. rewrite <- Rp, <- Rd, <- Rs, <- Re. auto. }
    congruence.
Qed.

End BookingInvariant.

Section LifecycleInvariant.

Import TimeText Tables Async Bookings Invariants.

Lemma update_answer_rows sel set st (B : Type) (k : option Booking -> Async B) :
  (forall x, (exists a, k x = Return a) \/ k x = Throw) ->
  let st' := fst (exec (Await (update_bookings sel set) k) st) in
  st' = st
  \/ (bookings st' = map (fun b => if sel b then set b else b) (bookings st)
      /\ forall b, In b (bookings st) -> sel b = true ->
           sql_time_lt (b_start_time (set b)) (b_end_time (set b)) = true).
Proof.
  intros Hk. cbn [exec]. unfold update_bookings.
  destruct (forallb _ _) eqn:F; [ | now left].
  right. rewrite forallb_forall in F.
  assert (forall a (s : Store), fst (exec (k a) s) = s) as Kst.
  { intros a s. destruct (Hk a) as [(r & ->) | ->]; reflexivity. }
  rewrite Kst. cbn [bookings with_bookings]. split; [reflexivity | ].
  intros b Hb Hs.
  assert (In (set b) (map set (filter sel (bookings st)))) as Hin
    by (apply in_map, filter_In; auto).
  apply F in Hin. now apply andb_true_iff in Hin as (Hin & _).
Qed.

Lemma same_id_same_row (l : list Booking) (b c : Booking) :
  NoDup (map b_id l) -> In b l -> In c l -> b_id b = b_id c -> b = c.
Proof.
  induction l as [ | a l IH]; cbn [map]; intros N Hb Hc E; [contradiction | ].
  inversion N as [ | ? ? Hnot N']; subst.
  destruct Hb as [-> | Hb], Hc as [-> | Hc]; auto.
  - exfalso. apply Hnot. rewrite E. now apply in_map.
  - exfalso. apply Hnot. rewrite <- E. now apply in_map.
Qed.

(** Rows rewritten in place keep the table in order when each rewritten
    row is proper and keeps its identifier, and pairs stay compatible. *)
Lemma rewritten_bookings_ok (f : Booking -> Booking) st st' :
  bookings_ok st ->
  bookings st' = map f (bookings st) ->
  (forall b, In b (bookings st) -> proper b -> proper (f b)) ->
  (forall b, b_id (f b) = b_id b) ->
  (forall b c, In b (bookings st) -> In c (bookings st) -> b_id b <> b_id c ->
     compatible b c -> compatible (f b) (f c)) ->
  bookings_ok st'.
Proof.
  intros (P & N & D) E Hp Hid Hc. unfold bookings_ok. rewrite E.
  split; [ | split].
  - rewrite Forall_forall in P |- *. intros y Hy.
    apply in_map_iff in Hy as (b & <- & Hb). auto.
  - rewrite map_map. erewrite map_ext; [exact N | exact Hid].
  - now apply ForallOrdPairs_rewritten.
Qed.

(** A rewriting that moves no booking and revives none keeps pairs
    compatible. *)
Lemma compatible_still (b c b' c' : Booking) :
  same_place b b' -> same_place c c' ->
  (active b' -> active b) -> (active c' -> active c) ->
  compatible b c -> compatible b' c'.
Proof.
  intros (B1 & B2 & B3 & B4) (C1 & C2 & C3 & C4) Hb Hc C Ab Ac (O1 & O2 & O3 & O4).
  apply C; [now apply Hb | now apply Hc | ].
  unfold overlap. now rewrite <- B1, <- B2, <- B3, <- B4, <- C1, <- C2, <- C3, <- C4.
Qed.

Lemma proper_still (b b' : Booking) :
  same_place b b' -> proper b -> proper b'.
Proof. unfold proper. now intros (_ & _ & -> & ->). Qed.

(** X2.  Confirm, cancel and reschedule keep the bookings proper, their
    identifiers distinct and the table free of double bookings. *)
Theorem lifecycle_keeps_bookings_ok user tenantId id reason body st :
  bookings_ok st ->
  bookings_ok (fst (exec (confirmBooking tenantId id) st))
  /\ bookings_ok (fst (exec (cancelBooking user tenantId id reason) st))
  /\ bookings_ok (fst (exec (rescheduleBooking tenantId id body) st)).
Proof.
  intros Ok. split; [ | split].
  - unfold confirmBooking.
    destruct (update_answer_rows
                (fun b => by_id id tenantId b && status_eqb (b_status b) pending)
                (fun b => set_status b confirmed) st _
                (fun booking => match booking with
                                | None => Return NotFound
                                | Some b => Return (Success b)
                                end)) as [-> | (E & _)];
      [intros [b | ]; left; eauto | assumption | ].
    apply (rewritten_bookings_ok _ st _ Ok E).
    + intros b _. apply proper_still. destruct (_ && _); repeat split.
    + intros b. destruct (_ && _); reflexivity.
    + assert (forall x, active (if by_id id tenantId x && status_eqb (b_status x) pending
                                then set_status x confirmed else x) -> active x) as Act.
      { intros x. destruct (by_id id tenantId x); cbn [andb]; [ | auto].
        destruct (status_eqb (b_status x) pending) eqn:S; [ | auto].
        apply status_eqb_eq in S. unfold active. rewrite S. discriminate. }
      intros b c _ _ _. apply compatible_still; auto;
        destruct (_ && _); repeat split.
  - unfold cancelBooking.
    destruct (update_answer_rows
                (fun b => by_id id tenantId b
                          && negb (status_eqb (b_status b) cancelled
                                   || status_eqb (b_status b) completed))
                (fun b => set_cancellation_reason
                            (set_cancelled_by (set_status b cancelled) (Some user))
                            (or_null reason)) st _
                (fun booking => match booking with
                                | None => Return NotFound
                                | Some b => Return (Success b)
                                end)) as [-> | (E & _)];
      [intros [b | ]; left; eauto | assumption | ].
    apply (rewritten_bookings_ok _ st _ Ok E).
    + intros b _. apply proper_still. destruct (_ && _); repeat split.
    + intros b. destruct (_ && _); reflexivity.
    + assert (forall x,
                active (if by_id id tenantId x
                           && negb (status_eqb (b_status x) cancelled
                                    || status_eqb (b_status x) completed)
                        then set_cancellation_reason
                               (set_cancelled_by (set_status x cancelled) (Some user))
                               (or_null reason)
                        else x) -> active x) as Act.
      { intros x. destruct (_ && _); [ | auto]. unfold active. cbn. congruence. }
      intros b c _ _ _. apply compatible_still; auto;
        destruct (_ && _); repeat split.
  - unfold rescheduleBooking.
    destruct (rescheduleSchema body) eqn:Hv; cbn [negb]; [ | assumption].
    cbn [exec select_booking].
    destruct (find _ (bookings st)) as [orig | ] eqn:Fo; [ | assumption].
    cbn [exec]. unfold select_conflict_except.
    destruct (date_param (new_date body)); [ | assumption].
    destruct (find (fun b => conflicts _ _ _ _ b && _) (bookings st)) eqn:Fc;
      [assumption | ].
    destruct (update_answer_rows (by_id id tenantId)
                (fun b => set_status
                            (set_schedule b (new_date body) (new_start_time body)
                               (new_end_time body)) pending) st _
                (fun booking => match booking with
                                | None => Throw
                                | Some b => Return (Success b)
                                end)) as [-> | (E & Chk)];
      [intros [b | ]; [left; eauto | now right] | assumption | ].
    pose proof Ok as (_ & N & _).
    apply find_some in Fo as (Ho & Hsel).
    unfold rescheduleSchema in Hv.
    apply andb_true_iff in Hv as (Hv & Te). apply andb_true_iff in Hv as (_ & Ts).
    assert (forall b c, In b (bookings st) -> In c (bookings st) ->
              by_id id tenantId b = true -> by_id id tenantId c = false ->
              b_id b <> b_id c -> active c ->
              ~ (b_professional_id b = b_professional_id c
                 /\ new_date body = b_date c
                 /\ minutesOf (new_start_time body) < minutesOf (b_end_time c)
                 /\ minutesOf (b_start_time c) < minutesOf (new_end_time body))) as Free.
    { intros b c Hb Hc Sb Sc Ne Ac (O1 & O2 & O3 & O4).
      assert (b = orig) as ->.
      { apply (same_id_same_row (bookings st)); auto.
        unfold by_id in Sb, Hsel.
        apply andb_true_iff in Sb as (Sb & _), Hsel as (Hsel & _).
        apply String.eqb_eq in Sb, Hsel. congruence. }
      pose proof (find_none _ _ Fc c Hc) as C. cbn beta in C.
      assert (conflicts (b_professional_id orig) (new_date body)
                        (new_start_time body) (new_end_time body) c = true) as C1
        by (apply conflicts_spec; auto).
      assert (String.eqb (b_id c) id = false) as C2.
      { apply String.eqb_neq. intros Eid. apply Ne.
        unfold by_id in Sb. apply andb_true_iff in Sb as (Sb & _).
        apply String.eqb_eq in Sb. congruence. }
      rewrite C1, C2 in C. discriminate C. }
    apply (rewritten_bookings_ok _ st _ Ok E).
    + intros b Hb Pb. destruct (by_id id tenantId b) eqn:Sb; [ | assumption].
      unfold proper. cbn. repeat split; auto.
      apply Z.ltb_lt. apply (Chk b Hb Sb).
    + intros b. destruct (by_id id tenantId b); reflexivity.
    + intros b c Hb Hc Ne C.
      destruct (by_id id tenantId b) eqn:Sb, (by_id id tenantId c) eqn:Sc.
      * exfalso. apply Ne. unfold by_id in Sb, Sc.
        apply andb_true_iff in Sb as (Sb & _), Sc as (Sc & _).
        apply String.eqb_eq in Sb, Sc. congruence.
      * intros _ Ac (O1 & O2 & O3 & O4). cbn in O1, O2, O3, O4.
        apply (Free b c Hb Hc Sb Sc Ne Ac). auto.
      * intros Ab _ (O1 & O2 & O3 & O4). cbn in O1, O2, O3, O4.
        apply (Free c b Hc Hb Sc Sb); auto.
      * assumption.
Qed.

(** X3.  PATCH keeps them too, unless it revives a cancelled booking: it
    checks no conflict. *)
Theorem update_keeps_bookings_ok user tenantId id body st :
  bookings_ok st ->
  (forall b, In b (bookings st) -> by_id id tenantId b = true ->
     b_status b = cancelled ->
     upd_status body = None \/ upd_status body = Some cancelled) ->
  bookings_ok (fst (exec (updateBooking user tenantId id body) st)).
Proof.
  intros Ok Hrev. unfold updateBooking.
  destruct (negb (updateBookingSchema body)); [assumption | ].
  assert (bookings_ok
            (fst (exec (Await (update_bookings (by_id id tenantId) (patch_row user body))
                              (fun booking => match booking with
                                              | None => Return NotFound
                                              | Some b => Return (Success b)
                                              end)) st))) as K.
  { destruct (update_answer_rows (by_id id tenantId) (patch_row user body) st _
                (fun booking => match booking with
                                | None => Return NotFound
                                | Some b => Return (Success b)
                                end)) as [-> | (E & _)];
      [intros [b | ]; left; eauto | assumption | ].
    assert (forall x, same_place x (patch_row user body x)) as Same.
    { intros x. unfold patch_row.
      destruct (upd_status body) as [s | ]; [destruct (status_eqb s cancelled) | ];
        destruct (upd_notes body), (upd_cancellation_reason body); repeat split. }
    assert (forall x, b_id (patch_row user body x) = b_id x) as SameId.
    { intros x. unfold patch_row.
      destruct (upd_status body) as [s | ]; [destruct (status_eqb s cancelled) | ];
        destruct (upd_notes body), (upd_cancellation_reason body); reflexivity. }
    apply (rewritten_bookings_ok _ st _ Ok E).
    - intros b _. destruct (by_id id tenantId b); [ | auto].
      apply proper_still. apply Same.
    - intros b. destruct (by_id id tenantId b); [apply SameId | reflexivity].
    - intros b c Hb Hc _.
      assert (forall x, In x (bookings st) ->
                active (if by_id id tenantId x then patch_row user body x else x) ->
                active x) as Act.
      { intros x Hx. destruct (by_id id tenantId x) eqn:Sx; [ | auto].
        intros A Cx. destruct (Hrev x Hx Sx Cx) as [U | U]; apply A.
        - unfold patch_row. rewrite U.
          destruct (upd_notes body), (upd_cancellation_reason body); exact Cx.
        - apply patch_row_status. exact U. }
      apply compatible_still; auto.
      + destruct (by_id id tenantId b); [apply Same | repeat split].
      + destruct (by_id id tenantId c); [apply Same | repeat split]. }
  destruct (upd_status body), (upd_notes body), (upd_cancellation_reason body);
    first [exact K | exact Ok].
Qed.

End LifecycleInvariant.

Section BookingInvariantScenarios.

Import TimeText Tables Async Bookings Invariants Scenario.
Local Open Scope string_scope.

Lemma clinic_booked_ok : bookings_ok clinic_booked.
Proof.
  split; [ | split].
  - constructor; [ | constructor]. repeat split.
  - constructor; [intros [] | constructor].
  - constructor; constructor.
Defined.

Lemma reserve_keeps_bookings_ok_witness :
  bookings_ok (fst (exec (reserve PublicRoute "t1" guest_unknown_professional "c1" "b9")
                         clinic_booked))
  /\ bookings_ok (fst (exec (reserve (StaffRoute (Some "u1")) "t1" ten_to_half_past
                                     "c1" "b9") clinic)).
Proof.
  split.
  - apply (reserve_keeps_bookings_ok PublicRoute "t1" guest_unknown_professional
             "c1" "b9" clinic_booked).
    exact clinic_booked_ok.
  - apply (reserve_keeps_bookings_ok (StaffRoute (Some "u1")) "t1" ten_to_half_past
             "c1" "b9" clinic).
    split; [constructor | split; constructor].
Defined.

Lemma lifecycle_keeps_bookings_ok_witness :
  bookings_ok (fst (exec (confirmBooking "t1" "b1") clinic_booked))
  /\ bookings_ok (fst (exec (cancelBooking "u1" "t1" "b1" None) clinic_booked))
  /\ bookings_ok (fst (exec (rescheduleBooking "t1" "b1" next_monday) clinic_booked)).
Proof.
  apply (lifecycle_keeps_bookings_ok "u1" "t1" "b1" None next_monday clinic_booked).
  exact clinic_booked_ok.
Defined.

Lemma update_keeps_bookings_ok_witness :
  bookings_ok (fst (exec (updateBooking "u1" "t1" "b1" back_to_pending) clinic_booked)).
Proof.
  apply (update_keeps_bookings_ok "u1" "t1" "b1" back_to_pending clinic_booked).
  - exact clinic_booked_ok.
  - intros b [<- | []] _ H. discriminate H.
Defined.

End BookingInvariantScenarios.

(** ** The slot routes only read *)

Section SlotsAndReservations.

Import TimeText Tables Async Invariants.

(** The slot routes only read. *)
Lemma slotsOfDay_reads fuel tenantId p date d finish st :
  fst (exec (Slots.slotsOfDay fuel tenantId p date d finish) st) = st.
Proof. rewrite slotsOfDay_exec. reflexivity. Qed.

Lemma getSlots_reads fuel tenantId p date service_id st :
  fst (exec (Slots.getSlots fuel tenantId p date service_id) st) = st.
Proof.
  unfold Slots.getSlots. destruct (negb (Calendar.datePattern date)); [reflexivity | ].
  destruct service_id; cbn [bind exec select_service]; apply slotsOfDay_reads.
Qed.

Lemma getPublicSlots_reads fuel tenantId p service_id date st :
  fst (exec (Slots.getPublicSlots fuel tenantId p service_id date) st) = st.
Proof.
  unfold Slots.getPublicSlots.
  destruct (Slots.falsy p || Slots.falsy service_id || Slots.falsy date);
    [reflexivity | ].
  cbn [exec select_service]. destruct (find _ (services st)); [ | reflexivity].
  apply slotsOfDay_reads.
Qed.

(** X4.  Neither slot route changes the store, so asking again gives the same
    answer. *)
Theorem slot_routes_only_read fuel tenantId p date service_id st :
  (forall st' a,
     exec (Slots.getSlots fuel tenantId p date service_id) st = (st', a) ->
     st' = st /\ exec (Slots.getSlots fuel tenantId p date service_id) st' = (st', a))
  /\ (forall st' a,
        exec (Slots.getPublicSlots fuel tenantId (Some p) service_id (Some date)) st
        = (st', a) ->
        st' = st
        /\ exec (Slots.getPublicSlots fuel tenantId (Some p) service_id (Some date)) st'
           = (st', a)).
Proof.
  split; intros st' a H.
  - pose proof (getSlots_reads fuel tenantId p date service_id st) as R.
    rewrite H in R. cbn [fst] in R. subst st'. auto.
  - pose proof (getPublicSlots_reads fuel tenantId (Some p) service_id (Some date) st) as R.
    rewrite H in R. cbn [fst] in R. subst st'. auto.
Qed.

End SlotsAndReservations.

(** ** Closed days, and the two routes side by side *)

Section GridClaims.

Import TimeText Tables Async Slots.

(** X8.  A date blocked by an exception, or a day of the week without active
    rule, answers the empty list on both routes, without entering the
    loop: whatever the fuel and the duration of the service. *)
Theorem closed_day_has_no_slots fuel tenantId p date service_id st :
  date_param date = true ->
  (exists x, select_exception p date st = DbOk st (Some x)
             /\ x_is_available x = false)
  \/ select_rules p tenantId (Calendar.getDay date) st = DbOk st [] ->
  exec (getSlots fuel tenantId p date service_id) st = (st, Sent (Success []))
  /\ (forall sid svc,
        p <> ""%string -> sid <> ""%string ->
        select_service true sid tenantId st = DbOk st (Some svc) ->
        exec (getPublicSlots fuel tenantId (Some p) (Some sid) (Some date)) st
        = (st, Sent (Success []))).
Proof.
  intros Hd Hc.
  assert (forall dur finish,
            exec (slotsOfDay fuel tenantId p date dur finish) st
            = (st, Sent (Success []))) as K.
  { intros dur finish. unfold slotsOfDay. cbn [exec].
    destruct Hc as [(x & Hx & Hf) | Hr].
    - rewrite Hx, Hf. reflexivity.
    - unfold select_exception. rewrite Hd.
      destruct (match find _ (availability_exceptions st) with
                | Some x => negb (x_is_available x) | None => false end);
        [reflexivity | ].
      cbn [exec]. rewrite Hr. reflexivity. }
  split.
  - unfold getSlots. rewrite (date_param_pattern _ Hd). cbn [negb].
    destruct service_id; cbn [bind exec select_service]; apply K.
  - intros sid svc Hp Hsid Hsvc. unfold getPublicSlots.
    assert (falsy (Some p) = false) as -> by (now apply String.eqb_neq).
    assert (falsy (Some sid) = false) as -> by (now apply String.eqb_neq).
    assert (falsy (Some date) = false) as ->.
    { apply String.eqb_neq. intros ->. discriminate Hd. }
    unfold select_service in Hsvc. injection Hsvc as Hfind.
    cbn [negb orb] in Hfind. cbn [negb orb exec text select_service].
    rewrite Hfind. apply K.
Qed.



End GridClaims.

(** ** More on the lifecycle routes *)

Section LifecycleMore.

Import TimeText Tables Async Bookings Invariants.

Lemma by_id_false id tenantId b :
  b_id b <> id \/ b_tenant_id b <> tenantId -> by_id id tenantId b = false.
Proof.
  unfold by_id. intros [H | H]; apply andb_false_iff; [left | right];
    now apply String.eqb_neq.
Qed.

Lemma by_id_true id tenantId b :
  by_id id tenantId b = true -> b_id b = id /\ b_tenant_id b = tenantId.
Proof.
  unfold by_id. intros H. apply andb_true_iff in H as (H1 & H2).
  split; now apply String.eqb_eq.
Qed.

Lemma rewritten_row_kept (sel : Booking -> bool) (set : Booking -> Booking)
    (st st' : Store) (i : nat) (b : Booking) :
  st' = st
  \/ bookings st' = map (fun x => if sel x then set x else x) (bookings st) ->
  nth_error (bookings st) i = Some b -> sel b = false ->
  nth_error (bookings st') i = Some b
  /\ List.length (bookings st') = List.length (bookings st).
Proof.
  intros [-> | E] Hi Hs; [auto | ]. rewrite E, nth_error_map, Hi, length_map.
  cbn [option_map]. now rewrite Hs.
Qed.

(** X10.  The four lifecycle routes rewrite at most the booking with the
    identifier and tenant of the request: every other row stays as and
    where it is, and no row is added or removed. *)
Theorem lifecycle_touches_one_booking user tenantId id reason patch body st i b :
  nth_error (bookings st) i = Some b ->
  b_id b <> id \/ b_tenant_id b <> tenantId ->
  (nth_error (bookings (fst (exec (updateBooking user tenantId id patch) st))) i = Some b
   /\ List.length (bookings (fst (exec (updateBooking user tenantId id patch) st)))
      = List.length (bookings st))
  /\ (nth_error (bookings (fst (exec (confirmBooking tenantId id) st))) i = Some b
      /\ List.length (bookings (fst (exec (confirmBooking tenantId id) st)))
         = List.length (bookings st))
  /\ (nth_error (bookings (fst (exec (cancelBooking user tenantId id reason) st))) i
      = Some b
      /\ List.length (bookings (fst (exec (cancelBooking user tenantId id reason) st)))
         = List.length (bookings st))
  /\ (nth_error (bookings (fst (exec (rescheduleBooking tenantId id body) st))) i = Some b
      /\ List.length (bookings (fst (exec (rescheduleBooking tenantId id body) st)))
         = List.length (bookings st)).
Proof.
  intros Hi Hne. apply by_id_false in Hne.
  split; [ | split; [ | split] ].
  - unfold updateBooking.
    destruct (negb (updateBookingSchema patch)); [auto | ].
    assert (forall st',
      st' = fst (exec (Await (update_bookings (by_id id tenantId) (patch_row user patch))
                         (fun booking => match booking with
                                         | None => Return NotFound
                                         | Some b => Return (Success b)
                                         end)) st) ->
      nth_error (bookings st') i = Some b
      /\ List.length (bookings st') = List.length (bookings st)) as K.
    { intros st' ->.
      apply (rewritten_row_kept (by_id id tenantId) (patch_row user patch)); auto.
      destruct (update_answer_rows (by_id id tenantId) (patch_row user patch) st _
                  (fun booking => match booking with
                                  | None => Return NotFound
                                  | Some b => Return (Success b)
                                  end)) as [E | (E & _)];
        [intros [x | ]; left; eauto | now left | now right]. }
    destruct (upd_status patch), (upd_notes patch), (upd_cancellation_reason patch);
      first [now apply K | auto].
  - unfold confirmBooking.
    apply (rewritten_row_kept
             (fun b => by_id id tenantId b && status_eqb (b_status b) pending)
             (fun b => set_status b confirmed)); [ | assumption | now rewrite Hne].
    destruct (update_answer_rows
                (fun b => by_id id tenantId b && status_eqb (b_status b) pending)
                (fun b => set_status b confirmed) st _
                (fun booking => match booking with
                                | None => Return NotFound
                                | Some b => Return (Success b)
                                end)) as [E | (E & _)];
      [intros [x | ]; left; eauto | now left | now right].
  - unfold cancelBooking.
    apply (rewritten_row_kept
             (fun b => by_id id tenantId b
                       && negb (status_eqb (b_status b) cancelled
                                || status_eqb (b_status b) completed))
             (fun b => set_cancellation_reason
                         (set_cancelled_by (set_status b cancelled) (Some user))
                         (or_null reason))); [ | assumption | now rewrite Hne].
    destruct (update_answer_rows
                (fun b => by_id id tenantId b
                          && negb (status_eqb (b_status b) cancelled
                                   || status_eqb (b_status b) completed))
                (fun b => set_cancellation_reason
                            (set_cancelled_by (set_status b cancelled) (Some user))
                            (or_null reason)) st _
                (fun booking => match booking with
                                | None => Return NotFound
                                | Some b => Return (Success b)
                                end)) as [E | (E & _)];
      [intros [x | ]; left; eauto | now left | now right].
  - unfold rescheduleBooking.
    destruct (negb (rescheduleSchema body)); [auto | ].
    cbn [exec select_booking].
    destruct (find _ (bookings st)) as [orig | ]; [ | auto].
    cbn [exec]. unfold select_conflict_except.
    destruct (date_param (new_date body)); [ | auto].
    destruct (find (fun b => conflicts _ _ _ _ b && _) (bookings st)); [auto | ].
    apply (rewritten_row_kept (by_id id tenantId)
             (fun b => set_status
                         (set_schedule b (new_date body) (new_start_time body)
                            (new_end_time body)) pending)); [ | assumption | assumption].
    destruct (update_answer_rows (by_id id tenantId)
                (fun b => set_status
                            (set_schedule b (new_date body) (new_start_time body)
                               (new_end_time body)) pending) st _
                (fun booking => match booking with
                                | None => Throw
                                | Some b => Return (Success b)
                                end)) as [E | (E & _)];
      [intros [x | ]; [left; eauto | now right] | now left | now right].
Qed.

(** Once an UPDATE has rewritten every row it selects into a row it no
    longer selects, the same UPDATE finds nothing to do. *)
Lemma update_bookings_settled sel set set' st st1 r :
  update_bookings sel set st = DbOk st1 r ->
  (forall b, sel b = true -> sel (set b) = false) ->
  update_bookings sel set' st1 = DbOk st1 None.
Proof.
  unfold update_bookings. destruct (forallb _ _); [ | discriminate].
  intros [= <- _] Hset. cbn [bookings with_bookings].
  assert (forall l, filter sel (map (fun b => if sel b then set b else b) l) = []) as F.
  { induction l as [ | b l IH]; [reflexivity | ]. cbn [map filter].
    destruct (sel b) eqn:S; [rewrite (Hset b S) | rewrite S]; exact IH. }
  assert (forall l, map (fun b => if sel b then set' b else b)
                        (map (fun b => if sel b then set b else b) l)
                    = map (fun b => if sel b then set b else b) l) as M.
  { induction l as [ | b l IH]; [reflexivity | ]. cbn [map]. rewrite IH.
    destruct (sel b) eqn:S; [rewrite (Hset b S) | rewrite S]; reflexivity. }
  rewrite F, M. reflexivity.
Qed.

(** X11.  Confirm and cancel are not repeatable: once either has answered, the
    same request answers 404 and changes nothing. *)
Theorem confirm_and_cancel_answer_once user user' tenantId id reason reason' st :
  (forall st1 a,
     exec (confirmBooking tenantId id) st = (st1, Sent a) ->
     exec (confirmBooking tenantId id) st1 = (st1, Sent NotFound))
  /\ (forall st1 a,
        exec (cancelBooking user tenantId id reason) st = (st1, Sent a) ->
        exec (cancelBooking user' tenantId id reason') st1 = (st1, Sent NotFound)).
Proof.
  split; intros st1 a.
  - unfold confirmBooking. cbn [exec].
    destruct (update_bookings _ _ st) as [st' r | ] eqn:U; [ | discriminate].
    intros H. assert (st' = st1) as -> by (destruct r; now injection H).
    rewrite (update_bookings_settled _ _ (fun b => set_status b confirmed) _ _ _ U);
      [reflexivity | ].
    intros b _. cbn. apply andb_false_r.
  - unfold cancelBooking. cbn [exec].
    destruct (update_bookings _ _ st) as [st' r | ] eqn:U; [ | discriminate].
    intros H. assert (st' = st1) as -> by (destruct r; now injection H).
    rewrite (update_bookings_settled _ _
               (fun b => set_cancellation_reason
                           (set_cancelled_by (set_status b cancelled) (Some user'))
                           (or_null reason')) _ _ _ U);
      [reflexivity | ].
    intros b _. cbn. apply andb_false_r.
Qed.

Lemma update_bookings_answer sel set st st' b' :
  update_bookings sel set st = DbOk st' (Some b') ->
  exists b, In b (bookings st) /\ sel b = true /\ b' = set b
            /\ In b' (bookings st')
            /\ sql_time_lt (b_start_time b') (b_end_time b') = true.
Proof.
  unfold update_bookings. destruct (forallb _ _) eqn:Chk; [ | discriminate].
  intros [= <- H]. destruct (filter sel (bookings st)) as [ | b l] eqn:F;
    [discriminate H | ].
  cbn [map hd_error] in H. injection H as <-.
  assert (In b (filter sel (bookings st))) as Hin by (rewrite F; now left).
  apply filter_In in Hin as (Hin & Hs).
  exists b. repeat split; auto.
  - cbn [bookings with_bookings]. apply in_map_iff. exists b. now rewrite Hs.
  - rewrite forallb_forall in Chk. specialize (Chk (set b) (or_introl eq_refl)).
    now apply andb_true_iff in Chk as (Chk & _).
Qed.

Lemma by_id_false_inv id tenantId b :
  by_id id tenantId b = false -> b_id b <> id \/ b_tenant_id b <> tenantId.
Proof.
  unfold by_id. intros H. apply andb_false_iff in H as [H | H];
    [left | right]; now apply String.eqb_neq.
Qed.

(** X12.  A cancellation that succeeds answers the booking, now cancelled by
    the user of the request; afterwards a row in conflict with some
    request was already there before, and it is not the booking that was
    cancelled. *)
Theorem cancellation_frees_the_interval user tenantId id reason st st1 b' :
  exec (cancelBooking user tenantId id reason) st = (st1, Sent (Success b')) ->
  b_status b' = cancelled /\ b_cancelled_by b' = Some user
  /\ b_id b' = id /\ b_tenant_id b' = tenantId
  /\ In b' (bookings st1)
  /\ forall p d s e c,
       In c (bookings st1) -> conflicts p d s e c = true ->
       In c (bookings st)
       /\ (b_id c <> id \/ b_tenant_id c <> tenantId \/ b_status c = completed).
Proof.
  unfold cancelBooking. cbn [exec].
  destruct (update_bookings _ _ st) as [st' [b0 | ] | ] eqn:U; try discriminate.
  cbn [exec]. intros [= <- <-].
  pose proof (update_bookings_answer _ _ _ _ _ U) as (b & Hb & Sb & -> & Hin & _).
  apply update_bookings_rows in U as (E & _).
  apply andb_true_iff in Sb as (Sid & Sst).
  apply by_id_true in Sid as (<- & <-).
  repeat split; auto.
  - rewrite E in H. apply in_map_iff in H as (x & <- & Hx).
    destruct (by_id (b_id b) (b_tenant_id b) x
              && negb (status_eqb (b_status x) cancelled
                       || status_eqb (b_status x) completed)); [ | assumption].
    apply conflicts_spec in H0 as (_ & _ & Hst & _). cbn in Hst. congruence.
  - rewrite E in H. apply in_map_iff in H as (x & <- & Hx).
    destruct (by_id (b_id b) (b_tenant_id b) x) eqn:Bx; cbn [andb] in *.
    + destruct (status_eqb (b_status x) cancelled) eqn:S1.
      * cbn in H0. apply conflicts_spec in H0 as (_ & _ & Hst & _).
        apply status_eqb_eq in S1. contradiction.
      * destruct (status_eqb (b_status x) completed) eqn:S2; cbn [orb negb] in *.
        -- right. right. now apply status_eqb_eq.
        -- apply conflicts_spec in H0 as (_ & _ & Hst & _). cbn in Hst. congruence.
    + apply by_id_false_inv in Bx. tauto.
Qed.

(** X13.  What a reschedule checks and does: it answers 409, changing nothing,
    exactly when a booking other than the one moved, of the same
    professional and not cancelled, overlaps the new interval on the new
    date; when it answers 200 the booking carries the new date and times
    and is pending again. *)
Theorem reschedule_checks_the_others tenantId id body st orig :
  rescheduleSchema body = true ->
  select_booking id tenantId st = DbOk st (Some orig) ->
  date_param (new_date body) = true ->
  (exec (rescheduleBooking tenantId id body) st = (st, Sent Conflict)
   <-> exists c, In c (bookings st) /\ b_id c <> id
                 /\ b_professional_id c = b_professional_id orig
                 /\ b_date c = new_date body /\ b_status c <> cancelled
                 /\ minutesOf (b_start_time c) < minutesOf (new_end_time body)
                 /\ minutesOf (new_start_time body) < minutesOf (b_end_time c))
  /\ (forall st' b',
        exec (rescheduleBooking tenantId id body) st = (st', Sent (Success b')) ->
        b_id b' = id /\ b_status b' = pending
        /\ b_date b' = new_date body
        /\ b_start_time b' = new_start_time body
        /\ b_end_time b' = new_end_time body
        /\ minutesOf (new_start_time body) < minutesOf (new_end_time body)
        /\ In b' (bookings st')).
Proof.
  intros Hv Ho Hd. unfold rescheduleBooking. rewrite Hv. cbn [negb exec].
  rewrite Ho. cbn [exec]. unfold select_conflict_except. rewrite Hd.
  split.
  - destruct (find (fun b => conflicts _ _ _ _ b && _) (bookings st)) as [c | ] eqn:F.
    + split; [intros _ | reflexivity].
      apply find_some in F as (Hc & P). apply andb_true_iff in P as (P1 & P2).
      apply conflicts_spec in P1 as (C1 & C2 & C3 & C4 & C5).
      apply negb_true_iff, String.eqb_neq in P2.
      exists c. repeat split; auto.
    + split.
      * cbn [exec]. destruct (update_bookings _ _ st) as [st1 [b1 | ] | ];
          cbn [exec]; intros H; discriminate H.
      * intros (c & Hc & Nid & C1 & C2 & C3 & C4 & C5). exfalso.
        pose proof (find_none _ _ F c Hc) as P. cbn beta in P.
        assert (conflicts (b_professional_id orig) (new_date body)
                  (new_start_time body) (new_end_time body) c = true) as P1
          by (apply conflicts_spec; auto).
        apply String.eqb_neq in Nid. rewrite P1, Nid in P. discriminate P.
  - intros st' b'.
    destruct (find (fun b => conflicts _ _ _ _ b && _) (bookings st));
      [discriminate | ]. cbn [exec].
    destruct (update_bookings _ _ st) as [st1 [b1 | ] | ] eqn:U; cbn [exec];
      try discriminate.
    intros [= <- <-].
    pose proof (update_bookings_answer _ _ _ _ _ U) as (b & Hb & Sb & -> & Hin & Chk).
    apply by_id_true in Sb as (Sid & _).
    repeat split; auto. now apply Z.ltb_lt in Chk.
Qed.

End LifecycleMore.

(** ** Clients of a reservation *)

Section Clients.

Import TimeText Tables Async Bookings.

Lemma find_appended {X : Type} (f : X -> bool) (l : list X) (x : X) :
  find f l = None -> find f (l ++ [x]) = if f x then Some x else None.
Proof.
  induction l as [ | a l IH]; cbn [app find]; [reflexivity | ].
  destruct (f a); [discriminate | exact IH].
Qed.

(** X14.  A client is registered once per e-mail address, letter case aside:
    when the find-or-create step has answered a client, the same step
    for an address that differs only in case answers the same client
    and inserts nothing. *)
Theorem guest_is_registered_once
    tenantId c1 c2 email1 name1 phone1 email2 name2 phone2 st st1 cid :
  exec (find_or_create_client c1 tenantId email1 name1 phone1) st = (st1, Sent cid) ->
  toLowerCase email2 = toLowerCase email1 ->
  exec (find_or_create_client c2 tenantId email2 name2 phone2) st1 = (st1, Sent cid).
Proof.
  intros H E. unfold find_or_create_client in *.
  cbn [exec select_user_by_email] in *. rewrite E.
  destruct (find _ (users st)) as [u | ] eqn:F.
  - cbn [exec] in H. injection H as <- <-. rewrite F. reflexivity.
  - cbn [exec] in H. unfold insert_user in H.
    destruct (users_accept st _); [ | discriminate H].
    cbn [exec] in H. injection H as <- <-.
    cbn [users with_users]. rewrite (find_appended _ _ _ F).
    cbn [guest_user u_email u_tenant_id opt_eqb u_id].
    rewrite !String.eqb_refl. reflexivity.
Qed.

Lemma first_part_no_space (name : string) :
  ~ In " "%char (list_ascii_of_string (first_part name)).
Proof.
  induction name as [ | c r IH]; cbn [first_part]; [intros [] | ].
  destruct (Ascii.eqb c " ") eqn:C; [intros [] | ].
  cbn [list_ascii_of_string]. intros [-> | H]; [discriminate C | contradiction].
Qed.

(** X15.  The name of a guest is cut at its first space: what precedes it is
    the first name, what follows it the last name, and nothing is lost;
    a name without space is the first name, with an empty last name. *)
Theorem guest_name_is_cut_at_first_space clientId tenantId email name phone :
  let g := guest_user clientId tenantId email name phone in
  ~ In " "%char (list_ascii_of_string (u_first_name g))
  /\ (In " "%char (list_ascii_of_string name) ->
      name = (u_first_name g ++ " " ++ u_last_name g)%string)
  /\ (~ In " "%char (list_ascii_of_string name) ->
      u_first_name g = name /\ u_last_name g = EmptyString).
Proof.
  cbn [guest_user u_first_name u_last_name]. split; [apply first_part_no_space | ].
  induction name as [ | c r IH]; cbn [first_part other_parts list_ascii_of_string].
  - split; [intros [] | auto].
  - destruct (Ascii.eqb_spec c " ") as [-> | N].
    + split; [reflexivity | ]. intros H. exfalso. apply H. now left.
    + destruct IH as (IH1 & IH2). split.
      * intros [E | H]; [congruence | ]. cbn [append]. f_equal. now apply IH1.
      * intros H. destruct IH2 as (-> & ->); [ | auto].
        intros Hin. apply H. now right.
Qed.

(** X16.  Of the six tables of the store, a reservation changes users and
    bookings only: it adds at most one booking and at most one user, a
    guest, who is a client of the tenant with an empty password hash and
    a lower-case e-mail address that was not registered for the tenant;
    a request of a known user adds no user.  (The notifications that the
    public route schedules afterwards go to a table of their own, which
    the store of this model does not hold.) *)
Theorem reserve_appends_a_booking_and_a_guest r tenantId body newClientId bookingId st :
  let st' := fst (exec (reserve r tenantId body newClientId bookingId) st) in
  services st' = services st
  /\ professionals st' = professionals st
  /\ availability_rules st' = availability_rules st
  /\ availability_exceptions st' = availability_exceptions st
  /\ (bookings st' = bookings st \/ exists row, bookings st' = bookings st ++ [row])
  /\ (users st' = users st
      \/ exists g, users st' = users st ++ [g]
                   /\ (forall uid, r <> StaffRoute (Some uid))
                   /\ u_id g = newClientId /\ u_tenant_id g = Some tenantId
                   /\ u_role g = client /\ u_password_hash g = EmptyString
                   /\ find (fun u => String.eqb (u_email u) (u_email g)
                                     && opt_eqb (u_tenant_id u) tenantId) (users st)
                      = None).
Proof.
  cbn zeta. rewrite reserve_exec.
  destruct (negb (route_schema r body)); [cbn [fst]; intuition | ].
  destruct (route_service r body tenantId st) as [svc | ]; [ | cbn [fst]; intuition].
  destruct (date_param (date body)); [ | cbn [fst]; intuition].
  destruct (find _ (bookings st)); [cbn [fst]; intuition | ].
  assert (forall st0 cid (P : Prop),
    services st0 = services st -> professionals st0 = professionals st ->
    availability_rules st0 = availability_rules st ->
    availability_exceptions st0 = availability_exceptions st ->
    bookings st0 = bookings st ->
    (users st0 = users st \/ P) ->
    let st' := fst (exec (booking <- await (insert_booking
                              (new_booking bookingId tenantId cid body svc)) ;;
                          Return (Created booking))%async st0) in
    services st' = services st
    /\ professionals st' = professionals st
    /\ availability_rules st' = availability_rules st
    /\ availability_exceptions st' = availability_exceptions st
    /\ (bookings st' = bookings st \/ exists row, bookings st' = bookings st ++ [row])
    /\ (users st' = users st \/ P)) as K.
  { intros st0 cid P E1 E2 E3 E4 E5 E6. cbn [exec]. unfold insert_booking.
    destruct (bookings_accept st0 _); cbn [exec fst].
    - cbn [services professionals availability_rules availability_exceptions
             bookings users with_bookings].
      rewrite E5. repeat split; auto. right. eauto.
    - repeat split; auto. }
  assert (forall email name phone,
    (forall uid, r <> StaffRoute (Some uid)) ->
    let st' := fst (exec (clientId <- find_or_create_client newClientId tenantId
                                        email name phone ;;
                          booking <- await (insert_booking
                              (new_booking bookingId tenantId clientId body svc)) ;;
                          Return (Created booking))%async st) in
    services st' = services st
    /\ professionals st' = professionals st
    /\ availability_rules st' = availability_rules st
    /\ availability_exceptions st' = availability_exceptions st
    /\ (bookings st' = bookings st \/ exists row, bookings st' = bookings st ++ [row])
    /\ (users st' = users st
        \/ exists g, users st' = users st ++ [g]
                     /\ (forall uid, r <> StaffRoute (Some uid))
                     /\ u_id g = newClientId /\ u_tenant_id g = Some tenantId
                     /\ u_role g = client /\ u_password_hash g = EmptyString
                     /\ find (fun u => String.eqb (u_email u) (u_email g)
                                       && opt_eqb (u_tenant_id u) tenantId) (users st)
                        = None)) as G.
  { intros email name phone Hr.
    unfold find_or_create_client. cbn [bind exec select_user_by_email].
    destruct (find _ (users st)) as [u | ] eqn:F.
    - cbn [bind]. apply K; auto.
    - cbn [bind exec]. unfold insert_user. destruct (users_accept st _).
      + cbn [bind].
        pose proof (K (with_users st (users st ++ [guest_user newClientId tenantId
                                                      email name phone]))
                      (Some newClientId)
                      (users (fst (exec (booking <- await (insert_booking
                              (new_booking bookingId tenantId (Some newClientId) body svc)) ;;
                          Return (Created booking))%async
                          (with_users st (users st ++ [guest_user newClientId tenantId
                                                         email name phone]))))
                       = users st ++ [guest_user newClientId tenantId email name phone])
                      eq_refl eq_refl eq_refl eq_refl eq_refl) as K'.
        cbn zeta in K'. destruct K' as (K1 & K2 & K3 & K4 & K5 & K6).
        * right. cbn [exec]. unfold insert_booking.
          destruct (bookings_accept _ _); reflexivity.
        * repeat split; auto. right.
          exists (guest_user newClientId tenantId email name phone).
          repeat split; auto.
          cbn [exec]. unfold insert_booking.
          destruct (bookings_accept _ _); reflexivity.
      + cbn [fst]. intuition. }
  destruct r as [[uid | ] | ].
  - cbn [bind]. apply (K st (Some uid)); auto.
  - destruct (or_null (client_email body)).
    + apply G. discriminate.
    + cbn [bind]. apply (K st None); auto.
  - apply G. discriminate.
Qed.

End Clients.

(** ** The further properties on the scenario *)

Section FurtherScenarios.

Import TimeText Tables Async Slots Bookings Invariants Scenario.
Local Open Scope string_scope.

Lemma closed_day_has_no_slots_witness :
  exec (getSlots 1440 "t1" "p1" "2024-01-02" (Some "svc1")) clinic
  = (clinic, Sent (Success []))
  /\ (forall sid svc,
        "p1" <> "" -> sid <> "" ->
        select_service true sid "t1" clinic = DbOk clinic (Some svc) ->
        exec (getPublicSlots 1440 "t1" (Some "p1") (Some sid) (Some "2024-01-02")) clinic
        = (clinic, Sent (Success []))).
Proof.
  apply (closed_day_has_no_slots 1440 "t1" "p1" "2024-01-02" (Some "svc1") clinic).
  - reflexivity.
  - right. reflexivity.
Defined.


Lemma lifecycle_touches_one_booking_witness :
  (nth_error (bookings (fst (exec (updateBooking "u1" "t1" "b1" back_to_pending)
                                  Cases.clinic_with_eva))) 1
   = Some Cases.eva_books_ten
   /\ List.length (bookings (fst (exec (updateBooking "u1" "t1" "b1" back_to_pending)
                                       Cases.clinic_with_eva)))
      = List.length (bookings Cases.clinic_with_eva))
  /\ (nth_error (bookings (fst (exec (confirmBooking "t1" "b1") Cases.clinic_with_eva))) 1
      = Some Cases.eva_books_ten
      /\ List.length (bookings (fst (exec (confirmBooking "t1" "b1")
                                          Cases.clinic_with_eva)))
         = List.length (bookings Cases.clinic_with_eva))
  /\ (nth_error (bookings (fst (exec (cancelBooking "u1" "t1" "b1" None)
                                     Cases.clinic_with_eva))) 1
      = Some Cases.eva_books_ten
      /\ List.length (bookings (fst (exec (cancelBooking "u1" "t1" "b1" None)
                                          Cases.clinic_with_eva)))
         = List.length (bookings Cases.clinic_with_eva))
  /\ (nth_error (bookings (fst (exec (rescheduleBooking "t1" "b1" next_monday)
                                     Cases.clinic_with_eva))) 1
      = Some Cases.eva_books_ten
      /\ List.length (bookings (fst (exec (rescheduleBooking "t1" "b1" next_monday)
                                          Cases.clinic_with_eva)))
         = List.length (bookings Cases.clinic_with_eva)).
Proof.
  apply (lifecycle_touches_one_booking "u1" "t1" "b1" None back_to_pending
           next_monday Cases.clinic_with_eva 1 Cases.eva_books_ten).
  - reflexivity.
  - left. discriminate.
Defined.

Lemma cancellation_frees_the_interval_witness :
  let b' := set_cancellation_reason
              (set_cancelled_by (set_status ten_oclock cancelled) (Some "u1")) None in
  b_status b' = cancelled /\ b_cancelled_by b' = Some "u1"
  /\ b_id b' = "b1" /\ b_tenant_id b' = "t1"
  /\ In b' (bookings (with_bookings clinic_booked [b']))
  /\ forall p d s e c,
       In c (bookings (with_bookings clinic_booked [b'])) ->
       conflicts p d s e c = true ->
       In c (bookings clinic_booked)
       /\ (b_id c <> "b1" \/ b_tenant_id c <> "t1" \/ b_status c = completed).
Proof.
  apply (cancellation_frees_the_interval "u1" "t1" "b1" None clinic_booked).
  vm_compute. reflexivity.
Defined.

Lemma reschedule_checks_the_others_witness :
  (exec (rescheduleBooking "t1" "b1" next_monday) Cases.clinic_with_eva
   = (Cases.clinic_with_eva, Sent Conflict)
   <-> exists c, In c (bookings Cases.clinic_with_eva) /\ b_id c <> "b1"
                 /\ b_professional_id c = b_professional_id ten_oclock
                 /\ b_date c = new_date next_monday /\ b_status c <> cancelled
                 /\ minutesOf (b_start_time c) < minutesOf (new_end_time next_monday)
                 /\ minutesOf (new_start_time next_monday) < minutesOf (b_end_time c))
  /\ (forall st' b',
        exec (rescheduleBooking "t1" "b1" next_monday) Cases.clinic_with_eva
        = (st', Sent (Success b')) ->
        b_id b' = "b1" /\ b_status b' = pending
        /\ b_date b' = new_date next_monday
        /\ b_start_time b' = new_start_time next_monday
        /\ b_end_time b' = new_end_time next_monday
        /\ minutesOf (new_start_time next_monday) < minutesOf (new_end_time next_monday)
        /\ In b' (bookings st')).
Proof.
  apply (reschedule_checks_the_others "t1" "b1" next_monday Cases.clinic_with_eva
           ten_oclock).
  - reflexivity.
  - reflexivity.
  - reflexivity.
Defined.

Lemma guest_is_registered_once_witness :
  exec (find_or_create_client "c2" "t1" "EVA@mail.test" "Somebody Else" None)
       (with_users clinic [doctor_user; eva])
  = (with_users clinic [doctor_user; eva], Sent (Some "c1")).
Proof.
  apply (guest_is_registered_once "t1" "c1" "c2" "Eva@Mail.test" "Eva Luna" None
           "EVA@mail.test" "Somebody Else" None clinic).
  - vm_compute. reflexivity.
  - vm_compute. reflexivity.
Defined.

End FurtherScenarios.

(** ** The weekly rules stay windows *)

Section RuleRoutes.

Import TimeText Tables Async Availability.

Lemma rule_checks_weekly (r : AvailabilityRule) :
  timePattern (r_start_time r) = true -> timePattern (r_end_time r) = true ->
  rule_checks r = true -> weekly r.
Proof.
  unfold rule_checks, weekly, Slots.window, sql_time_lt. intros Hs He Hc.
  repeat split; try assumption; lia.
Qed.

Lemma patched_rule_weekly (body : RulePatch) (r : AvailabilityRule) :
  updateRuleSchema body = true -> weekly r ->
  rule_checks (patch_rule body r) = true -> weekly (patch_rule body r).
Proof.
  unfold updateRuleSchema. intros Hs [[Ws [We _]] _] Hc.
  apply andb_prop in Hs as [Hs He]. apply andb_prop in Hs as [_ Hs].
  apply rule_checks_weekly; [ | | exact Hc]; cbn.
  - destruct (patch_start_time body); [exact Hs | exact Ws].
  - destruct (patch_end_time body); [exact He | exact We].
Qed.

Lemma NoDup_map_filter {X Y : Type} (key : X -> Y) (f : X -> bool) (l : list X) :
  NoDup (map key l) -> NoDup (map key (filter f l)).
Proof.
  induction l as [|x l IH]; cbn; intros H; [constructor | ].
  inversion H as [|? ? Hn Hd]; subst.
  destruct (f x); cbn; [constructor | ]; auto.
  intros Hi. apply Hn. apply in_map_iff in Hi as [y [Hy Hi]].
  apply in_map_iff. exists y. split; [exact Hy | ].
  apply filter_In in Hi. tauto.
Qed.

Lemma rewritten_keys {X Y : Type} (key : X -> Y) (sel : X -> bool) (set : X -> X)
    (l : list X) :
  (forall x, key (set x) = key x) ->
  map key (map (fun x => if sel x then set x else x) l) = map key l.
Proof.
  intros Hk. rewrite map_map. apply map_ext. intros x.
  destruct (sel x); [apply Hk | reflexivity].
Qed.

(** X17.  POST, PATCH and DELETE on the rules keep every stored rule a window
    of a weekday ([HH:mm] times, start before end, day 0 to 6) and the
    ids distinct, whatever the request and whether it succeeds or not. *)
Theorem rule_routes_keep_rules_ok tenantId body id patch st :
  rules_ok st ->
  rules_ok (fst (exec (createRule tenantId body id) st))
  /\ rules_ok (fst (exec (updateRule tenantId id patch) st))
  /\ rules_ok (fst (exec (deleteRule tenantId id) st)).
Proof.
  intros [Hw Hd]. split; [ | split].
  - unfold createRule.
    destruct (createRuleSchema body) eqn:Hs; cbn; [ | split; assumption].
    unfold insert_availability_rule.
    destruct (rules_accept st (new_rule id tenantId body)) eqn:Ha; cbn;
      [ | split; assumption].
    unfold rules_accept in Ha.
    apply andb_prop in Ha as [Ha Hc]. apply andb_prop in Ha as [Hn _].
    unfold createRuleSchema in Hs.
    apply andb_prop in Hs as [Hs He]. apply andb_prop in Hs as [_ Hs].
    split.
    + apply Forall_app. split; [exact Hw | ].
      constructor; [ | constructor].
      apply rule_checks_weekly; assumption.
    + cbn [availability_rules with_rules]. rewrite map_app. cbn [map].
      apply NoDup_app; [exact Hd | repeat constructor; intros [] | ].
      intros x Hx [<- | []].
      apply (existsb_In_map r_id) in Hx.
      rewrite Hx in Hn. discriminate Hn.
  - unfold updateRule.
    destruct (updateRuleSchema patch) eqn:Hs; cbn; [ | split; assumption].
    assert (K : rules_ok (fst (exec (Await (update_rules (rule_by_id id tenantId)
                                              (patch_rule patch))
                                       (fun rule => Return (Success rule))) st))).
    { cbn. unfold update_rules.
      destruct (forallb rule_checks
                  (map (patch_rule patch)
                       (filter (rule_by_id id tenantId) (availability_rules st))))
        eqn:Hc; cbn; [ | split; assumption].
      rewrite forallb_forall in Hc.
      split.
      - apply Forall_forall. intros r' Hr'.
        apply in_map_iff in Hr' as [r [<- Hr]].
        rewrite Forall_forall in Hw.
        destruct (rule_by_id id tenantId r) eqn:Hsel; [ | apply Hw; exact Hr].
        apply patched_rule_weekly; [exact Hs | apply Hw; exact Hr | ].
        apply Hc. apply in_map. apply filter_In. split; assumption.
      - cbn [availability_rules with_rules].
        rewrite rewritten_keys; [exact Hd | reflexivity]. }
    destruct (patch_day_of_week patch), (patch_start_time patch),
      (patch_end_time patch), (patch_is_active patch);
      first [exact K | split; assumption].
  - cbn. split.
    + apply Forall_forall. intros r Hr. apply filter_In in Hr as [Hr _].
      rewrite Forall_forall in Hw. apply Hw. exact Hr.
    + apply NoDup_map_filter. exact Hd.
Qed.

End RuleRoutes.

(** ** Exceptions *)

Section Exceptions.

Import TimeText Tables Async Slots Availability.

Lemma existsb_false_find {X : Type} (f : X -> bool) (l : list X) :
  existsb f l = false -> find f l = None.
Proof.
  induction l as [|x l IH]; cbn; [reflexivity | ].
  destruct (f x); cbn; [discriminate | exact IH].
Qed.

(** What a created exception tells about the request and the store. *)
Lemma createException_Created body id st st1 x :
  exec (createException body id) st = (st1, Sent (Created x)) ->
  x = new_exception id body
  /\ st1 = with_exceptions st (availability_exceptions st ++ [x])
  /\ createExceptionSchema body = true
  /\ date_param (exc_date body) = true
  /\ find (of_day (exc_professional_id body) (exc_date body))
          (availability_exceptions st) = None.
Proof.
  unfold createException.
  destruct (createExceptionSchema body); cbn; [ | discriminate].
  unfold insert_exception.
  destruct (exceptions_accept st (new_exception id body)) eqn:Ha; cbn;
    [ | discriminate].
  intros H. injection H as <- <-.
  unfold exceptions_accept in Ha. cbn [new_exception x_professional_id x_date] in Ha.
  apply andb_prop in Ha as [Ha Hu]. apply andb_prop in Ha as [Ha _].
  apply andb_prop in Ha as [_ Hd].
  repeat split; [exact Hd | ].
  apply existsb_false_find. apply negb_true_iff. exact Hu.
Qed.

(** X19.  The table holds at most one exception for a professional and a
    date, and POST /exceptions keeps it so without looking first: once an
    exception is created, every further request for the same professional
    and date is refused by the store and ends in an exception of the
    handler, the table unchanged. *)
Theorem exception_is_unique_per_day body id st :
  exceptions_ok st ->
  exceptions_ok (fst (exec (createException body id) st))
  /\ (forall st1 x body' id',
        exec (createException body id) st = (st1, Sent (Created x)) ->
        exc_professional_id body' = exc_professional_id body ->
        exc_date body' = exc_date body ->
        createExceptionSchema body' = true ->
        exec (createException body' id') st1 = (st1, Raised)).
Proof.
  intros Hok. split.
  - unfold createException.
    destruct (createExceptionSchema body); cbn; [ | exact Hok].
    unfold insert_exception.
    destruct (exceptions_accept st (new_exception id body)) eqn:Ha; cbn;
      [ | exact Hok].
    unfold exceptions_ok. cbn [availability_exceptions with_exceptions].
    rewrite map_app. cbn [map].
    apply NoDup_app; [exact Hok | repeat constructor; intros [] | ].
    intros k Hk [<- | []].
    apply in_map_iff in Hk as [y [Hy Hi]].
    unfold exceptions_accept in Ha. apply andb_prop in Ha as [_ Hu].
    apply negb_true_iff in Hu.
    assert (existsb (of_day (x_professional_id (new_exception id body))
                            (x_date (new_exception id body)))
                    (availability_exceptions st) = true) as E.
    { apply existsb_exists. exists y. split; [exact Hi | ].
      injection Hy as Hp Hd. unfold of_day. rewrite Hp, Hd.
      rewrite !String.eqb_refl. reflexivity. }
    congruence.
  - intros st1 x body' id' H Hp Hd Hs.
    apply createException_Created in H as (-> & -> & _ & _ & F).
    unfold createException. rewrite Hs. cbn.
    unfold insert_exception.
    assert (exceptions_accept
              (with_exceptions st (availability_exceptions st ++ [new_exception id body]))
              (new_exception id' body') = false) as ->; [ | reflexivity].
    unfold exceptions_accept.
    cbn [availability_exceptions with_exceptions new_exception
         x_professional_id x_date].
    rewrite Hp, Hd.
    assert (existsb (of_day (exc_professional_id body) (exc_date body))
                    (availability_exceptions st ++ [new_exception id body]) = true) as ->.
    { rewrite existsb_app. cbn [existsb]. unfold of_day at 2.
      cbn [new_exception x_professional_id x_date].
      rewrite !String.eqb_refl. cbn [andb orb]. apply orb_true_r. }
    cbn [negb]. apply andb_false_r.
Qed.

Lemma slot_routes_empty fuel tenantId p date service_id st :
  date_param date = true ->
  (forall dur finish,
     exec (slotsOfDay fuel tenantId p date dur finish) st = (st, Sent (Success []))) ->
  exec (getSlots fuel tenantId p date service_id) st = (st, Sent (Success []))
  /\ (forall sid svc,
        p <> ""%string -> sid <> ""%string ->
        select_service true sid tenantId st = DbOk st (Some svc) ->
        exec (getPublicSlots fuel tenantId (Some p) (Some sid) (Some date)) st
        = (st, Sent (Success []))).
Proof.
  intros Hd K. split.
  - unfold getSlots. rewrite (date_param_pattern _ Hd). cbn [negb].
    destruct service_id; cbn [bind exec select_service]; apply K.
  - intros sid svc Hp Hsid Hsvc. unfold getPublicSlots. cbn [falsy text].
    destruct (String.eqb_spec p ""%string) as [E | _]; [contradiction | ].
    destruct (String.eqb_spec sid ""%string) as [E | _]; [contradiction | ].
    assert (String.eqb date ""%string = false) as ->.
    { destruct date; [discriminate Hd | reflexivity]. }
    cbn [orb exec]. rewrite Hsvc. apply K.
Qed.

(** X20.  An exception that blocks the day empties the answer of both slot
    routes for its professional and date; an exception that announces
    availability changes no answer of either route, for any professional
    and date. *)
Theorem exception_closes_the_day_or_nothing body id st st1 x :
  exec (createException body id) st = (st1, Sent (Created x)) ->
  (exc_is_available body = false ->
   forall fuel tenantId service_id,
     exec (getSlots fuel tenantId (exc_professional_id body) (exc_date body) service_id) st1
     = (st1, Sent (Success []))
     /\ (forall sid svc,
           exc_professional_id body <> ""%string -> sid <> ""%string ->
           select_service true sid tenantId st1 = DbOk st1 (Some svc) ->
           exec (getPublicSlots fuel tenantId (Some (exc_professional_id body))
                   (Some sid) (Some (exc_date body))) st1
           = (st1, Sent (Success []))))
  /\ (exc_is_available body = true ->
      forall fuel tenantId p date d finish,
        snd (exec (slotsOfDay fuel tenantId p date d finish) st1)
        = snd (exec (slotsOfDay fuel tenantId p date d finish) st)).
Proof.
  intros H. apply createException_Created in H as (-> & -> & Hs & Hd & F).
  split.
  - intros Hb fuel tenantId service_id.
    apply slot_routes_empty; [exact Hd | ].
    intros dur finish. unfold slotsOfDay. cbn [exec].
    unfold select_exception. rewrite Hd.
    cbn [availability_exceptions with_exceptions].
    change (fun x => String.eqb (x_professional_id x) (exc_professional_id body)
                     && String.eqb (x_date x) (exc_date body))
      with (of_day (exc_professional_id body) (exc_date body)).
    rewrite (find_appended _ _ _ F). unfold of_day.
    cbn [new_exception x_professional_id x_date].
    rewrite !String.eqb_refl. cbn [andb new_exception x_is_available].
    rewrite Hb. reflexivity.
  - intros Ha fuel tenantId p date d finish.
    apply slotsOfDay_same; [reflexivity | reflexivity | ].
    cbn [availability_exceptions with_exceptions].
    destruct (find (of_day p date) (availability_exceptions st)) as [y|] eqn:Fy.
    + assert (find (of_day p date)
                   (availability_exceptions st ++ [new_exception id body]) = Some y) as ->;
        [ | reflexivity].
      clear - Fy. induction (availability_exceptions st) as [|a l IH];
        [discriminate Fy | ].
      cbn [app find] in *. destruct (of_day p date a); [exact Fy | exact (IH Fy)].
    + rewrite (find_appended _ _ _ Fy).
      destruct (of_day p date (new_exception id body)); [ | reflexivity].
      cbn [new_exception x_is_available]. rewrite Ha. reflexivity.
Qed.

End Exceptions.

(** ** Services *)

Section ServiceRoutes.

Import TimeText Tables Async Services.

Lemma update_services_ok sel set st (B : Type) (k : option Service -> Async B) :
  services_ok st ->
  (forall x, exists a, k x = Return a) ->
  services_ok (fst (exec (Await (update_services sel set) k) st)).
Proof.
  intros Hok Hk. cbn [exec]. unfold update_services.
  destruct (forallb service_checks (map set (filter sel (services st)))) eqn:Hc;
    cbn [fst]; [ | exact Hok].
  match goal with |- context [k ?x] => destruct (Hk x) as [a ->] end.
  cbn [exec fst]. unfold services_ok. cbn [services with_services].
  rewrite forallb_forall in Hc.
  apply Forall_forall. intros s' Hs'. apply in_map_iff in Hs' as [s [<- Hs]].
  unfold services_ok in Hok. rewrite Forall_forall in Hok.
  destruct (sel s) eqn:Hsel; [ | apply Hok; exact Hs].
  apply Hc. apply in_map. apply filter_In. split; assumption.
Qed.

(** X21.  POST, PATCH and DELETE on the services keep every stored service
    within the CHECKs of its table, so its duration stays between 5 and
    480 minutes, whatever the request and whether it succeeds or not. *)
Theorem service_routes_keep_services_ok tenantId body id patch st :
  services_ok st ->
  services_ok (fst (exec (createService tenantId body id) st))
  /\ services_ok (fst (exec (updateService tenantId id patch) st))
  /\ services_ok (fst (exec (deleteService tenantId id) st))
  /\ forall s, In s (services st) -> 5 <= sv_duration_minutes s <= 480.
Proof.
  intros Hok. split; [ | split; [ | split]].
  - unfold createService.
    destruct (createServiceSchema body); cbn; [ | exact Hok].
    unfold insert_service.
    destruct (services_accept st (new_service id tenantId body)) eqn:Ha; cbn;
      [ | exact Hok].
    unfold services_ok. cbn [services with_services].
    apply Forall_app. split; [exact Hok | ].
    constructor; [ | constructor].
    unfold services_accept in Ha. apply andb_prop in Ha as [_ Ha]. exact Ha.
  - unfold updateService.
    destruct (updateServiceSchema patch); cbn [negb]; [ | exact Hok].
    assert (K : services_ok
                  (fst (exec (Await (update_services (service_by_id id tenantId)
                                       (patch_service patch))
                                (fun service =>
                                   match service with
                                   | Some s => Return (Success s)
                                   | None => Return NotFound
                                   end)) st))).
    { apply update_services_ok; [exact Hok | ].
      intros [s|]; eexists; reflexivity. }
    destruct (patch_name patch), (patch_description patch),
      (patch_duration_minutes patch), (patch_price patch),
      (patch_currency patch), (patch_is_active patch);
      first [exact K | exact Hok].
  - unfold deleteService. apply update_services_ok; [exact Hok | ].
    intros x. eexists. reflexivity.
  - intros s Hs. unfold services_ok in Hok. rewrite Forall_forall in Hok.
    specialize (Hok s Hs). unfold service_checks in Hok.
    repeat (apply andb_prop in Hok as [Hok ?]). lia.
Qed.

Lemma map_unselected {X : Type} (sel : X -> bool) (set : X -> X) (l : list X) :
  (forall x, In x l -> sel x = true -> set x = x) ->
  map (fun x => if sel x then set x else x) l = l.
Proof.
  intros H. rewrite <- (map_id l) at 2. apply map_ext_in. intros x Hx.
  destruct (sel x) eqn:E; [apply H; assumption | reflexivity].
Qed.

Lemma with_services_same st : with_services st (services st) = st.
Proof. destruct st; reflexivity. Qed.

(** What DELETE does to the table. *)
Lemma deleteService_exec tenantId id st :
  services_ok st ->
  exec (deleteService tenantId id) st
  = (with_services st (map (fun s => if service_by_id id tenantId s
                                     then deactivate s else s) (services st)),
     Sent tt).
Proof.
  intros Hok. unfold deleteService. cbn [exec]. unfold update_services.
  assert (forallb service_checks
            (map deactivate (filter (service_by_id id tenantId) (services st)))
          = true) as ->; [ | reflexivity].
  apply forallb_forall. intros s' Hs'. apply in_map_iff in Hs' as [s [<- Hs]].
  apply filter_In in Hs as [Hs _].
  unfold services_ok in Hok. rewrite Forall_forall in Hok. exact (Hok s Hs).
Qed.

Lemma find_same {X : Type} (f g : X -> bool) (l : list X) :
  (forall x, f x = g x) -> find f l = find g l.
Proof.
  intros H. induction l as [|a l IH]; [reflexivity | ].
  cbn [find]. rewrite H, IH. reflexivity.
Qed.

(** The two lookups of a service on the table DELETE leaves. *)
Lemma find_after_delete (only : bool) id tenantId (l : list Service) :
  find (fun s => String.eqb (sv_id s) id && String.eqb (sv_tenant_id s) tenantId
                 && (negb only || sv_is_active s))
       (map (fun s => if service_by_id id tenantId s then deactivate s else s) l)
  = if only then None
    else option_map deactivate (find (service_by_id id tenantId) l).
Proof.
  induction l as [|a l IH]; [destruct only; reflexivity | ].
  cbn [map find].
  destruct (service_by_id id tenantId a) eqn:E; unfold service_by_id in E.
  - cbn [deactivate sv_id sv_tenant_id sv_is_active]. rewrite E.
    destruct only; cbn [negb orb andb option_map]; [exact IH | reflexivity].
  - rewrite E. cbn [andb]. exact IH.
Qed.

(** X22.  DELETE /api/services/:id keeps the row and clears [is_active].
    After it the public routes answer NOT_FOUND for the service (slots
    and reservations alike), while the lookups without the [is_active]
    condition still find it: GET /api/services/:id shows it, and the
    staff reservation route and the staff slot route read its price,
    currency and duration as before.  Deleting again changes nothing. *)
Theorem deleted_service_is_hidden_from_public_routes tenantId id st :
  services_ok st ->
  exists st1,
    exec (deleteService tenantId id) st = (st1, Sent tt)
    /\ exec (deleteService tenantId id) st1 = (st1, Sent tt)
    /\ (forall fuel p date,
          p <> ""%string -> id <> ""%string -> date <> ""%string ->
          exec (Slots.getPublicSlots fuel tenantId (Some p) (Some id) (Some date)) st1
          = (st1, Sent NotFound))
    /\ (forall body newClientId bookingId,
          Bookings.service_id body = id ->
          Bookings.createPublicBookingSchema body = true ->
          exec (Bookings.createPublicBooking tenantId body newClientId bookingId) st1
          = (st1, Sent NotFound))
    /\ (forall s,
          exec (getService tenantId id) st = (st, Sent (Success s)) ->
          exec (getService tenantId id) st1 = (st1, Sent (Success (deactivate s))))
    /\ (forall user body,
          Bookings.service_id body = id ->
          Bookings.route_service (Bookings.StaffRoute user) body tenantId st1
          = option_map deactivate
              (Bookings.route_service (Bookings.StaffRoute user) body tenantId st))
    /\ select_service false id tenantId st1
       = DbOk st1 (option_map deactivate
                     (find (service_by_id id tenantId) (services st))).
Proof.
  intros Hok. eexists. split; [apply deleteService_exec; exact Hok | ].
  split; [ | split; [ | split; [ | split; [ | split]]]].
  - rewrite deleteService_exec.
    + cbn [services with_services]. rewrite map_map.
      assert (map (fun s => if service_by_id id tenantId
                                 (if service_by_id id tenantId s then deactivate s else s)
                            then deactivate
                                   (if service_by_id id tenantId s then deactivate s else s)
                            else if service_by_id id tenantId s then deactivate s else s)
                  (services st)
              = map (fun s => if service_by_id id tenantId s then deactivate s else s)
                    (services st)) as ->; [ | reflexivity].
      apply map_ext. intros s.
      destruct (service_by_id id tenantId s) eqn:Hs; [ | rewrite Hs; reflexivity].
      change (service_by_id id tenantId (deactivate s))
        with (service_by_id id tenantId s).
      rewrite Hs. reflexivity.
    + unfold services_ok. cbn [services with_services].
      apply Forall_forall. intros s' Hs'. apply in_map_iff in Hs' as [s [<- Hs]].
      unfold services_ok in Hok. rewrite Forall_forall in Hok.
      destruct (service_by_id id tenantId s); exact (Hok s Hs).
  - intros fuel p date Hp Hid Hdate. unfold Slots.getPublicSlots.
    cbn [Slots.falsy Slots.text].
    destruct (String.eqb_spec p ""%string) as [E | _]; [contradiction | ].
    destruct (String.eqb_spec id ""%string) as [E | _]; [contradiction | ].
    destruct (String.eqb_spec date ""%string) as [E | _]; [contradiction | ].
    cbn [orb exec]. unfold select_service. cbn [services with_services].
    rewrite (find_after_delete true). reflexivity.
  - intros body newClientId bookingId Hid Hs. unfold Bookings.createPublicBooking.
    rewrite Hs. cbn [negb exec]. unfold select_service. rewrite Hid.
    cbn [services with_services]. rewrite (find_after_delete true). reflexivity.
  - intros s Hs. unfold getService in *. cbn [exec] in *.
    unfold select_service in *. cbn [services with_services].
    rewrite (find_after_delete false).
    rewrite (find_same _ (service_by_id id tenantId)) in Hs;
      [ | intros x; unfold service_by_id; apply andb_true_r].
    destruct (find (service_by_id id tenantId) (services st)) as [s0|];
      cbn [exec] in Hs; [ | discriminate Hs].
    injection Hs as ->. reflexivity.
  - intros user body Hid. unfold Bookings.route_service. rewrite Hid.
    cbv beta iota. cbn [services with_services].
    rewrite (find_after_delete false). f_equal.
    apply find_same. intros x. unfold service_by_id. symmetry. apply andb_true_r.
  - unfold select_service. cbn [services with_services].
    rewrite (find_after_delete false). reflexivity.
Qed.

End ServiceRoutes.

(** ** Rows that are not there *)

Section UnknownRows.

Import TimeText Tables Async.

Lemma filter_none {X : Type} (f : X -> bool) (l : list X) :
  (forall x, In x l -> f x = false) -> filter f l = [].
Proof.
  induction l as [|a l IH]; intros H; [reflexivity | ].
  cbn [filter]. rewrite (H a (or_introl eq_refl)).
  apply IH. intros x Hx. apply H. right. exact Hx.
Qed.

Lemma with_rules_same st : Availability.with_rules st (availability_rules st) = st.
Proof. destruct st; reflexivity. Qed.

(** X23.  A PATCH (with at least one field) or DELETE whose id matches no row
    of the tenant changes nothing, and the two modules answer
    differently: the rule route sends 200 with [null] data, the service
    route 404; both DELETE routes send 204. *)
Theorem patch_of_unknown_row tenantId id rule_patch service_patch st :
  (forall r, In r (availability_rules st) ->
     Availability.rule_by_id id tenantId r = false) ->
  (forall s, In s (services st) -> Services.service_by_id id tenantId s = false) ->
  Availability.updateRuleSchema rule_patch = true ->
  (Availability.patch_day_of_week rule_patch, Availability.patch_start_time rule_patch,
   Availability.patch_end_time rule_patch, Availability.patch_is_active rule_patch)
  <> (None, None, None, None) ->
  Services.updateServiceSchema service_patch = true ->
  (Services.patch_name service_patch, Services.patch_description service_patch,
   Services.patch_duration_minutes service_patch, Services.patch_price service_patch,
   Services.patch_currency service_patch, Services.patch_is_active service_patch)
  <> (None, None, None, None, None, None) ->
  exec (Availability.updateRule tenantId id rule_patch) st = (st, Sent (Success None))
  /\ exec (Services.updateService tenantId id service_patch) st = (st, Sent NotFound)
  /\ exec (Availability.deleteRule tenantId id) st = (st, Sent tt)
  /\ exec (Services.deleteService tenantId id) st = (st, Sent tt).
Proof.
  intros Hr Hs Vr Ar Vs As.
  assert (map (fun r => if Availability.rule_by_id id tenantId r
                        then Availability.patch_rule rule_patch r else r)
              (availability_rules st) = availability_rules st) as Er.
  { apply map_unselected. intros r Hi Hsel. rewrite (Hr r Hi) in Hsel.
    discriminate Hsel. }
  split; [ | split; [ | split]].
  - unfold Availability.updateRule. rewrite Vr. cbn [negb].
    assert (exec (Await (Availability.update_rules (Availability.rule_by_id id tenantId)
                           (Availability.patch_rule rule_patch))
                    (fun rule => Return (Success rule))) st
            = (st, Sent (Success None))) as K.
    { cbn [exec]. unfold Availability.update_rules.
      rewrite (filter_none _ _ Hr). cbn [map forallb hd_error].
      rewrite Er, with_rules_same. reflexivity. }
    destruct (Availability.patch_day_of_week rule_patch),
      (Availability.patch_start_time rule_patch),
      (Availability.patch_end_time rule_patch),
      (Availability.patch_is_active rule_patch);
      first [exact K | exfalso; auto].
  - unfold Services.updateService. rewrite Vs. cbn [negb].
    assert (exec (Await (Services.update_services (Services.service_by_id id tenantId)
                           (Services.patch_service service_patch))
                    (fun service =>
                       match service with
                       | Some s => Return (Success s)
                       | None => Return NotFound
                       end)) st
            = (st, Sent NotFound)) as K.
    { cbn [exec]. unfold Services.update_services.
      rewrite (filter_none _ _ Hs). cbn [map forallb hd_error].
      rewrite map_unselected; [rewrite with_services_same; reflexivity | ].
      intros s Hi Hsel. rewrite (Hs s Hi) in Hsel. discriminate Hsel. }
    destruct (Services.patch_name service_patch),
      (Services.patch_description service_patch),
      (Services.patch_duration_minutes service_patch),
      (Services.patch_price service_patch),
      (Services.patch_currency service_patch),
      (Services.patch_is_active service_patch);
      first [exact K | exfalso; auto].
  - unfold Availability.deleteRule. cbn [exec]. unfold Availability.delete_rules.
    assert (filter (fun r => negb (Availability.rule_by_id id tenantId r))
                   (availability_rules st) = availability_rules st) as ->.
    { apply filter_all. apply Forall_forall. intros r Hi. rewrite (Hr r Hi).
      reflexivity. }
    rewrite with_rules_same. reflexivity.
  - unfold Services.deleteService. cbn [exec]. unfold Services.update_services.
    rewrite (filter_none _ _ Hs). cbn [map forallb hd_error].
    rewrite map_unselected; [rewrite with_services_same; reflexivity | ].
    intros s Hi Hsel. rewrite (Hs s Hi) in Hsel. discriminate Hsel.
Qed.

End UnknownRows.

(** ** Pages *)

Section Pages.

Import Pagination.

Lemma page_of_nth {X : Type} (rows : list X) (params : PaginationParams) (j : nat) :
  (j < Z.to_nat (limit params))%nat ->
  nth_error (page_of rows params) j
  = nth_error rows (Z.to_nat (getOffset params) + j).
Proof.
  intros Hj. unfold page_of. rewrite nth_error_firstn.
  apply Nat.ltb_lt in Hj. rewrite Hj. apply nth_error_skipn.
Qed.

Lemma page_asked (q : Z) (query_limit : option Z) (sb so : option string) :
  1 <= q -> page (getPaginationParams (Some q) query_limit sb so) = q.
Proof.
  intros Hq. cbn [getPaginationParams page]. unfold or_default.
  destruct q; lia.
Qed.

(** X24.  For a query whose numbers are exact (at most 2^53 in size) and
    a result of at most 2^46 rows: [getPaginationParams] answers a limit
    between 1 and 100, and a page that is missing, not a number, zero or
    negative is page 1.  For a page [q] from 1 to 2^46 the page answered
    is [q] and the offset [(q - 1) * limit] stays below 2^53, so the
    product is the exact one.  With [LIMIT] and [OFFSET] from it, a page
    holds at most [limit] rows, entry [j] of page [q] is row
    [(q - 1) * limit + j] of the result, the row at position [i] is on
    page [i / limit + 1] at position [i mod limit], that page is at most
    the [totalPages] of [sendPaginated], and every page after
    [totalPages] is empty. *)
Theorem pages_cover_the_rows {X : Type} (rows : list X)
    (query_limit : option Z) (sb so : option string) :
  match query_limit with
  | Some v => - 9007199254740992 <= v <= 9007199254740992
  | None => True
  end ->
  Z.of_nat (List.length rows) <= 70368744177664 ->
  let P := fun q => getPaginationParams q query_limit sb so in
  let n := limit (P None) in
  1 <= n <= 100
  /\ page (P None) = 1
  /\ (forall q, - 9007199254740992 <= q <= 0 -> P (Some q) = P None)
  /\ (forall q, 1 <= q <= 70368744177664 ->
        page (P (Some q)) = q /\ limit (P (Some q)) = n
        /\ 0 <= getOffset (P (Some q)) < 9007199254740992
        /\ (List.length (page_of rows (P (Some q))) <= Z.to_nat n)%nat)
  /\ (forall q j, 1 <= q <= 70368744177664 -> (j < Z.to_nat n)%nat ->
        nth_error (page_of rows (P (Some q))) j
        = nth_error rows (Z.to_nat ((q - 1) * n) + j))
  /\ (forall i x, nth_error rows i = Some x ->
        let q := Z.of_nat i / n + 1 in
        1 <= q <= totalPages (Z.of_nat (List.length rows)) (P (Some q))
        /\ q <= 70368744177664
        /\ nth_error (page_of rows (P (Some q))) (Z.to_nat (Z.of_nat i mod n))
           = Some x)
  /\ (forall q, 1 <= q <= 70368744177664 ->
        totalPages (Z.of_nat (List.length rows)) (P (Some q)) < q ->
        page_of rows (P (Some q)) = []).
Proof.
  intros _ Hrows P n.
  assert (Hn : 1 <= n <= 100).
  { subst n P. cbn [getPaginationParams limit]. lia. }
  assert (Hl : forall q, limit (P q) = n) by (intros q; reflexivity).
  assert (Hc : forall q, n * (totalPages (Z.of_nat (List.length rows)) (P q) - 1)
                         < Z.of_nat (List.length rows)
                         <= n * totalPages (Z.of_nat (List.length rows)) (P q)).
  { intros q. unfold totalPages. rewrite Hl.
    pose proof (Z.mul_div_le (- Z.of_nat (List.length rows)) n ltac:(lia)).
    pose proof (Z.mul_succ_div_gt (- Z.of_nat (List.length rows)) n ltac:(lia)).
    lia. }
  split; [exact Hn | ]. split; [reflexivity | ].
  split; [ | split; [ | split; [ | split]]].
  - intros q Hq. subst P. cbn beta. unfold getPaginationParams. f_equal.
    unfold or_default. destruct q; lia.
  - intros q Hq.
    assert (page (P (Some q)) = q) as Hp
      by (subst P; cbn beta; apply page_asked; lia).
    split; [exact Hp | split; [reflexivity | split]].
    + unfold getOffset. rewrite Hl, Hp. nia.
    + unfold page_of. rewrite Hl. apply firstn_le_length.
  - intros q j Hq Hj. rewrite page_of_nth; [ | rewrite Hl; exact Hj].
    unfold getOffset. rewrite Hl. subst P. cbn beta. rewrite page_asked by lia.
    reflexivity.
  - intros i x Hi q.
    assert (i < List.length rows)%nat as Hlt.
    { apply nth_error_Some. rewrite Hi. discriminate. }
    assert (0 <= Z.of_nat i / n) by (apply Z.div_pos; lia).
    pose proof (Z.mul_div_le (Z.of_nat i) n ltac:(lia)).
    pose proof (Z.mod_pos_bound (Z.of_nat i) n ltac:(lia)).
    pose proof (Z.div_mod (Z.of_nat i) n ltac:(lia)).
    split; [ | split].
    + split; [subst q; lia | ].
      specialize (Hc (Some q)). subst q. nia.
    + subst q. nia.
    + rewrite page_of_nth; [ | rewrite Hl; lia].
      unfold getOffset. rewrite Hl. subst P. cbn beta.
      rewrite page_asked by (subst q; lia).
      replace (Z.to_nat ((q - 1) * n) + Z.to_nat (Z.of_nat i mod n))%nat with i;
        [exact Hi | ].
      subst q. lia.
  - intros q Hq Ht. specialize (Hc (Some q)).
    set (T := totalPages (Z.of_nat (List.length rows)) (P (Some q))) in *.
    assert (0 <= T) by (destruct (Z_lt_le_dec T 0) as [L | L]; [nia | exact L]).
    assert (Z.of_nat (List.length rows) <= (q - 1) * n) by nia.
    unfold page_of. rewrite skipn_all2; [apply firstn_nil | ].
    unfold getOffset. rewrite Hl. subst P. cbn beta.
    rewrite page_asked by lia. lia.
Qed.

Lemma pages_cover_the_rows_witness :
  let rows := [10; 20; 30] in
  let P := fun q => getPaginationParams q (Some 2) None None in
  let n := limit (P None) in
  1 <= n <= 100
  /\ page (P None) = 1
  /\ (forall q, - 9007199254740992 <= q <= 0 -> P (Some q) = P None)
  /\ (forall q, 1 <= q <= 70368744177664 ->
        page (P (Some q)) = q /\ limit (P (Some q)) = n
        /\ 0 <= getOffset (P (Some q)) < 9007199254740992
        /\ (List.length (page_of rows (P (Some q))) <= Z.to_nat n)%nat)
  /\ (forall q j, 1 <= q <= 70368744177664 -> (j < Z.to_nat n)%nat ->
        nth_error (page_of rows (P (Some q))) j
        = nth_error rows (Z.to_nat ((q - 1) * n) + j))
  /\ (forall i x, nth_error rows i = Some x ->
        let q := Z.of_nat i / n + 1 in
        1 <= q <= totalPages (Z.of_nat (List.length rows)) (P (Some q))
        /\ q <= 70368744177664
        /\ nth_error (page_of rows (P (Some q))) (Z.to_nat (Z.of_nat i mod n))
           = Some x)
  /\ (forall q, 1 <= q <= 70368744177664 ->
        totalPages (Z.of_nat (List.length rows)) (P (Some q)) < q ->
        page_of rows (P (Some q)) = []).
Proof.
  apply (pages_cover_the_rows [10; 20; 30] (Some 2) None None).
  - lia.
  - cbn. lia.
Defined.

Example second_page_of_three_rows :
  page_of [10; 20; 30] (getPaginationParams (Some 2) (Some 2) None None) = [30]
  /\ totalPages 3 (getPaginationParams (Some 2) (Some 2) None None) = 2
  /\ getOffset (getPaginationParams (Some 2) (Some 2) None None) = 2.
Proof. repeat split; reflexivity. Qed.

End Pages.

(** ** Who reads a booking *)

Section ReadingABooking.

Import Tables Async BookingAccess.

(** X25.  GET /api/bookings/:id changes nothing and shows a booking exactly
    when it is the booking of that id in the tenant of the request and,
    for a caller whose role is client, the caller is its client; a guest
    booking (no client) is shown to staff only.  It answers 404 exactly
    when the tenant has no booking of that id. *)
Theorem client_reads_only_own_booking user role tenantId id st :
  NoDup (map b_id (bookings st)) ->
  fst (exec (getBooking user role tenantId id) st) = st
  /\ (forall b,
        snd (exec (getBooking user role tenantId id) st) = Sent (Visible b)
        <-> In b (bookings st) /\ b_id b = id /\ b_tenant_id b = tenantId
            /\ (role = client -> b_client_id b = Some user))
  /\ (snd (exec (getBooking user role tenantId id) st) = Sent Missing
      <-> forall b, In b (bookings st) -> b_id b = id -> b_tenant_id b <> tenantId).
Proof.
  intros Hd. unfold getBooking. cbn [exec]. unfold select_booking.
  change (fun b => String.eqb (b_id b) id && String.eqb (b_tenant_id b) tenantId)
    with (Bookings.by_id id tenantId).
  assert (forall b, is_client role && negb (opt_eqb (b_client_id b) user) = false
                    <-> (role = client -> b_client_id b = Some user)) as Hacc.
  { intros b. unfold opt_eqb. split.
    - intros H ->. cbn [is_client andb] in H. apply negb_false_iff in H.
      destruct (b_client_id b) as [c|]; [ | discriminate H].
      apply String.eqb_eq in H. rewrite H. reflexivity.
    - intros H. destruct role; try reflexivity.
      rewrite (H eq_refl). cbn [is_client andb]. rewrite String.eqb_refl.
      reflexivity. }
  destruct (find (Bookings.by_id id tenantId) (bookings st)) as [b0|] eqn:F.
  - pose proof (find_some _ _ F) as [Hin Hsel].
    apply by_id_true in Hsel as [Hid Ht].
    split; [ | split].
    + destruct (is_client role && negb (opt_eqb (b_client_id b0) user)); reflexivity.
    + intros b. split.
      * destruct (is_client role && negb (opt_eqb (b_client_id b0) user)) eqn:A;
          cbn [exec snd]; [discriminate | ].
        intros H. injection H as <-. pose proof (proj1 (Hacc b0) A). tauto.
      * intros (Hb & Hbid & _ & Hown).
        assert (b0 = b) as ->.
        { apply (same_id_same_row (bookings st)); try assumption. congruence. }
        rewrite (proj2 (Hacc b) Hown). reflexivity.
    + split.
      * destruct (is_client role && negb (opt_eqb (b_client_id b0) user));
          cbn [exec snd]; discriminate.
      * intros H. exfalso. exact (H b0 Hin Hid Ht).
  - split; [reflexivity | split].
    + intros b. cbn [exec snd]. split; [discriminate | ].
      intros (Hb & Hbid & Hbt & _).
      pose proof (find_none _ _ F b Hb) as N.
      apply by_id_false_inv in N. tauto.
    + cbn [exec snd]. split; [ | reflexivity].
      intros _ b Hb Hbid Hbt.
      pose proof (find_none _ _ F b Hb) as N.
      apply by_id_false_inv in N. tauto.
Qed.

End ReadingABooking.

(** ** The listed rules *)

Section ListedRules.

Import TimeText Tables Async Availability.

Lemma insert_by_day_In (r x : AvailabilityRule) (l : list AvailabilityRule) :
  In x (insert_by_day r l) <-> x = r \/ In x l.
Proof.
  induction l as [|y l IH]; cbn [insert_by_day].
  - cbn. intuition congruence.
  - destruct (rule_before y r); cbn [In]; [rewrite IH | ]; intuition congruence.
Qed.

Lemma order_by_day_and_start_In (x : AvailabilityRule) (l : list AvailabilityRule) :
  In x (order_by_day_and_start l) <-> In x l.
Proof.
  induction l as [|y l IH]; cbn [order_by_day_and_start fold_right In]; [tauto | ].
  fold (order_by_day_and_start l). rewrite insert_by_day_In, IH.
  intuition congruence.
Qed.

Lemma insert_by_day_sorted (r : AvailabilityRule) (l : list AvailabilityRule) :
  ForallOrdPairs (fun x y => rule_before y x = false) l ->
  ForallOrdPairs (fun x y => rule_before y x = false) (insert_by_day r l).
Proof.
  induction 1 as [|x l Hx Hl IH]; cbn [insert_by_day].
  - repeat constructor.
  - destruct (rule_before x r) eqn:B.
    + constructor; [ | exact IH].
      apply Forall_forall. intros y Hy. apply insert_by_day_In in Hy as [-> | Hy].
      * unfold rule_before, sql_time_lt in *. lia.
      * rewrite Forall_forall in Hx. apply Hx. exact Hy.
    + constructor; [ | constructor; assumption].
      constructor; [exact B | ].
      apply Forall_forall. intros y Hy. rewrite Forall_forall in Hx.
      specialize (Hx y Hy). unfold rule_before, sql_time_lt in *. lia.
Qed.

Lemma order_by_day_and_start_sorted (l : list AvailabilityRule) :
  ForallOrdPairs (fun x y => rule_before y x = false) (order_by_day_and_start l).
Proof.
  induction l as [|r l IH]; [constructor | ].
  cbn [order_by_day_and_start fold_right]. apply insert_by_day_sorted. exact IH.
Qed.

Lemma insert_rule_front (r : AvailabilityRule) (m : list AvailabilityRule) :
  Forall (fun y => sql_time_lt (r_start_time y) (r_start_time r) = false) m ->
  insert_rule r m = r :: m.
Proof.
  destruct 1 as [|y m Hy _]; [reflexivity | ].
  cbn [insert_rule]. rewrite Hy. reflexivity.
Qed.

Lemma filter_insert_by_day (dow : Z) (r : AvailabilityRule)
    (l : list AvailabilityRule) :
  ForallOrdPairs (fun x y => rule_before y x = false) l ->
  filter (fun x => r_day_of_week x =? dow) (insert_by_day r l)
  = if r_day_of_week r =? dow
    then insert_rule r (filter (fun x => r_day_of_week x =? dow) l)
    else filter (fun x => r_day_of_week x =? dow) l.
Proof.
  induction 1 as [|x l Hx Hl IH]; cbn [insert_by_day].
  - cbn [filter]. destruct (r_day_of_week r =? dow); reflexivity.
  - destruct (rule_before x r) eqn:B.
    + cbn [filter]. rewrite IH.
      destruct (r_day_of_week x =? dow) eqn:Dx, (r_day_of_week r =? dow) eqn:Dr;
        try reflexivity.
      cbn [insert_rule].
      assert (sql_time_lt (r_start_time x) (r_start_time r) = true) as ->;
        [ | reflexivity].
      unfold rule_before, sql_time_lt in *. lia.
    + change (filter (fun x0 => r_day_of_week x0 =? dow) (r :: x :: l))
        with (if r_day_of_week r =? dow
              then r :: filter (fun x0 => r_day_of_week x0 =? dow) (x :: l)
              else filter (fun x0 => r_day_of_week x0 =? dow) (x :: l)).
      destruct (r_day_of_week r =? dow) eqn:Dr; [ | reflexivity].
      symmetry. apply insert_rule_front.
      apply Forall_forall. intros y Hy. apply filter_In in Hy as [Hy Dy].
      assert (rule_before y x = false) as Hyx.
      { destruct Hy as [<- | Hy].
        - unfold rule_before, sql_time_lt. lia.
        - rewrite Forall_forall in Hx. apply Hx. exact Hy. }
      unfold rule_before, sql_time_lt in *. lia.
Qed.

(** X26.  GET /api/availability/rules/:professionalId lists exactly the active
    rules of the professional in the tenant, ordered by day and then by
    start; and the rules from which the slot routes build the grid of a
    day are the listed rules of that weekday, in the listed order. *)
Theorem listed_rules_are_the_rules_of_the_day professionalId tenantId st :
  exec (getRules tenantId professionalId) st
  = (st, Sent (Success (active_rules professionalId tenantId st)))
  /\ (forall r, In r (active_rules professionalId tenantId st)
                <-> In r (availability_rules st)
                    /\ r_professional_id r = professionalId
                    /\ r_tenant_id r = tenantId /\ r_is_active r = true)
  /\ ForallOrdPairs
       (fun x y => r_day_of_week x < r_day_of_week y
                   \/ (r_day_of_week x = r_day_of_week y
                       /\ minutesOf (r_start_time x) <= minutesOf (r_start_time y)))
       (active_rules professionalId tenantId st)
  /\ forall dow,
       filter (fun r => r_day_of_week r =? dow)
              (active_rules professionalId tenantId st)
       = rules_of_day professionalId tenantId dow st.
Proof.
  split; [reflexivity | ]. split; [ | split].
  - intros r. unfold active_rules. rewrite order_by_day_and_start_In, filter_In.
    rewrite !andb_true_iff, !String.eqb_eq. tauto.
  - unfold active_rules.
    assert (forall l, ForallOrdPairs (fun x y => rule_before y x = false) l ->
              ForallOrdPairs
                (fun x y => r_day_of_week x < r_day_of_week y
                            \/ (r_day_of_week x = r_day_of_week y
                                /\ minutesOf (r_start_time x)
                                   <= minutesOf (r_start_time y))) l) as K.
    { induction 1 as [|x l Hx Hl IH]; constructor; [ | exact IH].
      apply Forall_forall. intros y Hy. rewrite Forall_forall in Hx.
      specialize (Hx y Hy). unfold rule_before, sql_time_lt in Hx. lia. }
    apply K. apply order_by_day_and_start_sorted.
  - intros dow. unfold active_rules, rules_of_day.
    set (A := fun r => String.eqb (r_professional_id r) professionalId
                       && String.eqb (r_tenant_id r) tenantId && r_is_active r).
    assert (filter (fun r => String.eqb (r_professional_id r) professionalId
                             && String.eqb (r_tenant_id r) tenantId
                             && (r_day_of_week r =? dow) && r_is_active r)
                   (availability_rules st)
            = filter (fun r => r_day_of_week r =? dow)
                     (filter A (availability_rules st))) as ->.
    { induction (availability_rules st) as [|r l IH]; [reflexivity | ].
      cbn [filter]. unfold A at 1.
      destruct (String.eqb (r_professional_id r) professionalId),
        (String.eqb (r_tenant_id r) tenantId), (r_is_active r),
        (r_day_of_week r =? dow) eqn:D;
        cbn [andb filter]; try rewrite D; rewrite IH; reflexivity. }
    induction (filter A (availability_rules st)) as [|r l IH]; [reflexivity | ].
    cbn [order_by_day_and_start fold_right]. fold (order_by_day_and_start l).
    rewrite filter_insert_by_day by apply order_by_day_and_start_sorted.
    rewrite IH. cbn [filter].
    destruct (r_day_of_week r =? dow); reflexivity.
Qed.

End ListedRules.

(** ** What the slot routes answer *)

Section DayAnswer.

Import TimeText Tables Async Slots.

(** X27.  The answer of the two slot routes, in full.  The staff route
    refuses a date that is not of the shape YYYY-MM-DD; the public route
    answers 404 when the tenant has no active service of the id.  Past
    that, for a date of that shape, either route ends in an exception
    when the text is no calendar date; on a calendar date it answers the
    empty list when an exception blocks the date or when the day of the
    week has no active rule of the professional in the tenant, and ends
    in an exception otherwise.  Neither answer depends on the duration,
    on the hours of the rules or on the bookings, and the store is left
    as it is. *)
Theorem slots_of_a_day fuel tenantId p date service_id st :
  exec (getSlots fuel tenantId p date service_id) st
  = (st,
     if negb (Calendar.datePattern date) then Sent ValidationFailed
     else
       match Calendar.getDay date with
       | None => Raised
       | Some dow =>
           if match find (Availability.of_day p date) (availability_exceptions st) with
              | Some x => negb (x_is_available x)
              | None => false
              end
           then Sent (Success [])
           else match rules_of_day p tenantId dow st with
                | [] => Sent (Success [])
                | _ :: _ => Raised
                end
       end)
  /\ forall sid,
       p <> ""%string -> sid <> ""%string -> Calendar.datePattern date = true ->
       exec (getPublicSlots fuel tenantId (Some p) (Some sid) (Some date)) st
       = (st,
          match find (fun s => String.eqb (sv_id s) sid
                               && String.eqb (sv_tenant_id s) tenantId
                               && sv_is_active s) (services st) with
          | None => Sent NotFound
          | Some _ =>
              match Calendar.getDay date with
              | None => Raised
              | Some dow =>
                  if match find (Availability.of_day p date)
                                (availability_exceptions st) with
                     | Some x => negb (x_is_available x)
                     | None => false
                     end
                  then Sent (Success [])
                  else match rules_of_day p tenantId dow st with
                       | [] => Sent (Success [])
                       | _ :: _ => Raised
                       end
              end
          end).
Proof.
  split.
  - destruct (Calendar.datePattern date) eqn:Hd.
    + destruct (getSlots_day fuel tenantId p date service_id st Hd) as [d ->].
      cbn [negb]. apply slotsOfDay_exec.
    + unfold getSlots. rewrite Hd. reflexivity.
  - intros sid Hp Hs Hd.
    assert (date <> ""%string) as Hdate by (intros ->; discriminate Hd).
    assert (select_service true sid tenantId st
            = DbOk st (find (fun s => String.eqb (sv_id s) sid
                                      && String.eqb (sv_tenant_id s) tenantId
                                      && sv_is_active s) (services st))) as E
      by reflexivity.
    destruct (find _ (services st)) as [svc | ].
    + rewrite (getPublicSlots_day fuel tenantId p sid date st svc); auto.
      apply slotsOfDay_exec.
    + unfold getPublicSlots. cbn [falsy text].
      destruct (String.eqb_spec p ""%string) as [K | _]; [contradiction | ].
      destruct (String.eqb_spec sid ""%string) as [K | _]; [contradiction | ].
      destruct (String.eqb_spec date ""%string) as [K | _]; [contradiction | ].
      cbn [orb exec]. rewrite E. reflexivity.
Qed.

End DayAnswer.

(** ** The rules, exceptions and services of the scenario *)

Section AdministrationScenarios.

Import TimeText Tables Async Scenario.
Local Open Scope string_scope.

Lemma clinic_rules_ok : Availability.rules_ok clinic.
Proof.
  split.
  - constructor; [ | constructor].
    split; [repeat split | cbn; lia].
  - constructor; [intros [] | constructor].
Defined.

Lemma clinic_services_ok : Services.services_ok clinic.
Proof. constructor; [reflexivity | constructor]. Defined.

Lemma rule_routes_keep_rules_ok_witness :
  Availability.rules_ok
    (fst (exec (Availability.createRule "t1" Cases.monday_afternoon "r2") clinic))
  /\ Availability.rules_ok
       (fst (exec (Availability.updateRule "t1" "r1" Cases.shorter_morning) clinic))
  /\ Availability.rules_ok (fst (exec (Availability.deleteRule "t1" "r1") clinic)).
Proof.
  split.
  - apply (proj1 (rule_routes_keep_rules_ok "t1" Cases.monday_afternoon "r2"
                    Cases.shorter_morning clinic clinic_rules_ok)).
  - apply (proj2 (rule_routes_keep_rules_ok "t1" Cases.monday_afternoon "r1"
                    Cases.shorter_morning clinic clinic_rules_ok)).
Defined.

Lemma exception_is_unique_per_day_witness :
  Availability.exceptions_ok
    (fst (exec (Availability.createException Cases.holiday "x1") clinic))
  /\ (forall st1 x body' id',
        exec (Availability.createException Cases.holiday "x1") clinic
        = (st1, Sent (Created x)) ->
        Availability.exc_professional_id body'
        = Availability.exc_professional_id Cases.holiday ->
        Availability.exc_date body' = Availability.exc_date Cases.holiday ->
        Availability.createExceptionSchema body' = true ->
        exec (Availability.createException body' id') st1 = (st1, Raised)).
Proof.
  apply (exception_is_unique_per_day Cases.holiday "x1" clinic).
  constructor.
Defined.

Lemma exception_closes_the_day_or_nothing_witness :
  (Availability.exc_is_available Cases.holiday = false ->
   forall fuel tenantId service_id,
     exec (Slots.getSlots fuel tenantId "p1" "2024-01-01" service_id)
          (Availability.with_exceptions clinic
             [Availability.new_exception "x1" Cases.holiday])
     = (Availability.with_exceptions clinic
          [Availability.new_exception "x1" Cases.holiday],
        Sent (Success []))
     /\ (forall sid svc,
           "p1" <> "" -> sid <> "" ->
           select_service true sid tenantId
             (Availability.with_exceptions clinic
                [Availability.new_exception "x1" Cases.holiday])
           = DbOk (Availability.with_exceptions clinic
                     [Availability.new_exception "x1" Cases.holiday]) (Some svc) ->
           exec (Slots.getPublicSlots fuel tenantId (Some "p1") (Some sid)
                   (Some "2024-01-01"))
                (Availability.with_exceptions clinic
                   [Availability.new_exception "x1" Cases.holiday])
           = (Availability.with_exceptions clinic
                [Availability.new_exception "x1" Cases.holiday],
              Sent (Success []))))
  /\ (Availability.exc_is_available Cases.holiday = true ->
      forall fuel tenantId p date d finish,
        snd (exec (Slots.slotsOfDay fuel tenantId p date d finish)
                  (Availability.with_exceptions clinic
                     [Availability.new_exception "x1" Cases.holiday]))
        = snd (exec (Slots.slotsOfDay fuel tenantId p date d finish) clinic)).
Proof.
  apply (exception_closes_the_day_or_nothing Cases.holiday "x1" clinic
           (Availability.with_exceptions clinic
              [Availability.new_exception "x1" Cases.holiday])
           (Availability.new_exception "x1" Cases.holiday)).
  vm_compute. reflexivity.
Defined.

Lemma service_routes_keep_services_ok_witness :
  Services.services_ok (fst (exec (Services.createService "t1" Cases.follow_up "svc2")
                                  clinic))
  /\ Services.services_ok
       (fst (exec (Services.updateService "t1" "svc1" Cases.longer) clinic))
  /\ Services.services_ok (fst (exec (Services.deleteService "t1" "svc1") clinic))
  /\ forall s, In s (services clinic) -> 5 <= sv_duration_minutes s <= 480.
Proof.
  split.
  - apply (proj1 (service_routes_keep_services_ok "t1" Cases.follow_up "svc2"
                    Cases.longer clinic clinic_services_ok)).
  - apply (proj2 (service_routes_keep_services_ok "t1" Cases.follow_up "svc1"
                    Cases.longer clinic clinic_services_ok)).
Defined.

Lemma deleted_service_is_hidden_from_public_routes_witness :
  exists st1,
    exec (Services.deleteService "t1" "svc1") clinic = (st1, Sent tt)
    /\ exec (Services.deleteService "t1" "svc1") st1 = (st1, Sent tt)
    /\ (forall fuel p date,
          p <> "" -> "svc1" <> "" -> date <> "" ->
          exec (Slots.getPublicSlots fuel "t1" (Some p) (Some "svc1") (Some date)) st1
          = (st1, Sent NotFound))
    /\ (forall body newClientId bookingId,
          Bookings.service_id body = "svc1" ->
          Bookings.createPublicBookingSchema body = true ->
          exec (Bookings.createPublicBooking "t1" body newClientId bookingId) st1
          = (st1, Sent NotFound))
    /\ (forall s,
          exec (Services.getService "t1" "svc1") clinic = (clinic, Sent (Success s)) ->
          exec (Services.getService "t1" "svc1") st1
          = (st1, Sent (Success (Services.deactivate s))))
    /\ (forall user body,
          Bookings.service_id body = "svc1" ->
          Bookings.route_service (Bookings.StaffRoute user) body "t1" st1
          = option_map Services.deactivate
              (Bookings.route_service (Bookings.StaffRoute user) body "t1" clinic))
    /\ select_service false "svc1" "t1" st1
       = DbOk st1 (option_map Services.deactivate
                     (find (Services.service_by_id "svc1" "t1") (services clinic))).
Proof.
  apply (deleted_service_is_hidden_from_public_routes "t1" "svc1" clinic).
  exact clinic_services_ok.
Defined.

Lemma patch_of_unknown_row_witness :
  exec (Availability.updateRule "t1" "r9" Cases.shorter_morning) clinic
  = (clinic, Sent (Success None))
  /\ exec (Services.updateService "t1" "r9" Cases.longer) clinic
     = (clinic, Sent NotFound)
  /\ exec (Availability.deleteRule "t1" "r9") clinic = (clinic, Sent tt)
  /\ exec (Services.deleteService "t1" "r9") clinic = (clinic, Sent tt).
Proof.
  apply (patch_of_unknown_row "t1" "r9" Cases.shorter_morning Cases.longer clinic).
  - intros r [<- | []]. reflexivity.
  - intros s [<- | []]. reflexivity.
  - reflexivity.
  - discriminate.
  - reflexivity.
  - discriminate.
Defined.

Lemma client_reads_only_own_booking_witness :
  fst (exec (BookingAccess.getBooking "c1" client "t1" "b2") Cases.clinic_with_eva)
  = Cases.clinic_with_eva
  /\ (forall b,
        snd (exec (BookingAccess.getBooking "c1" client "t1" "b2") Cases.clinic_with_eva)
        = Sent (BookingAccess.Visible b)
        <-> In b (bookings Cases.clinic_with_eva) /\ b_id b = "b2"
            /\ b_tenant_id b = "t1"
            /\ (client = client -> b_client_id b = Some "c1"))
  /\ (snd (exec (BookingAccess.getBooking "c1" client "t1" "b2") Cases.clinic_with_eva)
      = Sent BookingAccess.Missing
      <-> forall b, In b (bookings Cases.clinic_with_eva) -> b_id b = "b2" ->
                    b_tenant_id b <> "t1").
Proof.
  apply (client_reads_only_own_booking "c1" client "t1" "b2" Cases.clinic_with_eva).
  constructor; [intros [H | []]; discriminate H | ].
  constructor; [intros [] | constructor].
Defined.

End AdministrationScenarios.

